(** * Platypus: the fleet energy-aware control loop

    A shallow embedding of the metric store ([Collector]), the scoring
    engine ([Analyzer]), the autoscaler and the migration planner of the
    platypus repository, with the properties of the design document stated
    and settled against the code.

    Conventions of the embedding.
    - [float64] values are extended rationals: a finite value is an exact
      rational (no rounding, no overflow, one zero), and the three special
      values [+Inf], [-Inf] and [NaN] follow the IEEE-754 rules Go uses for
      arithmetic, comparison, [math.Max] and [math.Abs].  Where a statement
      turns on the rounded value itself (the power-saving estimate, the
      priority of a plan) the arithmetic is that of binary64, bit for bit
      ([B64], [migration64]).
    - [time.Time] and [time.Duration] are integers counting nanoseconds;
      functions that read the clock take the reading as an argument.
    - Go's [(value, error)] results are values of [result].
    - Maps are stdpp's [gmap]; slices are lists.
    - The calls to the cloud provider and to the container orchestrator
      are arguments of the functions that make them; a pass returns the
      relocation calls it issued next to its result.
    - [executeMigrations], which runs goroutines that contend for a mutex,
      is a transition system. *)

From Stdlib Require Import ZArith QArith Qabs Qround Lqa Lia List.
From Stdlib Require SpecFloat.
From stdpp Require Import base option list gmap strings fin_maps relations.
Import ListNotations.

Local Open Scope Z_scope.

(** ** Floating-point values *)

Module F64.

Inductive float64 : Type :=
| Fin (q : Q)
| PInf
| NInf
| NaN.

Definition zero : float64 := Fin 0.

Definition is_finite (x : float64) : bool :=
  match x with Fin _ => true | _ => false end.

Definition fneg (x : float64) : float64 :=
  match x with
  | Fin q => Fin (- q)
  | PInf => NInf
  | NInf => PInf
  | NaN => NaN
  end.

Definition fadd (x y : float64) : float64 :=
  match x, y with
  | NaN, _ | _, NaN => NaN
  | Fin a, Fin b => Fin (a + b)
  | PInf, NInf | NInf, PInf => NaN
  | PInf, _ | _, PInf => PInf
  | NInf, _ | _, NInf => NInf
  end.

Definition fsub (x y : float64) : float64 := fadd x (fneg y).

(** The sign of a rational, as a comparison with zero. *)
Definition sgn (a : Q) : comparison := (a ?= 0)%Q.

Definition finf (positive : bool) : float64 := if positive then PInf else NInf.

Definition fmul (x y : float64) : float64 :=
  match x, y with
  | NaN, _ | _, NaN => NaN
  | Fin a, Fin b => Fin (a * b)
  | Fin a, PInf | PInf, Fin a =>
      match sgn a with Eq => NaN | Gt => PInf | Lt => NInf end
  | Fin a, NInf | NInf, Fin a =>
      match sgn a with Eq => NaN | Gt => NInf | Lt => PInf end
  | PInf, PInf | NInf, NInf => PInf
  | PInf, NInf | NInf, PInf => NInf
  end.

(** Division never faults on [float64]: a zero divisor yields an infinity
    of the dividend's sign, or [NaN] for [0/0]. *)
Definition fdiv (x y : float64) : float64 :=
  match x, y with
  | NaN, _ | _, NaN => NaN
  | Fin a, Fin b =>
      match sgn b with
      | Eq => match sgn a with Eq => NaN | Gt => PInf | Lt => NInf end
      | _ => Fin (a / b)
      end
  | Fin _, (PInf | NInf) => Fin 0
  | PInf, Fin b => match sgn b with Lt => NInf | _ => PInf end
  | NInf, Fin b => match sgn b with Lt => PInf | _ => NInf end
  | (PInf | NInf), (PInf | NInf) => NaN
  end.

(** [x < y]; every comparison with [NaN] is false. *)
Definition flt (x y : float64) : bool :=
  match x, y with
  | NaN, _ | _, NaN => false
  | Fin a, Fin b => match (a ?= b)%Q with Lt => true | _ => false end
  | _, NInf => false
  | NInf, _ => true
  | PInf, _ => false
  | Fin _, PInf => true
  end.

Definition fgt (x y : float64) : bool := flt y x.

(** [x <= y]; false when either side is [NaN]. *)
Definition fle (x y : float64) : bool :=
  match x, y with
  | NaN, _ | _, NaN => false
  | Fin a, Fin b => match (a ?= b)%Q with Gt => false | _ => true end
  | NInf, _ => true
  | _, PInf => true
  | _, NInf => false
  | PInf, _ => false
  end.

(** [x == y]. *)
Definition feq (x y : float64) : bool :=
  match x, y with
  | Fin a, Fin b => Qeq_bool a b
  | PInf, PInf | NInf, NInf => true
  | _, _ => false
  end.

(** [math.Max]: [+Inf] wins over everything, then [NaN], then the larger. *)
Definition fmax (x y : float64) : float64 :=
  match x, y with
  | PInf, _ | _, PInf => PInf
  | NaN, _ | _, NaN => NaN
  | NInf, v | v, NInf => v
  | Fin a, Fin b => match (a ?= b)%Q with Lt => Fin b | _ => Fin a end
  end.

(** [math.Abs]. *)
Definition fabs (x : float64) : float64 :=
  match x with
  | Fin q => Fin (Qabs q)
  | PInf | NInf => PInf
  | NaN => NaN
  end.

(** [float64(n)] for an integer [n]. *)
Definition of_int (n : Z) : float64 := Fin (inject_Z n).

(** Truncation toward zero of a rational. *)
Definition trunc (q : Q) : Z := Z.quot (Qnum q) (Zpos (Qden q)).

Definition min_int : Z := - 2 ^ 63.
Definition max_int : Z := 2 ^ 63 - 1.

(** [int(x)]: the fractional part is discarded.  When the truncated value
    does not fit Go's 64-bit [int], or [x] is not finite, the conversion
    succeeds with an implementation-dependent result, here
    [unrepresentable x]. *)
Definition to_int (unrepresentable : float64 -> Z) (x : float64) : Z :=
  match x with
  | Fin q =>
      let n := trunc q in
      if (min_int <=? n) && (n <=? max_int) then n else unrepresentable x
  | _ => unrepresentable x
  end.

(** Two's-complement wrap-around of 64-bit [int] arithmetic. *)
Definition wrap64 (z : Z) : Z := (z + 2 ^ 63) mod 2 ^ 64 - 2 ^ 63.

(** A value in the closed interval [[lo, hi]]: finite and between the bounds. *)
Definition within (lo hi : Q) (x : float64) : Prop :=
  exists q, x = Fin q /\ (lo <= q)%Q /\ (q <= hi)%Q.

(** [0 <= x] as Go evaluates it: a non-negative finite value or [+Inf]. *)
Definition nonneg (x : float64) : Prop := fle zero x = true.

End F64.
Import F64.

(** ** Floating-point values, bit for bit

    IEEE-754 binary64 as the standard library specifies it: a value is a
    signed zero, a signed infinity, [NaN], or a sign, a mantissa and an
    exponent, and every operation rounds to nearest, ties to even. *)

Module B64.

Import SpecFloat.

Definition binary64 : Type := spec_float.

Definition prec : Z := 53.
Definition emax : Z := 1024.

Definition add : binary64 -> binary64 -> binary64 := SFadd prec emax.
Definition sub : binary64 -> binary64 -> binary64 := SFsub prec emax.
Definition mul : binary64 -> binary64 -> binary64 := SFmul prec emax.
Definition div : binary64 -> binary64 -> binary64 := SFdiv prec emax.


(** The constant [0], [NaN] and the infinities. *)
Definition zero : binary64 := S754_zero false.
Definition pos_inf : binary64 := S754_infinity false.

(** [float64(n)] for an integer [n], and an integer constant used as a
    [float64]. *)
Definition of_int (n : Z) : binary64 := binary_normalize prec emax n 0 false.


(** Neither an infinity nor [NaN]. *)
Definition is_finite (x : binary64) : bool :=
  match x with S754_zero _ | S754_finite _ _ _ => true | _ => false end.

(** The number a finite value stands for. *)
Definition value (x : binary64) : option Q :=
  match x with
  | S754_zero _ => Some 0%Q
  | S754_finite s m e =>
      Some ((if s then - inject_Z (Zpos m) else inject_Z (Zpos m)) * Qpower 2 e)%Q
  | _ => None
  end.

(** [int(x)]: the fractional part is discarded.  When the truncated value
    does not fit Go's 64-bit [int], or [x] is not finite, the conversion
    succeeds with an implementation-dependent result, here
    [unrepresentable x]. *)
Definition to_int (unrepresentable : binary64 -> Z) (x : binary64) : Z :=
  match value x with
  | Some q =>
      let n := trunc q in
      if (min_int <=? n) && (n <=? max_int) then n else unrepresentable x
  | None => unrepresentable x
  end.

End B64.

(** ** Results *)

Inductive result (A : Type) : Type :=
| Ok (a : A)
| Err (msg : string).
Arguments Ok {A} a.
Arguments Err {A} msg.

(** ** package time *)

Module time.

(** Instants and durations, in nanoseconds. *)
Definition Second : Z := 1000000000.
Definition Minute : Z := 60 * Second.
Definition Hour : Z := 60 * Minute.

Definition minDuration : Z := - 2 ^ 63.
Definition maxDuration : Z := 2 ^ 63 - 1.

(** [time.Unix(sec, 0)], counted from the Unix epoch. *)
Definition Unix (sec : Z) : Z := sec * Second.

(** The zero [time.Time]: January 1, year 1, 00:00 UTC. *)
Definition zero : Z := Unix (-62135596800).

(** [t.After(u)] *)
Definition After (t u : Z) : bool := u <? t.

(** [t.Add(d)] *)
Definition Add (t d : Z) : Z := t + d.

(** [t.Sub(u)]: the difference, saturated to the range of a [Duration]. *)
Definition Sub (t u : Z) : Z := Z.max minDuration (Z.min maxDuration (t - u)).

(** [time.Since(t)] when the clock reads [now]. *)
Definition Since (now t : Z) : Z := Sub now t.

End time.

(** ** internal/models/types.go *)

Record MetricData : Type := {
  ServerID : string;
  Timestamp : Z;
  PowerUsage : float64;
  CarbonFootprint : float64;
  CPUUsage : float64;
  MemoryUsage : float64;
}.

Record Server : Type := {
  ID : string;
  Provider : string;
  Region : string;
  InstanceType : string;
  EcoScore : float64;
}.

Record Container : Type := {
  cID : string;
  cServerID : string;
  ServiceName : string;
  EcoTags : list string;
  cPowerUsage : float64;
}.

(** The zero value [models.Server{}]. *)
Definition Server_zero : Server :=
  {| ID := ""; Provider := ""; Region := ""; InstanceType := ""; EcoScore := zero |}.

Definition len {A} (l : list A) : Z := Z.of_nat (length l).

(** ** package cloud: the provider interface *)

Module cloud.

(** The two methods of [CloudProvider] the control loop calls.  The
    context argument is dropped; [MigrateContainer] answers [None] for a
    nil error and [Some msg] for a failure. *)
Record CloudProvider : Type := {
  GetInstances : result (list Server);
  MigrateContainer : string -> string -> string -> option string;
}.

End cloud.

(** ** package metrics: collector *)

Module metrics.

Record CollectorConfig : Type := {
  RetentionPeriod : Z;
  CollectionInterval : Z;
  BatchSize : Z;
  BufferSize : Z;
}.

Record ServerMetrics : Type := {
  Data : list MetricData;
  LastUpdate : Z;
}.

Record MetricBatch : Type := {
  bServerID : string;
  Metrics : list MetricData;
  bTimestamp : Z;
}.

(** A Go channel as the language defines sending on it: a buffered
    channel holds a queue and a send can proceed if there is room in the
    buffer; an unbuffered channel has no buffer and a send can proceed if
    a receiver is blocked at its receive, which then holds the value
    ([received]: the values handed to the receiver that it has yet to act
    on). *)
Inductive chan (A : Type) : Type :=
| Unbuffered (receiver_ready : bool) (received : list A)
| Buffered (capacity : Z) (queue : list A).
Arguments Unbuffered {A} receiver_ready received.
Arguments Buffered {A} capacity queue.

(** [make(chan A, n)] *)
Definition make_chan {A} (n : Z) : chan A :=
  if n =? 0 then Unbuffered false [] else Buffered n [].

(** [len(ch)] and [cap(ch)]; both are 0 for an unbuffered channel. *)
Definition chan_len {A} (ch : chan A) : Z :=
  match ch with
  | Unbuffered _ _ => 0
  | Buffered _ queue => len queue
  end.

Definition chan_cap {A} (ch : chan A) : Z :=
  match ch with
  | Unbuffered _ _ => 0
  | Buffered capacity _ => capacity
  end.

(** A goroutine blocks at [<-ch]. *)
Definition await {A} (ch : chan A) : chan A :=
  match ch with
  | Unbuffered _ received => Unbuffered true received
  | Buffered _ _ => ch
  end.

(** [select { case ch <- v: ...; default: ... }]: the channel after the
    send when it can proceed at once, [None] when the default branch runs.
    On an unbuffered channel the value goes to the waiting receiver, which
    is then no longer waiting. *)
Definition try_send {A} (ch : chan A) (v : A) : option (chan A) :=
  match ch with
  | Unbuffered ready received =>
      if ready then Some (Unbuffered false (received ++ [v])) else None
  | Buffered capacity queue =>
      if len queue <? capacity then Some (Buffered capacity (queue ++ [v]))
      else None
  end.

(** [<-ch] in the loop of the consumer: the next value buffered or, on an
    unbuffered channel, the next value the consumer was handed, after
    which it is back at its receive. *)
Definition try_recv {A} (ch : chan A) : option (A * chan A) :=
  match ch with
  | Buffered capacity (v :: queue) => Some (v, Buffered capacity queue)
  | Unbuffered _ (v :: received) => Some (v, Unbuffered true received)
  | _ => None
  end.

Record Collector : Type := {
  config : CollectorConfig;
  metrics : gmap string ServerMetrics;
  buffer : chan MetricBatch;
}.

Definition NewCollector (config : CollectorConfig) : Collector :=
  {| config := config; metrics := ∅; buffer := make_chan (BufferSize config) |}.

Definition set_metrics (c : Collector) (m : gmap string ServerMetrics) : Collector :=
  {| config := config c; metrics := m; buffer := buffer c |}.

Definition set_buffer (c : Collector) (b : chan MetricBatch) : Collector :=
  {| config := config c; metrics := metrics c; buffer := b |}.

Definition processBatch (c : Collector) (batch : MetricBatch) : Collector :=
  let existing :=
    match metrics c !! bServerID batch with
    | Some sm => sm
    | None => {| Data := []; LastUpdate := time.zero |}
    end in
  set_metrics c
    (<[bServerID batch :=
         {| Data := Data existing ++ Metrics batch;
            LastUpdate := bTimestamp batch |}]> (metrics c)).

(** [Start]: the goroutine of [processBuffer] is launched and blocks at
    its receive (the goroutine of [cleanupOldMetrics] waits for its
    ticker). *)
Definition Start (c : Collector) : Collector :=
  set_buffer c (await (buffer c)).

(** One iteration of [processBuffer]: take a batch off the buffer and
    incorporate it. *)
Definition processBuffer_step (c : Collector) : option Collector :=
  match try_recv (buffer c) with
  | Some (batch, b) => Some (processBatch (set_buffer c b) batch)
  | None => None
  end.

(** [CollectMetrics] at clock reading [now]: the collector afterwards and
    the error, if any. *)
Definition CollectMetrics (c : Collector) (now : Z) (serverID : string)
    (data : MetricData) : Collector * option string :=
  let batch := {| bServerID := serverID; Metrics := [data]; bTimestamp := now |} in
  match try_send (buffer c) batch with
  | Some b => (set_buffer c b, None)
  | None => (c, Some "metric buffer is full")
  end.

Definition GetMetrics (c : Collector) (serverID : string) : result (list MetricData) :=
  match metrics c !! serverID with
  | Some sm => Ok (Data sm)
  | None => Err ("no metrics found for server: " ++ serverID)
  end.

(** The test a sample must pass to survive a sweep with the given cutoff. *)
Definition fresh (cutoff : Z) (metric : MetricData) : bool :=
  time.After (time.Unix (Timestamp metric)) cutoff.

(** The body of [cleanupOldMetrics] for one tick of its ticker, at clock
    reading [now]. *)
Definition cleanupOldMetrics (c : Collector) (now : Z) : Collector :=
  let cutoff := time.Add now (- RetentionPeriod (config c)) in
  set_metrics c
    ((fun serverMetrics =>
        {| Data := List.filter (fresh cutoff) (Data serverMetrics);
           LastUpdate := LastUpdate serverMetrics |}) <$> metrics c).

(** ** package metrics: analyzer *)

(** [var sum float64; for _, m := range metrics { sum += f(m) }] *)
Definition sum_over {A} (f : A -> float64) (l : list A) : float64 :=
  fold_left (fun sum m => fadd sum (f m)) l zero.

Definition calculateMean (metrics : list MetricData) : float64 :=
  fdiv (sum_over PowerUsage metrics) (of_int (len metrics)).

Definition calculatePowerScore (metrics : list MetricData) : float64 :=
  let mean := calculateMean metrics in
  fmax (Fin 0) (fsub (Fin 1) (fdiv mean (Fin 1000))).

(** The per-sample term of [calculateUtilizationScore]. *)
Definition utilization (m : MetricData) : float64 :=
  fsub (Fin 1) (fabs (fsub (Fin (7 # 10)) (fdiv (CPUUsage m) (Fin 100)))).

Definition calculateUtilizationScore (metrics : list MetricData) : float64 :=
  fdiv (sum_over utilization metrics) (of_int (len metrics)).

Definition calculateCarbonScore (metrics : list MetricData) : float64 :=
  let avgCarbon := fdiv (sum_over CarbonFootprint metrics) (of_int (len metrics)) in
  fmax (Fin 0) (fsub (Fin 1) avgCarbon).

Definition calculateEfficiencyScore (metrics : list MetricData) : float64 :=
  if len metrics =? 0 then Fin 0
  else
    let powerScore := calculatePowerScore metrics in
    let utilizationScore := calculateUtilizationScore metrics in
    let carbonScore := calculateCarbonScore metrics in
    fmul (fadd (fadd (fmul powerScore (Fin (4 # 10)))
                     (fmul utilizationScore (Fin (3 # 10))))
               (fmul carbonScore (Fin (3 # 10))))
         (Fin 100).

(** Modelled from the spec: the exported [CalculateEcoScore] that the
    autoscaler, the planner, the tag manager and the API call on
    [*Analyzer] is not defined in the sources at hand.  The design
    document describes the eco-score as the composite efficiency rating
    and requires 0 on an empty sample set, which is what
    [calculateEfficiencyScore] computes. *)
Definition CalculateEcoScore (metrics : list MetricData) : float64 :=
  calculateEfficiencyScore metrics.

(** ** package metrics: the rest of the analyzer *)

Record AnalyzerConfig : Type := {
  MinDataPoints : Z;
  SmoothingFactor : float64;
  AnomalyThreshold : float64;
}.

Record Analyzer : Type := {
  a_config : AnalyzerConfig;
  a_collector : Collector;
}.

Record Anomaly : Type := {
  an_Timestamp : Z;
  an_Value : float64;
  an_Type : string;
  an_Severity : float64;
}.

Record MetricAnalysis : Type := {
  Mean : float64;
  Median : float64;
  StdDev : float64;
  Min : float64;
  Max : float64;
  Trend : string;
  Anomalies : list Anomaly;
  PeakUsageTime : Z;
  EfficiencyScore : float64;
}.

(** What a call that may index out of range does: it returns, or it
    panics. *)
Inductive outcome (A : Type) : Type :=
| Returns (r : A)
| Panics.
Arguments Returns {A} r.
Arguments Panics {A}.

(** [s[i]] for a slice [s] and an [int] index [i]; [None] stands for the
    index-out-of-range panic. *)
Definition at_index {A} (s : list A) (i : Z) : option A :=
  if i <? 0 then None else s !! Z.to_nat i.

Definition is_nan (x : float64) : bool :=
  match x with NaN => true | _ => false end.

(** The order of [sort.Float64s]: increasing, [NaN] before every other
    value. *)
Definition float_less (x y : float64) : bool :=
  flt x y || (is_nan x && negb (is_nan y)).

Fixpoint insert_float (x : float64) (l : list float64) : list float64 :=
  match l with
  | [] => [x]
  | y :: rest => if float_less x y then x :: l else y :: insert_float x rest
  end.

Definition sort_Float64s (l : list float64) : list float64 :=
  fold_right insert_float [] l.

Definition calculateMedian (metrics : list MetricData) : option float64 :=
  let values := sort_Float64s (map PowerUsage metrics) in
  let mid := Z.quot (len values) 2 in
  if Z.rem (len values) 2 =? 0 then
    match at_index values (mid - 1), at_index values mid with
    | Some a, Some b => Some (fdiv (fadd a b) (Fin 2))
    | _, _ => None
    end
  else at_index values mid.

Definition calculateMinMax (metrics : list MetricData) : option (float64 * float64) :=
  match metrics with
  | [] => None
  | first :: _ =>
      Some (fold_left
              (fun '(min, max) m =>
                 (if flt (PowerUsage m) min then PowerUsage m else min,
                  if fgt (PowerUsage m) max then PowerUsage m else max))
              metrics (PowerUsage first, PowerUsage first))
  end.

Definition analyzeTrend (metrics : list MetricData) : string :=
  if len metrics <? 2 then "stable"
  else
    let firstHalf := take (Z.to_nat (Z.quot (len metrics) 2)) metrics in
    let secondHalf := drop (Z.to_nat (Z.quot (len metrics) 2)) metrics in
    let firstMean := calculateMean firstHalf in
    let secondMean := calculateMean secondHalf in
    let diff := fsub secondMean firstMean in
    let threshold := fmul (Fin (1 # 10)) firstMean in
    if fgt diff threshold then "increasing"
    else if flt diff (fneg threshold) then "decreasing"
    else "stable".

Definition classifyAnomaly (value mean : float64) : string :=
  if fgt value mean then "spike" else "drop".

Definition detectAnomalies (a : Analyzer) (metrics : list MetricData)
    (mean stdDev : float64) : list Anomaly :=
  fold_left
    (fun anomalies m =>
       let zScore := fdiv (fabs (fsub (PowerUsage m) mean)) stdDev in
       if fgt zScore (AnomalyThreshold (a_config a)) then
         anomalies ++ [ {| an_Timestamp := time.Unix (Timestamp m);
                           an_Value := PowerUsage m;
                           an_Type := classifyAnomaly (PowerUsage m) mean;
                           an_Severity := zScore |} ]
       else anomalies)
    metrics [].

Definition findPeakUsageTime (metrics : list MetricData) : Z :=
  snd (fold_left
         (fun '(maxUsage, peakTime) m =>
            if fgt (PowerUsage m) maxUsage
            then (PowerUsage m, time.Unix (Timestamp m))
            else (maxUsage, peakTime))
         metrics (zero, time.zero)).

Section SquareRoot.

(** [math.Sqrt], which has no exact counterpart on rationals, is an
    argument of the two functions that use it. *)
Variable Sqrt : float64 -> float64.

Definition calculateStdDev (metrics : list MetricData) (mean : float64) : float64 :=
  let sumSquares :=
    fold_left
      (fun sumSquares m =>
         let diff := fsub (PowerUsage m) mean in
         fadd sumSquares (fmul diff diff))
      metrics zero in
  Sqrt (fdiv sumSquares (of_int (len metrics))).

Definition AnalyzeServerMetrics (a : Analyzer) (serverID : string)
    : outcome (result MetricAnalysis) :=
  match GetMetrics (a_collector a) serverID with
  | Err e => Returns (Err e)
  | Ok metrics =>
      if len metrics <? MinDataPoints (a_config a) then
        Returns (Err "insufficient data points for analysis")
      else
        let mean := calculateMean metrics in
        match calculateMedian metrics with
        | None => Panics
        | Some median =>
            let stdDev := calculateStdDev metrics mean in
            match calculateMinMax metrics with
            | None => Panics
            | Some (min, max) =>
                Returns (Ok {| Mean := mean;
                               Median := median;
                               StdDev := stdDev;
                               Min := min;
                               Max := max;
                               Trend := analyzeTrend metrics;
                               Anomalies := detectAnomalies a metrics mean stdDev;
                               PeakUsageTime := findPeakUsageTime metrics;
                               EfficiencyScore := calculateEfficiencyScore metrics |})
            end
        end
  end.

End SquareRoot.

(** [processBuffer] run for at most [n] batches: it stops early when the
    buffer is empty. *)
Fixpoint processBuffer (n : nat) (c : Collector) : Collector :=
  match n with
  | O => c
  | S n' =>
      match processBuffer_step c with
      | Some c' => processBuffer n' c'
      | None => c
      end
  end.

End metrics.

(** ** Relocation requests *)

(** One call of [MigrateContainer], as the provider sees it. *)
Record Relocation : Type := {
  r_container : string;
  r_source : string;
  r_target : string;
}.

(** The container enumeration both control loops rely on.  In the sources
    [getServerContainers] is a placeholder ("the implementation should be
    here") that lists no container; the loops below take the enumeration
    as an argument, so that what is proved of them holds for the
    placeholder and for whatever replaces it. *)
Definition Enumeration : Type := string -> result (list Container).

Definition getServerContainers : Enumeration := fun serverID => Ok [].

(** ** internal/scaling/autoscaler.go *)

Module scaling.

Record AutoscalerConfig : Type := {
  CPUThresholdHigh : float64;
  CPUThresholdLow : float64;
  PowerThresholdHigh : float64;
  ScaleUpCooldown : Z;
  ScaleDownCooldown : Z;
  EvaluationInterval : Z;
}.

Record Autoscaler : Type := {
  config : AutoscalerConfig;
  collector : metrics.Collector;
  provider : cloud.CloudProvider;
  lastScaleUp : Z;
  lastScaleDown : Z;
}.

Definition NewAutoscaler (config : AutoscalerConfig) (collector : metrics.Collector)
    (provider : cloud.CloudProvider) : Autoscaler :=
  {| config := config; collector := collector; provider := provider;
     lastScaleUp := time.zero; lastScaleDown := time.zero |}.

Definition set_lastScaleUp (a : Autoscaler) (t : Z) : Autoscaler :=
  {| config := config a; collector := collector a; provider := provider a;
     lastScaleUp := t; lastScaleDown := lastScaleDown a |}.

Definition set_lastScaleDown (a : Autoscaler) (t : Z) : Autoscaler :=
  {| config := config a; collector := collector a; provider := provider a;
     lastScaleUp := lastScaleUp a; lastScaleDown := t |}.

Definition shouldScaleUp (a : Autoscaler) (now : Z) (metric : MetricData) : bool :=
  if time.Since now (lastScaleUp a) <? ScaleUpCooldown (config a) then false
  else fgt (CPUUsage metric) (CPUThresholdHigh (config a))
       || fgt (PowerUsage metric) (PowerThresholdHigh (config a)).

Definition shouldScaleDown (a : Autoscaler) (now : Z) (metric : MetricData) : bool :=
  if time.Since now (lastScaleDown a) <? ScaleDownCooldown (config a) then false
  else flt (CPUUsage metric) (CPUThresholdLow (config a)).

(** One iteration of the loop of [findEnergyEfficientServer]. *)
Definition better (c : metrics.Collector) (best : Server * float64) (server : Server)
    : Server * float64 :=
  match metrics.GetMetrics c (ID server) with
  | Err _ => best
  | Ok ms =>
      let score := metrics.CalculateEcoScore ms in
      if fgt score (snd best) then (server, score) else best
  end.

Definition findEnergyEfficientServer (a : Autoscaler) : result Server :=
  match cloud.GetInstances (provider a) with
  | Err e => Err e
  | Ok servers =>
      Ok (fst (fold_left (better (collector a)) servers (Server_zero, zero)))
  end.

Definition relocate (source target : string) (container : Container) : Relocation :=
  {| r_container := cID container; r_source := source; r_target := target |}.

Definition migrate (p : cloud.CloudProvider) (r : Relocation) : option string :=
  cloud.MigrateContainer p (r_container r) (r_source r) (r_target r).

(** The relocation loop of [scaleDown]: the calls issued, and the error of
    the call that stopped the loop, if any. *)
Fixpoint migrate_until_error (p : cloud.CloudProvider) (requests : list Relocation)
    : list Relocation * option string :=
  match requests with
  | [] => ([], None)
  | r :: rest =>
      match migrate p r with
      | Some e => ([r], Some e)
      | None =>
          let '(issued, e) := migrate_until_error p rest in (r :: issued, e)
      end
  end.

(** What a pass leaves behind: the autoscaler, the relocation calls it
    issued, in order, and the error it returned. *)
Record Pass : Type := {
  after : Autoscaler;
  issued : list Relocation;
  failure : option string;
}.

Definition scaleUp (enumerate : Enumeration) (a : Autoscaler) (now : Z)
    (server : Server) : Pass :=
  match findEnergyEfficientServer a with
  | Err e => {| after := a; issued := []; failure := Some e |}
  | Ok targetServer =>
      match enumerate (ID server) with
      | Err e => {| after := a; issued := []; failure := Some e |}
      | Ok containers =>
          (* a failed call is skipped: every container is attempted *)
          {| after := set_lastScaleUp a now;
             issued := map (relocate (ID server) (ID targetServer)) containers;
             failure := None |}
      end
  end.

Definition scaleDown (enumerate : Enumeration) (a : Autoscaler) (now : Z)
    (server : Server) : Pass :=
  let ecoScore := metrics.CalculateEcoScore [] in
  if fgt ecoScore (Fin 80) then {| after := a; issued := []; failure := None |}
  else
    match findEnergyEfficientServer a with
    | Err e => {| after := a; issued := []; failure := Some e |}
    | Ok targetServer =>
        match enumerate (ID server) with
        | Err e => {| after := a; issued := []; failure := Some e |}
        | Ok containers =>
            match migrate_until_error (provider a)
                    (map (relocate (ID server) (ID targetServer)) containers) with
            | (calls, Some e) => {| after := a; issued := calls; failure := Some e |}
            | (calls, None) =>
                {| after := set_lastScaleDown a now; issued := calls; failure := None |}
            end
        end
    end.

(** A pass that does nothing. *)
Definition no_action (a : Autoscaler) : Pass :=
  {| after := a; issued := []; failure := None |}.

(** The body of the loop of [evaluate] for one server.  The clock is read
    once per evaluation tick: [now] serves both the cooldown tests and the
    timestamps the passes record. *)
Definition evaluate_server (enumerate : Enumeration) (a : Autoscaler) (now : Z)
    (server : Server) : Pass :=
  match metrics.GetMetrics (collector a) (ID server) with
  | Err _ => no_action a
  | Ok ms =>
      match last ms with
      | None => no_action a
      | Some lastMetric =>
          if shouldScaleUp a now lastMetric then scaleUp enumerate a now server
          else if shouldScaleDown a now lastMetric then scaleDown enumerate a now server
          else no_action a
      end
  end.

(** The loop of [evaluate]: it stops at the first pass that returns an error. *)
Fixpoint evaluate_loop (enumerate : Enumeration) (a : Autoscaler) (now : Z)
    (servers : list Server) : Pass :=
  match servers with
  | [] => no_action a
  | server :: rest =>
      let first := evaluate_server enumerate a now server in
      match failure first with
      | Some _ => first
      | None =>
          let others := evaluate_loop enumerate (after first) now rest in
          {| after := after others;
             issued := issued first ++ issued others;
             failure := failure others |}
      end
  end.

Definition evaluate (enumerate : Enumeration) (a : Autoscaler) (now : Z) : Pass :=
  match cloud.GetInstances (provider a) with
  | Err e => {| after := a; issued := []; failure := Some e |}
  | Ok servers => evaluate_loop enumerate a now servers
  end.

End scaling.
(** ** internal/migration/planner.go *)

Module migration.

Record MigrationPlan : Type := {
  ContainerID : string;
  SourceServerID : string;
  TargetServerID : string;
  Priority : Z;
  PowerSaving : float64;
  DowntimeEstimate : Z;
}.

Record PlannerConfig : Type := {
  MinPowerSaving : float64;
  MaxDowntime : Z;
  PlanningInterval : Z;
  ConcurrentMigrations : Z;
}.

Record Planner : Type := {
  config : PlannerConfig;
  collector : metrics.Collector;
  provider : cloud.CloudProvider;
  activePlans : gmap string MigrationPlan;
}.

Definition NewPlanner (config : PlannerConfig) (collector : metrics.Collector)
    (provider : cloud.CloudProvider) : Planner :=
  {| config := config; collector := collector; provider := provider;
     activePlans := ∅ |}.

Definition set_activePlans (p : Planner) (plans : gmap string MigrationPlan) : Planner :=
  {| config := config p; collector := collector p; provider := provider p;
     activePlans := plans |}.

Definition getServerEcoScore (p : Planner) (serverID : string) : float64 :=
  match metrics.GetMetrics (collector p) serverID with
  | Err _ => Fin 0
  | Ok ms => metrics.CalculateEcoScore ms
  end.

Definition estimatePowerSaving (p : Planner) (container : Container)
    (sourceServer targetServer : Server) : float64 :=
  let sourcePower := cPowerUsage container in
  let targetPower :=
    fmul sourcePower (fdiv (getServerEcoScore p (ID targetServer))
                           (getServerEcoScore p (ID sourceServer))) in
  fsub sourcePower targetPower.

Definition estimateDowntime (p : Planner) (container : Container)
    (sourceServer targetServer : Server) : Z :=
  let baseTime := 30 * time.Second in
  if String.eqb (Region sourceServer) (Region targetServer) then baseTime
  else baseTime + 1 * time.Minute.

Section Conversion.

(** What [int(x)] yields where Go leaves it to the implementation. *)
Variable unrepresentable : float64 -> Z.

Definition calculatePriority (p : Planner) (powerSaving : float64) (downtime : Z) : Z :=
  let priority :=
    to_int unrepresentable
      (fmul (fdiv powerSaving (MinPowerSaving (config p))) (Fin 10)) in
  let priority :=
    if Z.quot (MaxDowntime (config p)) 2 <? downtime then wrap64 (priority - 2)
    else priority in
  let priority := if priority <? 1 then 1 else priority in
  let priority := if 10 <? priority then 10 else priority in
  priority.

(** One iteration of the loop of [findBestMigrationPlan]; the state is
    [(bestPlan, maxPowerSaving)]. *)
Definition consider (p : Planner) (container : Container) (sourceServer : Server)
    (best : option MigrationPlan * float64) (targetServer : Server)
    : option MigrationPlan * float64 :=
  if String.eqb (ID targetServer) (ID sourceServer) then best
  else
    let powerSaving := estimatePowerSaving p container sourceServer targetServer in
    if flt powerSaving (MinPowerSaving (config p)) then best
    else
      let downtime := estimateDowntime p container sourceServer targetServer in
      if MaxDowntime (config p) <? downtime then best
      else if fgt powerSaving (snd best) then
        (Some {| ContainerID := cID container;
                 SourceServerID := ID sourceServer;
                 TargetServerID := ID targetServer;
                 Priority := calculatePriority p powerSaving downtime;
                 PowerSaving := powerSaving;
                 DowntimeEstimate := downtime |},
         powerSaving)
      else best.

Definition findBestMigrationPlan (p : Planner) (container : Container)
    (sourceServer : Server) (targetServers : list Server) : option MigrationPlan :=
  fst (fold_left (consider p container sourceServer) targetServers (None, zero)).

(** The body of the loop over a server's containers. *)
Definition planContainer (servers : list Server) (sourceServer : Server)
    (p : Planner) (container : Container) : Planner :=
  match activePlans p !! cID container with
  | Some _ => p
  | None =>
      match findBestMigrationPlan p container sourceServer servers with
      | Some bestPlan =>
          set_activePlans p (<[cID container := bestPlan]> (activePlans p))
      | None => p
      end
  end.

(** The body of the loop over the servers. *)
Definition planServer (enumerate : Enumeration) (servers : list Server)
    (p : Planner) (sourceServer : Server) : Planner :=
  if fgt (getServerEcoScore p (ID sourceServer)) (Fin 70) then p
  else
    match enumerate (ID sourceServer) with
    | Err _ => p
    | Ok containers => fold_left (planContainer servers sourceServer) containers p
    end.

(** The planning loop over the servers in the order [sort.Slice] left them in. *)
Definition planServers (enumerate : Enumeration) (servers : list Server)
    (p : Planner) : Planner :=
  fold_left (planServer enumerate servers) servers p.

(** [sort.Slice] is not stable and promises no particular order between
    servers that compare equal; this insertion sort yields one of the
    orders it may produce. *)
Fixpoint insert_sorted {A} (less : A -> A -> bool) (x : A) (l : list A) : list A :=
  match l with
  | [] => [x]
  | y :: rest => if less y x then y :: insert_sorted less x rest else x :: l
  end.

Definition sort_Slice {A} (less : A -> A -> bool) (l : list A) : list A :=
  fold_right (insert_sorted less) [] l.

Definition planMigrations (enumerate : Enumeration) (p : Planner)
    : Planner * option string :=
  match cloud.GetInstances (provider p) with
  | Err e => (p, Some e)
  | Ok servers =>
      let servers :=
        sort_Slice (fun i j => fgt (getServerEcoScore p (ID i))
                                   (getServerEcoScore p (ID j))) servers in
      (planServers enumerate servers p, None)
  end.

End Conversion.

(** *** executeMigrations

    The pass runs one goroutine per plan next to its own, all contending
    for the planner's mutex, so it is a transition system: a state holds
    the registry, the mutex, where the pass itself stands and where each
    worker stands; a step lets one of them advance. *)

(** Where the goroutine of [executeMigrations] stands: in its loop with
    the plans still to start, at [wg.Wait()], or returned. *)
Inductive MainPC : Type :=
| Spawning (todo : list MigrationPlan)
| Waiting
| Returned.

(** Where a worker stands: before [MigrateContainer], at [p.mu.Lock()]
    after a successful relocation, or finished (slot released, [wg.Done]). *)
Inductive WorkerPC : Type :=
| Migrating
| Locking
| Finished.

Record Exec : Type := {
  registry : gmap string MigrationPlan;
  mu_locked : bool;
  main : MainPC;
  workers : list (MigrationPlan * WorkerPC);
}.

Inductive Thread : Type :=
| TMain
| TWorker (i : nat).

Definition finished (w : MigrationPlan * WorkerPC) : bool :=
  match snd w with Finished => true | _ => false end.

(** The slots of [sem] in use: the workers started and not yet finished. *)
Definition in_flight (ws : list (MigrationPlan * WorkerPC)) : Z :=
  len (List.filter (fun w => negb (finished w)) ws).

Definition set_worker (s : Exec) (i : nat) (w : MigrationPlan * WorkerPC) : Exec :=
  {| registry := registry s; mu_locked := mu_locked s; main := main s;
     workers := <[i := w]> (workers s) |}.

(** The plans of the registry ordered by priority, highest first. *)
Definition snapshot (p : Planner) : list MigrationPlan :=
  sort_Slice (fun a b => Priority b <? Priority a)
             (snd <$> map_to_list (activePlans p)).

(** The state once the pass holds [p.mu] and has sorted its [plans]. *)
Definition exec_init (p : Planner) (plans : list MigrationPlan) : Exec :=
  {| registry := activePlans p; mu_locked := true;
     main := Spawning plans; workers := [] |}.

(** One step of thread [t], or [None] when [t] is blocked or done. *)
Definition exec_step (p : Planner) (t : Thread) (s : Exec) : option Exec :=
  match t with
  | TMain =>
      match main s with
      | Spawning [] =>
          Some {| registry := registry s; mu_locked := mu_locked s;
                  main := Waiting; workers := workers s |}
      | Spawning (plan :: rest) =>
          (* sem <- struct{}{} needs a free slot *)
          if in_flight (workers s) <? ConcurrentMigrations (config p) then
            Some {| registry := registry s; mu_locked := mu_locked s;
                    main := Spawning rest;
                    workers := workers s ++ [(plan, Migrating)] |}
          else None
      | Waiting =>
          (* wg.Wait(), then the deferred p.mu.Unlock() *)
          if forallb finished (workers s) then
            Some {| registry := registry s; mu_locked := false;
                    main := Returned; workers := workers s |}
          else None
      | Returned => None
      end
  | TWorker i =>
      match workers s !! i with
      | Some (plan, Migrating) =>
          match cloud.MigrateContainer (provider p) (ContainerID plan)
                  (SourceServerID plan) (TargetServerID plan) with
          | None => Some (set_worker s i (plan, Locking))
          | Some _ => Some (set_worker s i (plan, Finished))
          end
      | Some (plan, Locking) =>
          (* p.mu.Lock(); delete(p.activePlans, plan.ContainerID); p.mu.Unlock() *)
          if mu_locked s then None
          else
            Some {| registry := delete (ContainerID plan) (registry s);
                    mu_locked := mu_locked s; main := main s;
                    workers := <[i := (plan, Finished)]> (workers s) |}
      | Some (_, Finished) | None => None
      end
  end.

(** A state reached from [s] by letting threads step in some order. *)
Definition exec_next (p : Planner) (s s' : Exec) : Prop :=
  exists t, exec_step p t s = Some s'.

Definition reachable (p : Planner) (plans : list MigrationPlan) (s : Exec) : Prop :=
  rtc (exec_next p) (exec_init p plans) s.

(** Running a schedule: each thread named steps once, in turn. *)
Fixpoint run (p : Planner) (schedule : list Thread) (s : Exec) : option Exec :=
  match schedule with
  | [] => Some s
  | t :: rest =>
      match exec_step p t s with
      | Some s' => run p rest s'
      | None => None
      end
  end.

(** No thread can step and the pass has not returned. *)
Definition deadlocked (p : Planner) (s : Exec) : Prop :=
  main s <> Returned /\ forall t, exec_step p t s = None.

End migration.

(** ** internal/migration/planner.go: the estimates in binary64

    The arithmetic of [estimatePowerSaving] and [calculatePriority] once
    more, with every operation rounded as [float64] rounds it. *)

Module migration64.

Section Scores.

(** [p.analyzer.CalculateEcoScore], which is not among the sources, and
    [p.collector]. *)
Variable CalculateEcoScore : list MetricData -> B64.binary64.
Variable collector : metrics.Collector.

Definition getServerEcoScore (serverID : string) : B64.binary64 :=
  match metrics.GetMetrics collector serverID with
  | Err _ => B64.zero
  | Ok metrics => CalculateEcoScore metrics
  end.

(** [sourcePower] is [container.PowerUsage]. *)
Definition estimatePowerSaving (sourcePower : B64.binary64)
    (sourceServer targetServer : Server) : B64.binary64 :=
  let targetPower :=
    B64.mul sourcePower (B64.div (getServerEcoScore (ID targetServer))
                                 (getServerEcoScore (ID sourceServer))) in
  B64.sub sourcePower targetPower.

End Scores.

(** [MinPowerSaving] and [MaxDowntime] are the fields of [p.config]. *)
Definition calculatePriority (unrepresentable : B64.binary64 -> Z)
    (MinPowerSaving : B64.binary64) (MaxDowntime : Z)
    (powerSaving : B64.binary64) (downtime : Z) : Z :=
  let priority :=
    B64.to_int unrepresentable
      (B64.mul (B64.div powerSaving MinPowerSaving) (B64.of_int 10)) in
  let priority :=
    if Z.quot MaxDowntime 2 <? downtime then wrap64 (priority - 2)
    else priority in
  let priority := if priority <? 1 then 1 else priority in
  let priority := if 10 <? priority then 10 else priority in
  priority.

End migration64.
(** ** internal/ecotags/manager.go *)

Module ecotags.

(** [Description], which no code reads, is left out. *)
Record EcoTag : Type := {
  Name : string;
  Score : float64;
  Weight : float64;
  Threshold : float64;
}.

(** The fields carry a prefix to keep them apart from those of
    [MetricData] and [Container]. *)
Record ServiceEcoProfile : Type := {
  pServiceName : string;
  pTags : list string;
  pEcoScore : float64;
  pPowerUsage : float64;
  pCarbonFootprint : float64;
  pLastUpdate : Z;
}.

Record TagManagerConfig : Type := {
  UpdateInterval : Z;
  MinDataPoints : Z;
}.

Record TagManager : Type := {
  config : TagManagerConfig;
  collector : metrics.Collector;
  analyzer : metrics.Analyzer;
  profiles : gmap string ServiceEcoProfile;
  tags : gmap string EcoTag;
}.

Definition initializeTags : gmap string EcoTag :=
  {[ "eco-efficient" :=
       {| Name := "eco-efficient"; Score := Fin 100; Weight := Fin 1;
          Threshold := Fin 80 |};
     "energy-intensive" :=
       {| Name := "energy-intensive"; Score := Fin 20; Weight := Fin 1;
          Threshold := Fin 500 |};
     "carbon-neutral" :=
       {| Name := "carbon-neutral"; Score := Fin 100; Weight := Fin (15 # 10);
          Threshold := Fin (1 # 10) |};
     "optimizable" :=
       {| Name := "optimizable"; Score := Fin 50; Weight := Fin (8 # 10);
          Threshold := Fin 60 |};
     "peak-hours" :=
       {| Name := "peak-hours"; Score := Fin 30; Weight := Fin (7 # 10);
          Threshold := Fin (8 # 10) |} ]}.

Definition NewTagManager (config : TagManagerConfig) (collector : metrics.Collector)
    (analyzer : metrics.Analyzer) : TagManager :=
  {| config := config; collector := collector; analyzer := analyzer;
     profiles := ∅; tags := initializeTags |}.

Section Clock.

(** [time.Unix(sec, 0).Hour()]: the hour of the day, 0 to 23, in the
    time zone of the process. *)
Variable Hour : Z -> Z.

(** [peakHours[hour]]: the map holds the hours 9 to 17. *)
Definition peakHours (hour : Z) : bool :=
  existsb (Z.eqb hour) [9; 10; 11; 12; 13; 14; 15; 16; 17].

(** One iteration of the loop of [isPeakHoursActive]; the state is
    [(peakCount, totalCount)]. *)
Definition count_peak (counts : Z * Z) (m : MetricData) : Z * Z :=
  let '(peakCount, totalCount) := counts in
  if peakHours (Hour (Timestamp m)) then
    ((if fgt (PowerUsage m) (Fin 0) then peakCount + 1 else peakCount),
     totalCount + 1)
  else counts.

Definition isPeakHoursActive (metrics : list MetricData) : bool :=
  let '(peakCount, totalCount) := fold_left count_peak metrics (0, 0) in
  if totalCount =? 0 then false
  else fle (Fin (8 # 10)) (fdiv (of_int peakCount) (of_int totalCount)).

(** The condition under which the [switch] of [analyzeContainer] awards
    the tag; a name it has no case for is never awarded. *)
Definition deserves (metrics : list MetricData) (avgPower avgCarbon : float64)
    (tagName : string) (tag : EcoTag) : bool :=
  if String.eqb tagName "eco-efficient" then
    fle (Threshold tag) (metrics.CalculateEcoScore metrics)
  else if String.eqb tagName "energy-intensive" then
    fle (Threshold tag) avgPower
  else if String.eqb tagName "carbon-neutral" then
    fle avgCarbon (Threshold tag)
  else if String.eqb tagName "optimizable" then
    flt (metrics.CalculateEcoScore metrics) (Threshold tag)
  else if String.eqb tagName "peak-hours" then
    isPeakHoursActive metrics
  else false.

(** One iteration of the loop over [tm.tags]; the state is
    [(tags, totalScore, totalWeight)]. *)
Definition award (metrics : list MetricData) (avgPower avgCarbon : float64)
    (acc : list string * float64 * float64) (entry : string * EcoTag)
    : list string * float64 * float64 :=
  let '(tags, totalScore, totalWeight) := acc in
  let '(tagName, tag) := entry in
  if deserves metrics avgPower avgCarbon tagName tag then
    (tags ++ [tagName],
     fadd totalScore (fmul (Score tag) (Weight tag)),
     fadd totalWeight (Weight tag))
  else acc.

(** [range tm.tags] visits the entries of the map in an order Go leaves
    open; [order] is the order of the call, and [now] its clock reading.
    [None] is the [nil] profile. *)
Definition analyzeContainer (order : list (string * EcoTag)) (now : Z)
    (tm : TagManager) (container : Container) : option ServiceEcoProfile :=
  match metrics.GetMetrics (collector tm) (cServerID container) with
  | Err _ => None
  | Ok metrics =>
      if len metrics <? MinDataPoints (config tm) then None
      else
        let totalPower := metrics.sum_over PowerUsage metrics in
        let totalCarbon := metrics.sum_over CarbonFootprint metrics in
        let avgPower := fdiv totalPower (of_int (len metrics)) in
        let avgCarbon := fdiv totalCarbon (of_int (len metrics)) in
        let '(tags, totalScore, totalWeight) :=
          fold_left (award metrics avgPower avgCarbon) order ([], zero, zero) in
        let ecoScore := fdiv totalScore totalWeight in
        let ecoScore := if feq totalWeight (Fin 0) then Fin 50 else ecoScore in
        Some {| pServiceName := ServiceName container;
                pTags := tags;
                pEcoScore := ecoScore;
                pPowerUsage := avgPower;
                pCarbonFootprint := avgCarbon;
                pLastUpdate := now |}
  end.

End Clock.

End ecotags.
(** ** Sample sets used in the statements below *)

(** A sample the score is meant for: power and carbon are non-negative and
    the CPU reading is within a "sweet spot" of 70%. *)
Definition sample_in_range (m : MetricData) : Prop :=
  nonneg (PowerUsage m) /\ nonneg (CarbonFootprint m) /\
  within (-30) 170 (CPUUsage m).

(** A sample with a CPU reading of 300%, 1000 W and 1 kg CO2e. *)
Definition overdriven_sample : MetricData :=
  {| ServerID := "s1"; Timestamp := 0; PowerUsage := Fin 1000;
     CarbonFootprint := Fin 1; CPUUsage := Fin 300; MemoryUsage := Fin 0 |}.

(** A sample at 40% CPU, 250 W and 0.5 kg CO2e. *)
Definition steady_sample : MetricData :=
  {| ServerID := "s1"; Timestamp := 0; PowerUsage := Fin 250;
     CarbonFootprint := Fin (1 # 2); CPUUsage := Fin 40; MemoryUsage := Fin 0 |}.


(** ** Collectors used in the statements below *)

(** The collector configuration of [cmd/server/main.go]. *)
Definition main_CollectorConfig : metrics.CollectorConfig :=
  {| metrics.RetentionPeriod := 168 * time.Hour;
     metrics.CollectionInterval := time.Minute;
     metrics.BatchSize := 100;
     metrics.BufferSize := 1000 |}.

(** A configuration without a buffer, and its collector once [Start] has
    launched the consumer. *)
Definition unbuffered_CollectorConfig : metrics.CollectorConfig :=
  {| metrics.RetentionPeriod := 168 * time.Hour;
     metrics.CollectionInterval := time.Minute;
     metrics.BatchSize := 100;
     metrics.BufferSize := 0 |}.

Definition waiting_collector : metrics.Collector :=
  metrics.Start (metrics.NewCollector unbuffered_CollectorConfig).

(** "The ingestion buffer is at capacity": it holds as many batches as it
    has room for. *)
Definition at_capacity {A} (ch : metrics.chan A) : Prop :=
  metrics.chan_cap ch <= metrics.chan_len ch.

(** A collector with room for two batches, one already waiting. *)
Definition small_collector : metrics.Collector :=
  {| metrics.config :=
       {| metrics.RetentionPeriod := 100 * time.Second;
          metrics.CollectionInterval := time.Minute;
          metrics.BatchSize := 1;
          metrics.BufferSize := 2 |};
     metrics.metrics := ∅;
     metrics.buffer :=
       metrics.Buffered 2
         [ {| metrics.bServerID := "s1"; metrics.Metrics := [steady_sample];
              metrics.bTimestamp := 0 |} ] |}.

(** A collector whose buffer of capacity one is full. *)
Definition full_collector : metrics.Collector :=
  {| metrics.config :=
       {| metrics.RetentionPeriod := 100 * time.Second;
          metrics.CollectionInterval := time.Minute;
          metrics.BatchSize := 1;
          metrics.BufferSize := 1 |};
     metrics.metrics := ∅;
     metrics.buffer :=
       metrics.Buffered 1
         [ {| metrics.bServerID := "s1"; metrics.Metrics := [steady_sample];
              metrics.bTimestamp := 0 |} ] |}.

(** A sample taken 900 s after the epoch. *)
Definition sample_at_900 : MetricData :=
  {| ServerID := "s1"; Timestamp := 900; PowerUsage := Fin 250;
     CarbonFootprint := Fin (1 # 2); CPUUsage := Fin 40; MemoryUsage := Fin 0 |}.

Definition sample_at_901 : MetricData :=
  {| ServerID := "s1"; Timestamp := 901; PowerUsage := Fin 250;
     CarbonFootprint := Fin (1 # 2); CPUUsage := Fin 40; MemoryUsage := Fin 0 |}.

(** A collector retaining 100 s of samples, holding the two samples above
    for server [s1]. *)
Definition boundary_collector : metrics.Collector :=
  {| metrics.config :=
       {| metrics.RetentionPeriod := 100 * time.Second;
          metrics.CollectionInterval := time.Minute;
          metrics.BatchSize := 1;
          metrics.BufferSize := 2 |};
     metrics.metrics :=
       {[ "s1" := {| metrics.Data := [sample_at_900; sample_at_901];
                     metrics.LastUpdate := time.Unix 901 |} ]};
     metrics.buffer := metrics.Buffered 2 [] |}.

(** ** Fleets used in the statements below *)

(** The autoscaler configuration of [cmd/server/main.go]. *)
Definition main_AutoscalerConfig : scaling.AutoscalerConfig :=
  {| scaling.CPUThresholdHigh := Fin 80;
     scaling.CPUThresholdLow := Fin 20;
     scaling.PowerThresholdHigh := Fin 1000;
     scaling.ScaleUpCooldown := 5 * time.Minute;
     scaling.ScaleDownCooldown := 15 * time.Minute;
     scaling.EvaluationInterval := 1 * time.Minute |}.

Definition sample (serverID : string) (cpu power carbon : Q) : MetricData :=
  {| ServerID := serverID; Timestamp := 1700000000; PowerUsage := Fin power;
     CarbonFootprint := Fin carbon; CPUUsage := Fin cpu; MemoryUsage := Fin 50 |}.

Definition server (id : string) : Server :=
  {| ID := id; Provider := "aws"; Region := "us-west-2";
     InstanceType := "m5.large"; EcoScore := zero |}.

Definition container (id serverID : string) (power : Q) : Container :=
  {| cID := id; cServerID := serverID; ServiceName := "web"; EcoTags := [];
     cPowerUsage := Fin power |}.

Definition collector_of (m : gmap string metrics.ServerMetrics) : metrics.Collector :=
  {| metrics.config := main_CollectorConfig; metrics.metrics := m;
     metrics.buffer := metrics.make_chan 1000 |}.

Definition series (ms : list MetricData) : metrics.ServerMetrics :=
  {| metrics.Data := ms; metrics.LastUpdate := time.Unix 1700000000 |}.

(** A provider that lists [servers] and relocates every container it is
    asked to. *)
Definition obliging_provider (servers : list Server) : cloud.CloudProvider :=
  {| cloud.GetInstances := Ok servers;
     cloud.MigrateContainer := fun _ _ _ => None |}.

(** A provider whose inventory call fails. *)
Definition unreachable_provider : cloud.CloudProvider :=
  {| cloud.GetInstances := Err "inventory unavailable";
     cloud.MigrateContainer := fun _ _ _ => None |}.

(** The clock reading of the scenarios: 60 s after the samples. *)
Definition scenario_now : Z := time.Unix 1700000060.

(** An idle but efficient server ([idle], eco-score 82) next to a better
    one ([green], eco-score 100). *)
Definition idle_sample : MetricData := sample "idle" 10 0 0.
Definition green_sample : MetricData := sample "green" 70 0 0.

Definition idle_fleet : scaling.Autoscaler :=
  scaling.NewAutoscaler main_AutoscalerConfig
    (collector_of {[ "idle" := series [idle_sample]; "green" := series [green_sample] ]})
    (obliging_provider [server "idle"; server "green"]).

(** An orchestrator that reports container [c1] on server [idle]. *)
Definition idle_containers : Enumeration :=
  fun serverID =>
    if String.eqb serverID "idle" then Ok [container "c1" "idle" 200] else Ok [].

(** An overloaded server ([hot], 90% CPU, eco-score 94) next to a less
    efficient one ([cool], eco-score 47). *)
Definition hot_sample : MetricData := sample "hot" 90 0 0.
Definition cool_sample : MetricData := sample "cool" 10 500 (1 # 2).

Definition hot_fleet : scaling.Autoscaler :=
  scaling.NewAutoscaler main_AutoscalerConfig
    (collector_of {[ "hot" := series [hot_sample]; "cool" := series [cool_sample] ]})
    (obliging_provider [server "hot"; server "cool"]).

(** An orchestrator that reports container [c7] on server [hot]. *)
Definition hot_containers : Enumeration :=
  fun serverID =>
    if String.eqb serverID "hot" then Ok [container "c7" "hot" 200] else Ok [].

(** A fleet none of whose servers has reported samples. *)
Definition silent_fleet : scaling.Autoscaler :=
  scaling.NewAutoscaler main_AutoscalerConfig (collector_of ∅)
    (obliging_provider [server "hot"; server "cool"]).

(** An orchestrator whose enumeration call fails. *)
Definition failing_enumeration : Enumeration :=
  fun serverID => Err "orchestrator unavailable".

(** An autoscaler whose provider cannot list the fleet. *)
Definition blind_fleet : scaling.Autoscaler :=
  scaling.NewAutoscaler main_AutoscalerConfig (collector_of ∅) unreachable_provider.

(** ** Planners used in the statements below *)

(** The planner configuration of [cmd/server/main.go]. *)
Definition main_PlannerConfig : migration.PlannerConfig :=
  {| migration.MinPowerSaving := Fin 100;
     migration.MaxDowntime := 2 * time.Minute;
     migration.PlanningInterval := 5 * time.Minute;
     migration.ConcurrentMigrations := 3 |}.

(** The conversion of amd64, which yields the smallest [int] for every
    value it cannot represent. *)
Definition amd64_int : float64 -> Z := fun _ => min_int.

(** A planner whose collector knows server [green] (eco-score 100) and
    has no sample for any other server. *)
Definition green_planner : migration.Planner :=
  migration.NewPlanner main_PlannerConfig
    (collector_of {[ "green" := series [green_sample] ]})
    (obliging_provider [server "mute"; server "green"; server "dumb"]).

(** A server in another region than [server]'s. *)
Definition far_server (id : string) : Server :=
  {| ID := id; Provider := "aws"; Region := "eu-central-1";
     InstanceType := "m5.large"; EcoScore := zero |}.

(** A plan to move container [c1] from [idle] to [green]. *)
Definition plan_c1 : migration.MigrationPlan :=
  {| migration.ContainerID := "c1";
     migration.SourceServerID := "idle";
     migration.TargetServerID := "green";
     migration.Priority := 8;
     migration.PowerSaving := Fin 109;
     migration.DowntimeEstimate := 90 * time.Second |}.

(** A planner with [plan_c1] in its registry and a provider that carries
    out every relocation. *)
Definition busy_planner : migration.Planner :=
  migration.set_activePlans green_planner {[ "c1" := plan_c1 ]}.

(** The same registry with a provider that refuses every relocation. *)
Definition refusing_provider : cloud.CloudProvider :=
  {| cloud.GetInstances := Ok [server "mute"; server "green"];
     cloud.MigrateContainer := fun _ _ _ => Some "migration refused" |}.

Definition thwarted_planner : migration.Planner :=
  {| migration.config := main_PlannerConfig;
     migration.collector := collector_of {[ "green" := series [green_sample] ]};
     migration.provider := refusing_provider;
     migration.activePlans := {[ "c1" := plan_c1 ]} |}.

(** *** Values and scores for the estimates in binary64 *)

(** 119.99999999999999, the [float64] next below 120, and
    29.999999999999996, the one next below 30. *)
Definition just_below_120 : B64.binary64 :=
  SpecFloat.S754_finite false 8444249301319679 (-46).

Definition just_below_30 : B64.binary64 :=
  SpecFloat.S754_finite false 8444249301319679 (-48).

(** [int(x)] on amd64 where the value does not fit. *)
Definition amd64_int64 : B64.binary64 -> Z := fun _ => min_int.

(** A stand-in for [CalculateEcoScore]: 47 for the samples of [cool], 12
    for those of [worn], 100 for any other and 0 for none. *)
Definition tabled_score (metrics : list MetricData) : B64.binary64 :=
  match metrics with
  | [] => B64.zero
  | m :: _ =>
      if String.eqb (ServerID m) "cool" then B64.of_int 47
      else if String.eqb (ServerID m) "worn" then B64.of_int 12
      else B64.of_int 100
  end.

(** *** The priority as the design document words it *)

(** [math.Round]: to the nearest integer, halves away from zero. *)
Definition round_half_away (q : Q) : Z :=
  match (q ?= 0)%Q with
  | Lt => - Qfloor (- q + (1 # 2))
  | _ => Qfloor (q + (1 # 2))
  end.

(** "round((powerSaving / MinPowerSaving) x 10), reduced by 2 if downtime
    exceeds half of MaxDowntime, then clamped to [1,10]". *)
Definition spec_priority (minPowerSaving : Q) (maxDowntime : Z)
    (powerSaving : Q) (downtime : Z) : Z :=
  let priority := round_half_away (powerSaving / minPowerSaving * 10) in
  let priority := if maxDowntime <? 2 * downtime then priority - 2 else priority in
  Z.max 1 (Z.min 10 priority).

(** ** Predicates on the registry and on an execution of [executeMigrations] *)

(** Every plan is filed under the identifier of its container. *)
Definition keyed_by_container (plans : gmap string migration.MigrationPlan) : Prop :=
  forall id plan, plans !! id = Some plan -> migration.ContainerID plan = id.


Definition relocation_fails (p : migration.Planner) (plan : migration.MigrationPlan) : Prop :=
  cloud.MigrateContainer (migration.provider p) (migration.ContainerID plan)
    (migration.SourceServerID plan) (migration.TargetServerID plan) <> None.

Definition todo_of (pc : migration.MainPC) : list migration.MigrationPlan :=
  match pc with migration.Spawning todo => todo | _ => [] end.

(** What holds of every state of a pass over [plans]: the registry is the
    one the pass started with, the mutex is held until the pass returns,
    a worker has finished only if its relocation failed, the workers
    started and the plans to start make up [plans], and the pass has
    returned only with every worker finished. *)
Definition exec_invariant (p : migration.Planner) (plans : list migration.MigrationPlan)
    (s : migration.Exec) : Prop :=
  migration.registry s = migration.activePlans p /\
  (migration.main s <> migration.Returned -> migration.mu_locked s = true) /\
  Forall (fun w => snd w = migration.Finished -> relocation_fails p (fst w))
         (migration.workers s) /\
  (fst <$> migration.workers s) ++ todo_of (migration.main s) = plans /\
  (migration.main s = migration.Returned ->
   Forall (fun w => snd w = migration.Finished) (migration.workers s)).

(** ** Helpers for the statements on the rest of the code *)

(** The samples the collector holds for a server, none for a server it
    does not know. *)
Definition series_of (c : metrics.Collector) (serverID : string) : list MetricData :=
  match metrics.metrics c !! serverID with
  | Some sm => metrics.Data sm
  | None => []
  end.

(** The samples that the batches of a queue carry for a server, in the
    order of the queue. *)
Definition queued_for (serverID : string) (queue : list metrics.MetricBatch)
    : list MetricData :=
  concat (map metrics.Metrics
            (List.filter (fun b => String.eqb (metrics.bServerID b) serverID) queue)).

(** A power reading and nothing else. *)
Definition reading (power : Q) (timestamp : Z) : MetricData :=
  {| ServerID := "s1"; Timestamp := timestamp; PowerUsage := Fin power;
     CarbonFootprint := Fin 0; CPUUsage := Fin 50; MemoryUsage := Fin 0 |}.

(** A sample whose power reading is [NaN]. *)
Definition nan_reading (timestamp : Z) : MetricData :=
  {| ServerID := "s1"; Timestamp := timestamp; PowerUsage := NaN;
     CarbonFootprint := Fin 0; CPUUsage := Fin 50; MemoryUsage := Fin 0 |}.

Definition batch_of (serverID : string) (ms : list MetricData) : metrics.MetricBatch :=
  {| metrics.bServerID := serverID; metrics.Metrics := ms; metrics.bTimestamp := 0 |}.

(** A collector that knows server [s1] and has two batches waiting, one
    for [s1] and one for [s2]. *)
Definition queued_collector : metrics.Collector :=
  {| metrics.config := main_CollectorConfig;
     metrics.metrics := {[ "s1" := series [reading 10 1] ]};
     metrics.buffer :=
       metrics.Buffered 3 [batch_of "s1" [reading 20 2]; batch_of "s2" [reading 30 3]] |}.

(** An analyzer that asks for no minimum of samples, over a collector
    where server [s1] is known with an empty series and server [s3] has
    three readings. *)
Definition lenient_analyzer : metrics.Analyzer :=
  {| metrics.a_config :=
       {| metrics.MinDataPoints := 0; metrics.SmoothingFactor := Fin (2 # 10);
          metrics.AnomalyThreshold := Fin (25 # 10) |};
     metrics.a_collector :=
       collector_of {[ "s1" := series [];
                       "s3" := series [reading 3 1; reading 1 2; reading 2 3] ]} |}.

(** The fleet of [hot_fleet] with a provider that refuses every
    relocation, and an orchestrator that reports two containers on [hot]. *)
Definition stubborn_fleet : scaling.Autoscaler :=
  scaling.NewAutoscaler main_AutoscalerConfig
    (collector_of {[ "hot" := series [hot_sample]; "cool" := series [cool_sample] ]})
    {| cloud.GetInstances := Ok [server "hot"; server "cool"];
       cloud.MigrateContainer := fun _ _ _ => Some "migration refused" |}.

Definition two_containers : Enumeration :=
  fun serverID =>
    if String.eqb serverID "hot"
    then Ok [container "c7" "hot" 200; container "c8" "hot" 100]
    else Ok [].

(** ** Predicates on plans *)

(** A target the loop of [findBestMigrationPlan] does not pass over
    before it compares savings: another server than the source, with an
    estimated saving not below the minimum and an estimated downtime not
    above the maximum. *)
Definition qualifies (p : migration.Planner) (c : Container)
    (sourceServer targetServer : Server) : Prop :=
  String.eqb (ID targetServer) (ID sourceServer) = false /\
  flt (migration.estimatePowerSaving p c sourceServer targetServer)
      (migration.MinPowerSaving (migration.config p)) = false /\
  (migration.MaxDowntime (migration.config p)
     <? migration.estimateDowntime p c sourceServer targetServer) = false.

(** The plan [findBestMigrationPlan] builds for a target. *)
Definition plan_for (unrepresentable : float64 -> Z) (p : migration.Planner)
    (c : Container) (sourceServer targetServer : Server) : migration.MigrationPlan :=
  {| migration.ContainerID := cID c;
     migration.SourceServerID := ID sourceServer;
     migration.TargetServerID := ID targetServer;
     migration.Priority :=
       migration.calculatePriority unrepresentable p
         (migration.estimatePowerSaving p c sourceServer targetServer)
         (migration.estimateDowntime p c sourceServer targetServer);
     migration.PowerSaving := migration.estimatePowerSaving p c sourceServer targetServer;
     migration.DowntimeEstimate := migration.estimateDowntime p c sourceServer targetServer |}.

(** What holds of every plan the planner files under a key. *)
Definition well_formed_plan (id : string) (plan : migration.MigrationPlan) : Prop :=
  migration.ContainerID plan = id /\
  migration.SourceServerID plan <> migration.TargetServerID plan /\
  1 <= migration.Priority plan <= 10 /\
  fgt (migration.PowerSaving plan) zero = true /\
  30 * time.Second <= migration.DowntimeEstimate plan <= 90 * time.Second.

(** A planner with server [green] (eco-score 100) and server [cool]
    (eco-score 47) in two regions. *)
Definition two_region_planner : migration.Planner :=
  migration.NewPlanner main_PlannerConfig
    (collector_of {[ "green" := series [green_sample]; "cool" := series [cool_sample] ]})
    (obliging_provider [server "green"; far_server "cool"]).

(** The state of the loop of [findBestMigrationPlan] after the targets
    [seen]: the best plan so far is the plan for a qualifying target seen,
    its saving is the running maximum and is above zero, and no
    qualifying target seen saves more. *)
Definition best_so_far (unrepresentable : float64 -> Z) (p : migration.Planner) (c : Container) (source : Server)
    (seen : list Server) (best : option migration.MigrationPlan * float64) : Prop :=
  fgt zero (snd best) = false /\
  (forall t, In t seen -> qualifies p c source t ->
     fgt (migration.estimatePowerSaving p c source t) (snd best) = false) /\
  match fst best with
  | None => snd best = zero
  | Some plan =>
      exists t, In t seen /\ qualifies p c source t /\
                plan = plan_for unrepresentable p c source t /\
                snd best = migration.estimatePowerSaving p c source t /\
                fgt (snd best) zero = true
  end.


(** The planner of [two_region_planner] with a maximum downtime of [n]
    seconds. *)
Definition hasty_planner (n : Z) : migration.Planner :=
  migration.NewPlanner
    {| migration.MinPowerSaving := Fin 100;
       migration.MaxDowntime := n * time.Second;
       migration.PlanningInterval := 5 * time.Minute;
       migration.ConcurrentMigrations := 3 |}
    (collector_of {[ "green" := series [green_sample]; "cool" := series [cool_sample] ]})
    (obliging_provider [server "green"; far_server "cool"]).

(** What a planning pass may change: plans are added, none is replaced or
    removed, each new plan is well formed, and the rest of the planner is
    as it was. *)
Definition grown_from (before after : migration.Planner) : Prop :=
  (forall id plan, migration.activePlans before !! id = Some plan ->
     migration.activePlans after !! id = Some plan) /\
  (forall id plan, migration.activePlans after !! id = Some plan ->
     migration.activePlans before !! id = Some plan \/ well_formed_plan id plan) /\
  migration.config after = migration.config before /\
  migration.collector after = migration.collector before /\
  migration.provider after = migration.provider before.

(** A planner with server [cool] (eco-score 47) and server [worn]
    (eco-score 12) in one region, and an orchestrator that reports
    container [c1], drawing 200 W, on [cool]. *)
Definition worn_sample : MetricData := sample "worn" 10 1000 1.

Definition declining_planner : migration.Planner :=
  migration.NewPlanner main_PlannerConfig
    (collector_of {[ "cool" := series [cool_sample]; "worn" := series [worn_sample] ]})
    (obliging_provider [server "cool"; server "worn"]).

Definition cool_containers : Enumeration :=
  fun serverID =>
    if String.eqb serverID "cool" then Ok [container "c1" "cool" 200] else Ok [].

(** The schedule that lets the pass start a worker and the worker run to
    its end, one plan after the other, and then lets the pass wait and
    return; [first] is the index of the next worker. *)
Fixpoint serial_schedule (first : nat) (todo : list migration.MigrationPlan)
    : list migration.Thread :=
  match todo with
  | [] => [migration.TMain; migration.TMain]
  | _ :: rest =>
      migration.TMain :: migration.TWorker first :: serial_schedule (S first) rest
  end.

(** The registry of [busy_planner] under a configuration that allows no
    migration at a time. *)
Definition slotless_planner : migration.Planner :=
  {| migration.config :=
       {| migration.MinPowerSaving := Fin 100;
          migration.MaxDowntime := 5 * time.Minute;
          migration.PlanningInterval := 5 * time.Minute;
          migration.ConcurrentMigrations := 0 |};
     migration.collector := collector_of ∅;
     migration.provider := obliging_provider [server "idle"; server "green"];
     migration.activePlans := {[ "c1" := plan_c1 ]} |}.

(** ** Tag managers used in the statements below *)

(** The hour of the day in UTC. *)
Definition utc_hour (sec : Z) : Z := (sec / 3600) mod 24.

(** The tag manager configuration of [cmd/server/main.go]. *)
Definition main_TagManagerConfig : ecotags.TagManagerConfig :=
  {| ecotags.UpdateInterval := 15 * time.Minute; ecotags.MinDataPoints := 10 |}.

(** A tag manager that asks for one sample, over the servers [green]
    (eco-score 100) and [cool] (eco-score 47, 500 W). *)
Definition eager_manager : ecotags.TagManager :=
  ecotags.NewTagManager
    {| ecotags.UpdateInterval := 15 * time.Minute; ecotags.MinDataPoints := 1 |}
    (collector_of {[ "green" := series [green_sample]; "cool" := series [cool_sample] ]})
    lenient_analyzer.

(** The samples of a series taken in the peak hours, and those of them
    that draw power. *)
Definition in_peak_hours (Hour : Z -> Z) (metrics : list MetricData) : list MetricData :=
  List.filter (fun m => ecotags.peakHours (Hour (Timestamp m))) metrics.

Definition drawing_power (metrics : list MetricData) : list MetricData :=
  List.filter (fun m => fgt (PowerUsage m) (Fin 0)) metrics.

(** What [analyzeContainer] relies on in the tags it ranges over: a
    finite score between 20 and 100 and a finite weight above zero. *)
Definition sound_tag (entry : string * ecotags.EcoTag) : Prop :=
  exists score weight : Q,
    ecotags.Score (snd entry) = Fin score /\
    ecotags.Weight (snd entry) = Fin weight /\
    (20 <= score)%Q /\ (score <= 100)%Q /\ (0 < weight)%Q.

(** A collector that holds one sample for server [old], taken at 900 s,
    under a retention period of 100 s. *)
Definition stale_collector : metrics.Collector :=
  {| metrics.config :=
       {| metrics.RetentionPeriod := 100 * time.Second;
          metrics.CollectionInterval := time.Minute;
          metrics.BatchSize := 100; metrics.BufferSize := 1000 |};
     metrics.metrics := {[ "old" := series [sample_at_900] ]};
     metrics.buffer := metrics.make_chan 1000 |}.
(** * Properties of the scoring engine *)

Section Scoring.

Lemma nonneg_cases x :
  nonneg x <-> (exists q, x = Fin q /\ (0 <= q)%Q) \/ x = PInf.
Proof.
  unfold nonneg, fle, zero. destruct x as [q| | |]; simpl.
  - destruct (Qcompare_spec 0 q) as [H|H|H]; split; intros G;
      try discriminate; try reflexivity.
    + left. exists q. split; [reflexivity | lra].
    + left. exists q. split; [reflexivity | lra].
    + destruct G as [(q' & E & Hq)|E]; [injection E as ->; lra | discriminate].
  - split; auto.
  - split; [discriminate | intros [(q & E & _)|E]; discriminate].
  - split; [discriminate | intros [(q & E & _)|E]; discriminate].
Qed.

Lemma sgn_pos a : (0 < a)%Q -> sgn a = Gt.
Proof. intros H. unfold sgn. now apply Qgt_alt. Qed.

Lemma len_pos {A} (l : list A) : l <> [] -> (0 < inject_Z (len l))%Q.
Proof.
  intros H. unfold len. change 0%Q with (inject_Z 0). rewrite <- Zlt_Qlt.
  destruct l; [congruence | simpl; lia].
Qed.

Lemma fadd_nonneg x y : nonneg x -> nonneg y -> nonneg (fadd x y).
Proof.
  intros Hx Hy. apply nonneg_cases in Hx, Hy. apply nonneg_cases.
  destruct Hx as [(a & -> & Ha)| ->], Hy as [(b & -> & Hb)| ->]; simpl; auto.
  left. exists (a + b)%Q. split; [reflexivity | lra].
Qed.

Lemma sum_over_nonneg {A} (f : A -> float64) (l : list A) :
  Forall (fun m => nonneg (f m)) l -> nonneg (metrics.sum_over f l).
Proof.
  unfold metrics.sum_over. assert (Hz : nonneg zero) by reflexivity. revert Hz.
  generalize zero as acc. induction l as [|m l IH]; intros acc Hacc Hall; simpl.
  - exact Hacc.
  - inversion Hall; subst. apply IH; [apply fadd_nonneg|]; assumption.
Qed.

Lemma fdiv_nonneg_pos x c : nonneg x -> (0 < c)%Q -> nonneg (fdiv x (Fin c)).
Proof.
  intros Hx Hc. apply nonneg_cases in Hx. apply nonneg_cases.
  destruct Hx as [(a & -> & Ha)| ->]; simpl; rewrite (sgn_pos c Hc); auto.
  left. exists (a / c)%Q. split; [reflexivity|].
  apply Qle_shift_div_l; [assumption | lra].
Qed.

(** [max(0, 1 - x)] lies in [[0,1]] for every non-negative [x], finite or not. *)
Lemma clamp_one_minus x :
  nonneg x -> within 0 1 (fmax (Fin 0) (fsub (Fin 1) x)).
Proof.
  intros Hx. apply nonneg_cases in Hx.
  destruct Hx as [(a & -> & Ha)| ->]; simpl.
  - destruct (Qcompare_spec 0 (1 + - a)) as [H|H|H].
    + exists 0%Q. split; [reflexivity | lra].
    + exists (1 + - a)%Q. split; [reflexivity | lra].
    + exists 0%Q. split; [reflexivity | lra].
  - exists 0%Q. split; [reflexivity | lra].
Qed.

Lemma calculatePowerScore_range ms :
  ms <> [] -> Forall (fun m => nonneg (PowerUsage m)) ms ->
  within 0 1 (metrics.calculatePowerScore ms).
Proof.
  intros Hne Hall. unfold metrics.calculatePowerScore, metrics.calculateMean.
  apply clamp_one_minus. apply fdiv_nonneg_pos; [|lra].
  apply fdiv_nonneg_pos; [now apply sum_over_nonneg | now apply len_pos].
Qed.

Lemma calculateCarbonScore_range ms :
  ms <> [] -> Forall (fun m => nonneg (CarbonFootprint m)) ms ->
  within 0 1 (metrics.calculateCarbonScore ms).
Proof.
  intros Hne Hall. unfold metrics.calculateCarbonScore.
  apply clamp_one_minus.
  apply fdiv_nonneg_pos; [now apply sum_over_nonneg | now apply len_pos].
Qed.

(** Sums and averages of finite values between two bounds. *)
Lemma sum_over_within {A} (f : A -> float64) (lo hi : Q) (l : list A) :
  Forall (fun m => within lo hi (f m)) l ->
  within (inject_Z (len l) * lo) (inject_Z (len l) * hi) (metrics.sum_over f l).
Proof.
  unfold metrics.sum_over, zero.
  enough (G : forall a, Forall (fun m => within lo hi (f m)) l ->
            within (a + inject_Z (len l) * lo) (a + inject_Z (len l) * hi)
              (fold_left (fun sum m => fadd sum (f m)) l (Fin a))).
  { intros H. destruct (G 0%Q H) as (q & E & H1 & H2).
    exists q. split; [exact E | lra]. }
  induction l as [|m l IH]; intros a Hall.
  - exists a. split; [reflexivity|].
    change (inject_Z (len (@nil A))) with 0%Q. lra.
  - inversion Hall as [|? ? (v & Ev & Hv1 & Hv2) Hl]; subst. simpl. rewrite Ev. simpl.
    destruct (IH (a + v)%Q Hl) as (q & E & H1 & H2).
    exists q. split; [exact E|].
    assert (Hlen : inject_Z (len (m :: l)) == inject_Z (len l) + 1).
    { unfold len. simpl length. rewrite Nat2Z.inj_succ, <- Z.add_1_r.
      rewrite inject_Z_plus. reflexivity. }
    rewrite Hlen. split; lra.
Qed.

Lemma average_within {A} (f : A -> float64) (lo hi : Q) (l : list A) :
  l <> [] -> Forall (fun m => within lo hi (f m)) l ->
  within lo hi (fdiv (metrics.sum_over f l) (of_int (len l))).
Proof.
  intros Hne Hall. pose proof (len_pos l Hne) as Hn.
  destruct (sum_over_within f lo hi l Hall) as (s & -> & H1 & H2).
  unfold of_int. simpl. rewrite (sgn_pos _ Hn).
  exists (s / inject_Z (len l))%Q. split; [reflexivity|]. split.
  - apply Qle_shift_div_l; [assumption | lra].
  - apply Qle_shift_div_r; [assumption | lra].
Qed.

(** A CPU reading between -30% and 170% is at most one "sweet spot" away
    from 70%, so its metrics.utilization term is in [[0,1]]. *)
Lemma utilization_range m :
  within (-30) 170 (CPUUsage m) -> within 0 1 (metrics.utilization m).
Proof.
  intros (c & E & H1 & H2). unfold metrics.utilization. rewrite E. simpl.
  unfold sgn. simpl.
  exists (1 + - Qabs ((7 # 10) + - (c / 100)))%Q. split; [reflexivity|].
  assert (Hc : c / 100 == c * (1 # 100)) by reflexivity.
  set (d := ((7 # 10) + - (c / 100))%Q).
  assert (Hd : (-1 <= d)%Q /\ (d <= 1)%Q) by (unfold d; rewrite Hc; split; lra).
  pose proof (Qabs_nonneg d) as Hn.
  assert (Ha : (Qabs d <= 1)%Q) by (apply Qabs_Qle_condition; split; lra).
  split; lra.
Qed.


(** The weighted sum of three finite component scores. *)
Lemma weighted_sum p u c :
  fmul (fadd (fadd (fmul (Fin p) (Fin (4 # 10))) (fmul (Fin u) (Fin (3 # 10))))
             (fmul (Fin c) (Fin (3 # 10)))) (Fin 100)
  = Fin ((p * (4 # 10) + u * (3 # 10) + c * (3 # 10)) * 100).
Proof. reflexivity. Qed.

(** C1 (as amended).  For a non-empty sample set whose samples have
    non-negative power and carbon and a CPU reading between -30% and 170%
    (every percentage in [0,100] is one), the three component scores are
    finite values [p], [u], [c] in [[0,1]], the composite score is
    [100 * (0.4 p + 0.3 u + 0.3 c)], and it lies in [[0,100]]. *)
Theorem calculateEfficiencyScore_range (ms : list MetricData) :
  ms <> [] ->
  Forall sample_in_range ms ->
  exists p u c : Q,
    metrics.calculatePowerScore ms = Fin p /\ (0 <= p)%Q /\ (p <= 1)%Q /\
    metrics.calculateUtilizationScore ms = Fin u /\ (0 <= u)%Q /\ (u <= 1)%Q /\
    metrics.calculateCarbonScore ms = Fin c /\ (0 <= c)%Q /\ (c <= 1)%Q /\
    metrics.calculateEfficiencyScore ms
      = Fin ((p * (4 # 10) + u * (3 # 10) + c * (3 # 10)) * 100) /\
    within 0 100 (metrics.calculateEfficiencyScore ms).
Proof.
  intros Hne Hall.
  assert (Hp : within 0 1 (metrics.calculatePowerScore ms)).
  { apply calculatePowerScore_range; [assumption|].
    eapply Forall_impl; [exact Hall|]. intros m H; apply H. }
  assert (Hu : within 0 1 (metrics.calculateUtilizationScore ms)).
  { apply average_within; [assumption|].
    eapply Forall_impl; [exact Hall|]. intros m H. apply utilization_range, H. }
  assert (Hc : within 0 1 (metrics.calculateCarbonScore ms)).
  { apply calculateCarbonScore_range; [assumption|].
    eapply Forall_impl; [exact Hall|]. intros m H; apply H. }
  destruct Hp as (p & Ep & Hp0 & Hp1), Hu as (u & Eu & Hu0 & Hu1),
           Hc as (c & Ec & Hc0 & Hc1).
  assert (E : metrics.calculateEfficiencyScore ms
              = Fin ((p * (4 # 10) + u * (3 # 10) + c * (3 # 10)) * 100)).
  { unfold metrics.calculateEfficiencyScore.
    destruct (len ms =? 0)%Z eqn:Hlen.
    - apply Z.eqb_eq in Hlen. unfold len in Hlen. destruct ms; [congruence | simpl in Hlen; lia].
    - cbv zeta. rewrite Ep, Eu, Ec. apply weighted_sum. }
  exists p, u, c. repeat (split; [assumption|]).
  rewrite E. eexists. split; [reflexivity|]. split; lra.
Qed.

(** C1 (witness): the range theorem at the one-sample set [steady_sample]. *)
Lemma calculateEfficiencyScore_range_witness :
  exists p u c : Q,
    metrics.calculatePowerScore [steady_sample] = Fin p /\ (0 <= p)%Q /\ (p <= 1)%Q /\
    metrics.calculateUtilizationScore [steady_sample] = Fin u /\ (0 <= u)%Q /\ (u <= 1)%Q /\
    metrics.calculateCarbonScore [steady_sample] = Fin c /\ (0 <= c)%Q /\ (c <= 1)%Q /\
    metrics.calculateEfficiencyScore [steady_sample]
      = Fin ((p * (4 # 10) + u * (3 # 10) + c * (3 # 10)) * 100) /\
    within 0 100 (metrics.calculateEfficiencyScore [steady_sample]).
Proof.
  apply calculateEfficiencyScore_range.
  - discriminate.
  - constructor; [|constructor].
    split; [reflexivity|]. split; [reflexivity|].
    exists 40%Q. split; [reflexivity|]. split; vm_compute; discriminate.
Defined.

(** C1 (counterexample).  The utilization term is not clamped: with power
    and carbon non-negative, a CPU reading of 300% drives the utilization
    score below zero and the composite score with it, to -39. *)
Lemma calculateEfficiencyScore_negative :
  [overdriven_sample] <> [] /\
  fle zero (PowerUsage overdriven_sample) = true /\
  fle zero (CarbonFootprint overdriven_sample) = true /\
  flt (metrics.calculateUtilizationScore [overdriven_sample]) zero = true /\
  flt (metrics.calculateEfficiencyScore [overdriven_sample]) zero = true /\
  feq (metrics.calculateEfficiencyScore [overdriven_sample]) (Fin (-39)) = true /\
  ~ within 0 100 (metrics.calculateEfficiencyScore [overdriven_sample]).
Proof.
  repeat split; try reflexivity; try discriminate.
  intros (q & E & H0 & _). vm_compute in E. injection E as <-.
  revert H0. vm_compute. intros H. now apply H.
Qed.

End Scoring.

(** * Properties of the metric store *)

Section Store.

Import metrics.

Lemma try_send_full {A} capacity (queue : list A) v :
  capacity <= len queue -> try_send (Buffered capacity queue) v = None.
Proof.
  intros H. simpl. destruct (len queue <? capacity) eqn:E; [|reflexivity].
  apply Z.ltb_lt in E. lia.
Qed.

Lemma try_send_room {A} capacity (queue : list A) v :
  len queue < capacity ->
  try_send (Buffered capacity queue) v = Some (Buffered capacity (queue ++ [v])).
Proof.
  intros H. simpl. destruct (len queue <? capacity) eqn:E; [reflexivity|].
  apply Z.ltb_ge in E. lia.
Qed.

(** The collector of [NewCollector] has a buffer, empty at first, whenever
    the configured size is not zero. *)
Lemma NewCollector_buffer (cfg : CollectorConfig) :
  BufferSize cfg <> 0 -> buffer (NewCollector cfg) = Buffered (BufferSize cfg) [].
Proof.
  intros H. unfold NewCollector, make_chan. simpl.
  destruct (BufferSize cfg =? 0) eqn:E; [|reflexivity].
  apply Z.eqb_eq in E. contradiction.
Qed.

(** Ingestion and incorporation leave the capacity of the buffer as it is. *)
Lemma CollectMetrics_capacity (c : Collector) (now : Z) (serverID : string)
    (data : MetricData) (capacity : Z) (queue : list MetricBatch) :
  buffer c = Buffered capacity queue ->
  exists queue', buffer (fst (CollectMetrics c now serverID data))
                 = Buffered capacity queue'.
Proof.
  intros Hb. unfold CollectMetrics. rewrite Hb. simpl.
  destruct (len queue <? capacity); simpl; eauto.
Qed.

(** Without a buffer (a configured size of zero) the call succeeds exactly
    when the consumer is blocked at its receive. *)
Lemma CollectMetrics_unbuffered (c : Collector) (now : Z) (serverID : string)
    (data : MetricData) (ready : bool) (received : list MetricBatch) :
  buffer c = Unbuffered ready received ->
  snd (CollectMetrics c now serverID data)
  = if ready then None else Some "metric buffer is full".
Proof. intros Hb. unfold CollectMetrics. rewrite Hb. now destruct ready. Qed.

(** C7 (as amended).  [CollectMetrics] is a function of the collector's
    state: it returns at once in every state of the ingestion buffer, and
    it never touches the series or the configuration.  With a buffer
    ([BufferSize] other than 0): at capacity it returns the error "metric
    buffer is full" and the buffer is unchanged; with free space it
    returns no error and the batch holding the sample is at the tail of
    the buffer, behind the batches already there.  Without a buffer
    ([BufferSize] 0) the channel is unbuffered: the call returns the same
    error, changing nothing, unless the consumer is blocked at its
    receive, in which case it returns no error and the consumer holds the
    batch. *)
Theorem CollectMetrics_backpressure (c : Collector) (now : Z) (serverID : string)
    (data : MetricData) :
  metrics.metrics (fst (CollectMetrics c now serverID data)) = metrics.metrics c /\
  config (fst (CollectMetrics c now serverID data)) = config c /\
  (forall capacity queue,
     buffer c = Buffered capacity queue ->
     (capacity <= len queue ->
        snd (CollectMetrics c now serverID data) = Some "metric buffer is full" /\
        buffer (fst (CollectMetrics c now serverID data)) = Buffered capacity queue) /\
     (len queue < capacity ->
        snd (CollectMetrics c now serverID data) = None /\
        buffer (fst (CollectMetrics c now serverID data))
        = Buffered capacity
            (queue ++ [ {| bServerID := serverID; Metrics := [data];
                           bTimestamp := now |} ]))) /\
  (forall received,
     (buffer c = Unbuffered false received ->
        snd (CollectMetrics c now serverID data) = Some "metric buffer is full" /\
        buffer (fst (CollectMetrics c now serverID data)) = Unbuffered false received) /\
     (buffer c = Unbuffered true received ->
        snd (CollectMetrics c now serverID data) = None /\
        buffer (fst (CollectMetrics c now serverID data))
        = Unbuffered false
            (received ++ [ {| bServerID := serverID; Metrics := [data];
                              bTimestamp := now |} ]))).
Proof.
  unfold CollectMetrics. split; [|split; [|split]].
  - now destruct (try_send _ _).
  - now destruct (try_send _ _).
  - intros capacity queue Hb. rewrite Hb. split; intros H.
    + rewrite try_send_full by assumption. now split.
    + rewrite try_send_room by assumption. now split.
  - intros received. split; intros Hb; rewrite Hb; simpl; now split.
Qed.

(** C7 (witness): a full buffer of capacity one; a buffer of capacity two
    holding one batch; no buffer and no consumer; no buffer and the
    consumer waiting. *)
Lemma CollectMetrics_backpressure_witness :
  (snd (CollectMetrics full_collector 5 "s1" sample_at_900)
   = Some "metric buffer is full" /\
   buffer (fst (CollectMetrics full_collector 5 "s1" sample_at_900))
   = Buffered 1 [ {| bServerID := "s1"; Metrics := [steady_sample];
                     bTimestamp := 0 |} ]) /\
  (snd (CollectMetrics small_collector 5 "s1" sample_at_900) = None /\
   buffer (fst (CollectMetrics small_collector 5 "s1" sample_at_900))
   = Buffered 2
       ([ {| bServerID := "s1"; Metrics := [steady_sample]; bTimestamp := 0 |} ]
        ++ [ {| bServerID := "s1"; Metrics := [sample_at_900]; bTimestamp := 5 |} ])) /\
  (snd (CollectMetrics (NewCollector unbuffered_CollectorConfig) 5 "s1" sample_at_900)
   = Some "metric buffer is full" /\
   buffer (fst (CollectMetrics (NewCollector unbuffered_CollectorConfig) 5 "s1"
                  sample_at_900))
   = Unbuffered false []) /\
  (snd (CollectMetrics waiting_collector 5 "s1" sample_at_900) = None /\
   buffer (fst (CollectMetrics waiting_collector 5 "s1" sample_at_900))
   = Unbuffered false
       ([] ++ [ {| bServerID := "s1"; Metrics := [sample_at_900]; bTimestamp := 5 |} ])).
Proof.
  split; [|split; [|split]].
  - apply (proj1 (proj2 (proj2 (CollectMetrics_backpressure full_collector 5 "s1"
                                  sample_at_900)))
             1 [ {| bServerID := "s1"; Metrics := [steady_sample]; bTimestamp := 0 |} ]);
      [reflexivity | vm_compute; discriminate].
  - apply (proj1 (proj2 (proj2 (CollectMetrics_backpressure small_collector 5 "s1"
                                  sample_at_900)))
             2 [ {| bServerID := "s1"; Metrics := [steady_sample]; bTimestamp := 0 |} ]);
      [reflexivity | vm_compute; reflexivity].
  - apply (proj2 (proj2 (proj2 (CollectMetrics_backpressure
                                  (NewCollector unbuffered_CollectorConfig) 5 "s1"
                                  sample_at_900))) []).
    reflexivity.
  - apply (proj2 (proj2 (proj2 (CollectMetrics_backpressure waiting_collector 5 "s1"
                                  sample_at_900))) []).
    reflexivity.
Defined.

(** C7 (counterexample).  With [BufferSize] 0 the channel is unbuffered,
    so it is at capacity in every state ([len] and [cap] are both 0).
    Once [Start] has launched the consumer and it waits at its receive,
    the call does not fail: it returns no error and the consumer holds the
    batch, which its next iteration adds to the series. *)
Lemma CollectMetrics_accepts_at_capacity :
  at_capacity (buffer waiting_collector) /\
  snd (CollectMetrics waiting_collector 5 "s1" sample_at_900) = None /\
  (exists c,
     processBuffer_step (fst (CollectMetrics waiting_collector 5 "s1" sample_at_900))
     = Some c /\
     GetMetrics c "s1" = Ok [sample_at_900]).
Proof.
  split; [vm_compute; discriminate|]. split; [reflexivity|].
  eexists. split; reflexivity.
Qed.

Lemma fresh_spec cutoff m :
  fresh cutoff m = true <-> cutoff < time.Unix (Timestamp m).
Proof. unfold fresh, time.After. apply Z.ltb_lt. Qed.

Lemma filter_sublist {A} (f : A -> bool) (l : list A) :
  sublist (List.filter f l) l.
Proof.
  induction l as [|x l IH]; simpl.
  - constructor.
  - destruct (f x); [now apply sublist_skip | now apply sublist_cons].
Qed.

(** C8 (as amended).  After one sweep at clock reading [now], the samples
    retained for a server are exactly those of its sequence whose
    timestamp is strictly later than [now - RetentionPeriod], in their
    original order: every retained sample is later than the cutoff (hence
    at or after it), every sample later than the cutoff is retained, and
    no sample at or before the cutoff survives. *)
Theorem cleanupOldMetrics_window (c : Collector) (now : Z) (serverID : string)
    (sm : ServerMetrics) :
  metrics.metrics c !! serverID = Some sm ->
  exists kept : list MetricData,
    GetMetrics (cleanupOldMetrics c now) serverID = Ok kept /\
    kept = List.filter (fresh (now - RetentionPeriod (config c))) (Data sm) /\
    sublist kept (Data sm) /\
    (forall m, In m kept ->
       now - RetentionPeriod (config c) < time.Unix (Timestamp m) /\
       now - RetentionPeriod (config c) <= time.Unix (Timestamp m)) /\
    (forall m, In m (Data sm) ->
       now - RetentionPeriod (config c) < time.Unix (Timestamp m) -> In m kept) /\
    (forall m, In m (Data sm) ->
       time.Unix (Timestamp m) <= now - RetentionPeriod (config c) -> ~ In m kept).
Proof.
  intros Hsm.
  exists (List.filter (fresh (now - RetentionPeriod (config c))) (Data sm)).
  split.
  { unfold GetMetrics, cleanupOldMetrics, set_metrics, time.Add. simpl.
    rewrite lookup_fmap, Hsm. simpl.
    replace (now + - RetentionPeriod (config c)) with (now - RetentionPeriod (config c)) by lia.
    reflexivity. }
  split; [reflexivity|]. split; [apply filter_sublist|].
  split; [|split].
  - intros m Hm. apply filter_In in Hm as [_ Hm]. apply fresh_spec in Hm. lia.
  - intros m Hm Hlt. apply filter_In. split; [assumption | now apply fresh_spec].
  - intros m _ Hle Hm. apply filter_In in Hm as [_ Hm]. apply fresh_spec in Hm. lia.
Qed.

(** C8 (witness): the sweep of [boundary_collector] at 1000 s. *)
Lemma cleanupOldMetrics_window_witness :
  exists kept : list MetricData,
    GetMetrics (cleanupOldMetrics boundary_collector (time.Unix 1000)) "s1" = Ok kept /\
    kept = List.filter
             (fresh (time.Unix 1000 - RetentionPeriod (config boundary_collector)))
             [sample_at_900; sample_at_901] /\
    sublist kept [sample_at_900; sample_at_901] /\
    (forall m, In m kept ->
       time.Unix 1000 - RetentionPeriod (config boundary_collector)
         < time.Unix (Timestamp m) /\
       time.Unix 1000 - RetentionPeriod (config boundary_collector)
         <= time.Unix (Timestamp m)) /\
    (forall m, In m [sample_at_900; sample_at_901] ->
       time.Unix 1000 - RetentionPeriod (config boundary_collector)
         < time.Unix (Timestamp m) -> In m kept) /\
    (forall m, In m [sample_at_900; sample_at_901] ->
       time.Unix (Timestamp m)
         <= time.Unix 1000 - RetentionPeriod (config boundary_collector) ->
       ~ In m kept).
Proof.
  apply (cleanupOldMetrics_window boundary_collector (time.Unix 1000) "s1"
           {| Data := [sample_at_900; sample_at_901]; LastUpdate := time.Unix 901 |}).
  reflexivity.
Defined.

(** C8 (counterexample).  With a retention of 100 s and a sweep at 1000 s
    the window starts at 900 s; the sample taken at 900 s is inside it
    ([sweep - R <= timestamp]) and is dropped all the same. *)
Lemma cleanupOldMetrics_drops_boundary :
  metrics.metrics boundary_collector !! "s1"
    = Some {| Data := [sample_at_900; sample_at_901]; LastUpdate := time.Unix 901 |} /\
  (time.Unix 1000 - RetentionPeriod (config boundary_collector)
     <=? time.Unix (Timestamp sample_at_900)) = true /\
  GetMetrics (cleanupOldMetrics boundary_collector (time.Unix 1000)) "s1"
    = Ok [sample_at_901] /\
  ~ In sample_at_900 [sample_at_901].
Proof.
  repeat split; try reflexivity.
  intros [H|[]]. discriminate H.
Qed.

End Store.

(** * Properties of the autoscaler *)

Section Autoscaling.

Import scaling.

(** The eco-score [scaleDown] tests is that of an empty sample set. *)
Lemma CalculateEcoScore_empty : metrics.CalculateEcoScore [] = Fin 0.
Proof. reflexivity. Qed.

Lemma scaleDown_never_short_circuits (enumerate : Enumeration) (a : Autoscaler)
    (now : Z) (server : Server) :
  scaleDown enumerate a now server =
    match findEnergyEfficientServer a with
    | Err e => {| after := a; issued := []; failure := Some e |}
    | Ok targetServer =>
        match enumerate (ID server) with
        | Err e => {| after := a; issued := []; failure := Some e |}
        | Ok containers =>
            match migrate_until_error (provider a)
                    (map (relocate (ID server) (ID targetServer)) containers) with
            | (calls, Some e) => {| after := a; issued := calls; failure := Some e |}
            | (calls, None) =>
                {| after := set_lastScaleDown a now; issued := calls; failure := None |}
            end
        end
    end.
Proof. reflexivity. Qed.

(** C2 (the code at the failing input).  Server [idle] meets the scale-down
    condition and its own eco-score, 82, exceeds 80; [scaleDown] tests the
    score of an empty sample set instead, so it relocates [idle]'s
    container and restarts the cooldown, and so does the evaluation tick
    that calls it.  With the placeholder enumeration of the sources no
    container is listed, and the cooldown is restarted all the same. *)
Theorem scaleDown_relocates_efficient_server :
  metrics.GetMetrics (collector idle_fleet) "idle" = Ok [idle_sample] /\
  shouldScaleUp idle_fleet scenario_now idle_sample = false /\
  shouldScaleDown idle_fleet scenario_now idle_sample = true /\
  feq (metrics.CalculateEcoScore [idle_sample]) (Fin 82) = true /\
  fgt (metrics.CalculateEcoScore [idle_sample]) (Fin 80) = true /\
  scaleDown idle_containers idle_fleet scenario_now (server "idle")
    = {| after := set_lastScaleDown idle_fleet scenario_now;
         issued := [ {| r_container := "c1"; r_source := "idle"; r_target := "green" |} ];
         failure := None |} /\
  evaluate idle_containers idle_fleet scenario_now
    = {| after := set_lastScaleDown idle_fleet scenario_now;
         issued := [ {| r_container := "c1"; r_source := "idle"; r_target := "green" |} ];
         failure := None |} /\
  scaleDown getServerContainers idle_fleet scenario_now (server "idle")
    = {| after := set_lastScaleDown idle_fleet scenario_now;
         issued := [];
         failure := None |} /\
  lastScaleDown idle_fleet = time.zero /\
  lastScaleDown (set_lastScaleDown idle_fleet scenario_now) = time.Unix 1700000060.
Proof. repeat split; vm_compute; reflexivity. Qed.

(** The target [scaleUp] picks does not depend on the server it evacuates. *)
Lemma scaleUp_target_ignores_source (enumerate : Enumeration) (a : Autoscaler)
    (now : Z) (server : Server) (target : Server) (containers : list Container) :
  findEnergyEfficientServer a = Ok target ->
  enumerate (ID server) = Ok containers ->
  issued (scaleUp enumerate a now server)
    = map (relocate (ID server) (ID target)) containers.
Proof. intros Ht Hc. unfold scaleUp. now rewrite Ht, Hc. Qed.

(** C5 (the code at the failing input).  Server [hot] triggers a scale-up
    and has the highest eco-score of the fleet (94 against 47); the target
    found is [hot] itself and its container is relocated from [hot] to
    [hot], by [scaleUp] and by the evaluation tick that calls it. *)
Theorem scaleUp_targets_source :
  shouldScaleUp hot_fleet scenario_now hot_sample = true /\
  cloud.GetInstances (provider hot_fleet) = Ok [server "hot"; server "cool"] /\
  feq (metrics.CalculateEcoScore [hot_sample]) (Fin 94) = true /\
  feq (metrics.CalculateEcoScore [cool_sample]) (Fin 47) = true /\
  findEnergyEfficientServer hot_fleet = Ok (server "hot") /\
  scaleUp hot_containers hot_fleet scenario_now (server "hot")
    = {| after := set_lastScaleUp hot_fleet scenario_now;
         issued := [ {| r_container := "c7"; r_source := "hot"; r_target := "hot" |} ];
         failure := None |} /\
  issued (evaluate hot_containers hot_fleet scenario_now)
    = [ {| r_container := "c7"; r_source := "hot"; r_target := "hot" |} ].
Proof. repeat split; vm_compute; reflexivity. Qed.

(** The relocation loop of [scaleDown] issues a non-empty prefix of the
    requests, and all of them when it meets no failure. *)
Lemma migrate_until_error_prefix (p : cloud.CloudProvider) (requests : list Relocation) :
  exists rest, requests = fst (migrate_until_error p requests) ++ rest.
Proof.
  induction requests as [|r requests IH]; simpl.
  - exists []. reflexivity.
  - destruct (migrate p r).
    + exists requests. reflexivity.
    + destruct (migrate_until_error p requests) as [calls e].
      destruct IH as [rest IH]. exists rest. simpl in *. now rewrite <- IH.
Qed.

Lemma migrate_until_error_nonempty (p : cloud.CloudProvider) (requests : list Relocation) :
  requests <> [] -> fst (migrate_until_error p requests) <> [].
Proof.
  destruct requests as [|r requests]; [congruence|]. intros _. simpl.
  destruct (migrate p r); [discriminate|].
  destruct (migrate_until_error p requests). discriminate.
Qed.

Lemma migrate_until_error_complete (p : cloud.CloudProvider) (requests : list Relocation) :
  snd (migrate_until_error p requests) = None ->
  fst (migrate_until_error p requests) = requests /\
  Forall (fun r => migrate p r = None) requests.
Proof.
  induction requests as [|r requests IH]; simpl.
  - intros _. split; [reflexivity | constructor].
  - destruct (migrate p r) eqn:Hr; [discriminate|].
    destruct (migrate_until_error p requests) as [calls e]. simpl in *.
    intros He. destruct (IH He) as [-> Hall]. split; [reflexivity|].
    constructor; assumption.
Qed.

Ltac pass_cases a enumerate server :=
  unfold scaleUp, scaleDown; rewrite ?CalculateEcoScore_empty;
  try change (fgt (Fin 0) (Fin 80)) with false; cbv iota;
  destruct (findEnergyEfficientServer a) as [target|e0] eqn:Hfind;
  [ destruct (enumerate (ID server)) as [containers|e1] eqn:Henum;
    [ pose proof (migrate_until_error_complete (provider a)
                    (map (relocate (ID server) (ID target)) containers)) as Hall;
      destruct (migrate_until_error (provider a)
                  (map (relocate (ID server) (ID target)) containers))
        as [calls [e2|]] eqn:Hloop
    | ]
  | ]; simpl.

(** C9.  A pass that exits early because target selection or container
    enumeration fails returns that error, issues no relocation and leaves
    the autoscaler, both cooldown timestamps included, as it was; whenever
    a pass returns an error the autoscaler is unchanged, so the cooldown
    tests of later ticks answer as if the pass had not run; and a cooldown
    timestamp differs after a pass only if the pass found a target, listed
    the containers and came to the end of its relocation loop (for
    [scaleDown]: with every relocation successful). *)
Theorem cooldown_survives_early_exit (enumerate : Enumeration) (a : Autoscaler)
    (now : Z) (server : Server) :
  (forall e, findEnergyEfficientServer a = Err e ->
     scaleUp enumerate a now server
       = {| after := a; issued := []; failure := Some e |} /\
     scaleDown enumerate a now server
       = {| after := a; issued := []; failure := Some e |}) /\
  (forall target e,
     findEnergyEfficientServer a = Ok target -> enumerate (ID server) = Err e ->
     scaleUp enumerate a now server
       = {| after := a; issued := []; failure := Some e |} /\
     scaleDown enumerate a now server
       = {| after := a; issued := []; failure := Some e |}) /\
  (failure (scaleUp enumerate a now server) <> None ->
     after (scaleUp enumerate a now server) = a) /\
  (failure (scaleDown enumerate a now server) <> None ->
     after (scaleDown enumerate a now server) = a) /\
  (forall later metric,
     failure (scaleUp enumerate a now server) <> None ->
     shouldScaleUp (after (scaleUp enumerate a now server)) later metric
     = shouldScaleUp a later metric) /\
  (forall later metric,
     failure (scaleDown enumerate a now server) <> None ->
     shouldScaleDown (after (scaleDown enumerate a now server)) later metric
     = shouldScaleDown a later metric) /\
  (lastScaleUp (after (scaleUp enumerate a now server)) <> lastScaleUp a ->
     exists target containers,
       findEnergyEfficientServer a = Ok target /\
       enumerate (ID server) = Ok containers /\
       scaleUp enumerate a now server
         = {| after := set_lastScaleUp a now;
              issued := map (relocate (ID server) (ID target)) containers;
              failure := None |}) /\
  (lastScaleDown (after (scaleDown enumerate a now server)) <> lastScaleDown a ->
     exists target containers,
       findEnergyEfficientServer a = Ok target /\
       enumerate (ID server) = Ok containers /\
       Forall (fun r => migrate (provider a) r = None)
         (map (relocate (ID server) (ID target)) containers) /\
       scaleDown enumerate a now server
         = {| after := set_lastScaleDown a now;
              issued := map (relocate (ID server) (ID target)) containers;
              failure := None |}).
Proof.
  repeat split.
  - unfold scaleUp. now rewrite H.
  - unfold scaleDown. now rewrite H.
  - unfold scaleUp. now rewrite H, H0.
  - unfold scaleDown. now rewrite H, H0.
  - pass_cases a enumerate server; congruence.
  - pass_cases a enumerate server; congruence.
  - intros later metric. pass_cases a enumerate server; congruence.
  - intros later metric. pass_cases a enumerate server; congruence.
  - pass_cases a enumerate server; try congruence; intros _; eauto.
  - pass_cases a enumerate server; try congruence; intros _.
    destruct (Hall eq_refl) as [Hcalls Hok]. simpl in Hcalls. subst calls.
    exists target, containers. repeat split; assumption.
Qed.

(** C9 (witness): the two early exits, with an inventory that cannot be
    listed and with an orchestrator that cannot enumerate. *)
Lemma cooldown_survives_early_exit_witness :
  (scaleUp hot_containers blind_fleet scenario_now (server "hot")
     = {| after := blind_fleet; issued := [];
          failure := Some "inventory unavailable" |} /\
   scaleDown hot_containers blind_fleet scenario_now (server "hot")
     = {| after := blind_fleet; issued := [];
          failure := Some "inventory unavailable" |}) /\
  (scaleUp failing_enumeration hot_fleet scenario_now (server "hot")
     = {| after := hot_fleet; issued := [];
          failure := Some "orchestrator unavailable" |} /\
   scaleDown failing_enumeration hot_fleet scenario_now (server "hot")
     = {| after := hot_fleet; issued := [];
          failure := Some "orchestrator unavailable" |}).
Proof.
  split.
  - apply (proj1 (cooldown_survives_early_exit hot_containers blind_fleet
                    scenario_now (server "hot"))).
    reflexivity.
  - apply (proj1 (proj2 (cooldown_survives_early_exit failing_enumeration hot_fleet
                           scenario_now (server "hot"))) (server "hot")).
    + vm_compute; reflexivity.
    + reflexivity.
Defined.

Lemma fold_better_no_positive_score (c : metrics.Collector) (servers : list Server) :
  (forall s ms, In s servers -> metrics.GetMetrics c (ID s) = Ok ms ->
     fgt (metrics.CalculateEcoScore ms) zero = false) ->
  fold_left (better c) servers (Server_zero, zero) = (Server_zero, zero).
Proof.
  induction servers as [|s servers IH]; intros H; simpl; [reflexivity|].
  assert (E : better c (Server_zero, zero) s = (Server_zero, zero)).
  { unfold better. destruct (metrics.GetMetrics c (ID s)) as [ms|e] eqn:Hm; [|reflexivity].
    cbv zeta. unfold snd. now rewrite (H s ms (or_introl eq_refl) Hm). }
  rewrite E. apply IH. intros s' ms Hin. apply H. now right.
Qed.

(** C10.  When the inventory lists a fleet none of whose servers yields a
    strictly positive eco-score (no server at all, no samples for a
    server, or a score that is not above 0), [findEnergyEfficientServer]
    returns the zero-value [Server], whose identifier is empty, with a nil
    error; [scaleUp] then issues one relocation per container of the
    source, each with the empty target identifier, and restarts its
    cooldown; [scaleDown] issues its relocations to the empty identifier
    too, at least one when the source has a container. *)
Theorem findEnergyEfficientServer_zero_value (enumerate : Enumeration)
    (a : Autoscaler) (now : Z) (server : Server) (servers : list Server)
    (containers : list Container) :
  cloud.GetInstances (provider a) = Ok servers ->
  (forall s ms, In s servers -> metrics.GetMetrics (collector a) (ID s) = Ok ms ->
     fgt (metrics.CalculateEcoScore ms) zero = false) ->
  enumerate (ID server) = Ok containers ->
  findEnergyEfficientServer a = Ok Server_zero /\
  ID Server_zero = "" /\
  scaleUp enumerate a now server
    = {| after := set_lastScaleUp a now;
         issued := map (relocate (ID server) "") containers;
         failure := None |} /\
  issued (scaleDown enumerate a now server)
    = fst (migrate_until_error (provider a)
             (map (relocate (ID server) "") containers)) /\
  failure (scaleDown enumerate a now server)
    = snd (migrate_until_error (provider a)
             (map (relocate (ID server) "") containers)) /\
  Forall (fun r => r_target r = "") (issued (scaleDown enumerate a now server)) /\
  (containers <> [] -> issued (scaleDown enumerate a now server) <> []).
Proof.
  intros Hinst Hscore Henum.
  assert (Hfind : findEnergyEfficientServer a = Ok Server_zero).
  { unfold findEnergyEfficientServer. rewrite Hinst.
    now rewrite fold_better_no_positive_score. }
  assert (Hdown : issued (scaleDown enumerate a now server)
                  = fst (migrate_until_error (provider a)
                           (map (relocate (ID server) "") containers)) /\
                  failure (scaleDown enumerate a now server)
                  = snd (migrate_until_error (provider a)
                           (map (relocate (ID server) "") containers))).
  { unfold scaleDown. rewrite CalculateEcoScore_empty, Hfind, Henum.
    change (fgt (Fin 0) (Fin 80)) with false. cbv iota.
    change (ID Server_zero) with "".
    destruct (migrate_until_error (provider a)
                (map (relocate (ID server) "") containers)) as [calls [e|]];
      split; reflexivity. }
  destruct Hdown as [Hissued Hfailure].
  split; [exact Hfind|]. split; [reflexivity|]. split.
  { unfold scaleUp. now rewrite Hfind, Henum. }
  split; [exact Hissued|]. split; [exact Hfailure|]. rewrite Hissued. split.
  - destruct (migrate_until_error_prefix (provider a)
                (map (relocate (ID server) "") containers)) as [rest Hrest].
    assert (Hall : Forall (fun r => r_target r = "")
                     (map (relocate (ID server) "") containers)).
    { apply List.Forall_forall. intros r Hr. apply in_map_iff in Hr as (c & <- & _).
      reflexivity. }
    rewrite Hrest in Hall. now apply Forall_app in Hall as [Hall _].
  - intros Hne. apply migrate_until_error_nonempty.
    destruct containers; [congruence | discriminate].
Qed.

(** C10 (witness): a fleet of two servers that have reported no sample,
    and one container on the source. *)
Lemma findEnergyEfficientServer_zero_value_witness :
  findEnergyEfficientServer silent_fleet = Ok Server_zero /\
  ID Server_zero = "" /\
  scaleUp hot_containers silent_fleet scenario_now (server "hot")
    = {| after := set_lastScaleUp silent_fleet scenario_now;
         issued := map (relocate (ID (server "hot")) "") [container "c7" "hot" 200];
         failure := None |} /\
  issued (scaleDown hot_containers silent_fleet scenario_now (server "hot"))
    = fst (migrate_until_error (provider silent_fleet)
             (map (relocate (ID (server "hot")) "") [container "c7" "hot" 200])) /\
  failure (scaleDown hot_containers silent_fleet scenario_now (server "hot"))
    = snd (migrate_until_error (provider silent_fleet)
             (map (relocate (ID (server "hot")) "") [container "c7" "hot" 200])) /\
  Forall (fun r => r_target r = "")
    (issued (scaleDown hot_containers silent_fleet scenario_now (server "hot"))) /\
  ([container "c7" "hot" 200] <> [] ->
   issued (scaleDown hot_containers silent_fleet scenario_now (server "hot")) <> []).
Proof.
  apply (findEnergyEfficientServer_zero_value hot_containers silent_fleet scenario_now
           (server "hot") [server "hot"; server "cool"]).
  - reflexivity.
  - intros s ms [<-|[<-|[]]]; vm_compute; discriminate.
  - reflexivity.
Defined.

End Autoscaling.

(** * Properties of the migration planner *)

Section Planning.

Import migration.

(** ** The power-saving estimate *)

Lemma sgn_nonzero (b : Q) : ~ b == 0 -> sgn b <> Eq.
Proof. intros H E. apply H. now apply Qeq_alt. Qed.

Lemma sgn_zero (b : Q) : b == 0 -> sgn b = Eq.
Proof. intros H. now apply Qeq_alt. Qed.

Lemma fdiv_finite (a b : Q) : ~ b == 0 -> fdiv (Fin a) (Fin b) = Fin (a / b).
Proof.
  intros H. unfold fdiv. pose proof (sgn_nonzero b H). now destruct (sgn b).
Qed.

(** A quotient by zero is an infinity or [NaN], whatever the dividend. *)
Lemma fdiv_by_zero (x : float64) (b : Q) :
  b == 0 -> is_finite (fdiv x (Fin b)) = false.
Proof.
  intros H. destruct x as [a| | |]; unfold fdiv; rewrite ?(sgn_zero b H);
    try reflexivity. now destruct (sgn a).
Qed.

(** A value that is not finite makes every product and difference it
    enters not finite. *)
Lemma fmul_not_finite (x y : float64) :
  is_finite y = false -> is_finite (fmul x y) = false.
Proof.
  destruct y; [discriminate| | |]; intros _; destruct x as [a| | |]; unfold fmul;
    try reflexivity; now destruct (sgn a).
Qed.

Lemma fsub_not_finite (x y : float64) :
  is_finite y = false -> is_finite (fsub x y) = false.
Proof.
  destruct y; [discriminate| | |]; intros _; destruct x; reflexivity.
Qed.

Lemma feq_Fin (x : float64) (q : Q) :
  feq x (Fin q) = true -> exists q', x = Fin q' /\ q' == q.
Proof.
  destruct x as [q'| | |]; simpl; try discriminate.
  intros H. exists q'. split; [reflexivity | now apply Qeq_bool_iff].
Qed.




(** With a source score other than zero the estimate is a rounded value:
    for a draw of 200 W from [cool] (score 47) to [worn] (score 12) it is
    the [float64] 148.93617021276594, which is [5240225630251574 * 2^-45]
    and not the rational [200 * (1 - 12 / 47)]. *)
Lemma estimatePowerSaving_rounds :
  migration64.estimatePowerSaving tabled_score (collector declining_planner)
    (B64.of_int 200) (server "cool") (server "worn")
  = SpecFloat.S754_finite false 5240225630251574 (-45) /\
  ~ (inject_Z 5240225630251574 * Qpower 2 (-45) == 200 * (1 - 12 / 47))%Q.
Proof. split; [vm_compute; reflexivity | vm_compute; discriminate]. Qed.

(** An estimate of [-Inf] or [NaN] never makes a plan: the loop of
    [findBestMigrationPlan] passes over the target. *)
Lemma consider_skips_non_finite (unrepresentable : float64 -> Z) (p : Planner)
    (container : Container) (sourceServer targetServer : Server)
    (best : option MigrationPlan * float64) :
  estimatePowerSaving p container sourceServer targetServer = NInf \/
  estimatePowerSaving p container sourceServer targetServer = NaN ->
  consider unrepresentable p container sourceServer best targetServer = best.
Proof.
  intros H. unfold consider.
  destruct (String.eqb (ID targetServer) (ID sourceServer)); [reflexivity|].
  cbv zeta. destruct H as [-> | ->].
  - destruct (flt NInf (MinPowerSaving (config p))); [reflexivity|].
    destruct (MaxDowntime (config p) <? _); [reflexivity|].
    unfold fgt. now destruct (snd best).
  - destruct (flt NaN (MinPowerSaving (config p))); [reflexivity|].
    destruct (MaxDowntime (config p) <? _); [reflexivity|].
    unfold fgt. now destruct (snd best).
Qed.

(** ** The priority of a plan *)

Lemma wrap64_small (z : Z) : min_int <= z <= max_int -> wrap64 z = z.
Proof.
  unfold wrap64, min_int, max_int. intros H.
  rewrite Z.mod_small; lia.
Qed.

(** The clamp at the end of [calculatePriority]. *)
Lemma clamp_spec (n : Z) :
  (let priority := if n <? 1 then 1 else n in
   if 10 <? priority then 10 else priority) = Z.max 1 (Z.min 10 n).
Proof.
  cbv zeta. destruct (n <? 1) eqn:E1.
  - apply Z.ltb_lt in E1. simpl. lia.
  - apply Z.ltb_ge in E1. destruct (10 <? n) eqn:E2.
    + apply Z.ltb_lt in E2. lia.
    + apply Z.ltb_ge in E2. lia.
Qed.

(** C4 (as amended).  The priority is always an integer between 1 and 10.
    It is obtained from the [float64] value of
    [(powerSaving / MinPowerSaving) * 10], the quotient and the product
    each rounded to [float64], by discarding the fractional part (not by
    rounding to the nearest integer), subtracting 2 when the downtime
    exceeds [MaxDowntime / 2], and clamping to [[1,10]]; this is stated
    for a finite product whose integer part fits an [int] with room for
    the subtraction. *)
Theorem calculatePriority_truncates (unrepresentable : B64.binary64 -> Z)
    (MinPowerSaving : B64.binary64) (MaxDowntime : Z)
    (powerSaving : B64.binary64) (downtime : Z) :
  1 <= migration64.calculatePriority unrepresentable MinPowerSaving MaxDowntime
         powerSaving downtime <= 10 /\
  (forall scaled : Q,
     B64.value (B64.mul (B64.div powerSaving MinPowerSaving) (B64.of_int 10))
     = Some scaled ->
     min_int + 2 <= trunc scaled <= max_int ->
     migration64.calculatePriority unrepresentable MinPowerSaving MaxDowntime
       powerSaving downtime
     = Z.max 1 (Z.min 10
         (trunc scaled - (if Z.quot MaxDowntime 2 <? downtime then 2 else 0)))).
Proof.
  unfold migration64.calculatePriority. split.
  - rewrite clamp_spec. lia.
  - intros scaled Hvalue Hfit. rewrite clamp_spec. unfold B64.to_int.
    rewrite Hvalue. cbv zeta.
    assert (E : (min_int <=? trunc scaled) && (trunc scaled <=? max_int) = true).
    { apply andb_true_intro. split; apply Z.leb_le; lia. }
    rewrite E.
    destruct (Z.quot MaxDowntime 2 <? downtime).
    + rewrite wrap64_small by lia. reflexivity.
    + now rewrite Z.sub_0_r.
Qed.

(** C4 (witness): against a minimum of 100 W, a maximum downtime of 120 s
    and a downtime of 90 s, a saving of 109 W has the product 10.9 and the
    priority 8; a saving of 119.99999999999999 W has the product 12, the
    quotient and the product having rounded upwards, and the priority
    10. *)
Lemma calculatePriority_truncates_witness :
  migration64.calculatePriority amd64_int64 (B64.of_int 100) (2 * time.Minute)
    (B64.of_int 109) (90 * time.Second)
  = Z.max 1 (Z.min 10
      (trunc (inject_Z 6136154492292301 * Qpower 2 (-49))%Q
       - (if Z.quot (2 * time.Minute) 2 <? 90 * time.Second then 2 else 0))) /\
  migration64.calculatePriority amd64_int64 (B64.of_int 100) (2 * time.Minute)
    just_below_120 (90 * time.Second)
  = Z.max 1 (Z.min 10
      (trunc (inject_Z 6755399441055744 * Qpower 2 (-49))%Q
       - (if Z.quot (2 * time.Minute) 2 <? 90 * time.Second then 2 else 0))).
Proof.
  split.
  - apply (proj2 (calculatePriority_truncates amd64_int64 (B64.of_int 100)
                    (2 * time.Minute) (B64.of_int 109) (90 * time.Second))).
    + vm_compute. reflexivity.
    + vm_compute. split; discriminate.
  - apply (proj2 (calculatePriority_truncates amd64_int64 (B64.of_int 100)
                    (2 * time.Minute) just_below_120 (90 * time.Second))).
    + vm_compute. reflexivity.
    + vm_compute. split; discriminate.
Defined.

(** C4 (counterexample).  With the configuration of [main.go], a saving of
    109 W and a downtime of 90 s the scaled ratio is 10.9: the code
    truncates it to 10 and yields priority 8, where rounding yields 9. *)
Lemma calculatePriority_does_not_round :
  migration64.calculatePriority amd64_int64 (B64.of_int 100) (2 * time.Minute)
    (B64.of_int 109) (90 * time.Second) = 8 /\
  spec_priority 100 (2 * time.Minute) 109 (90 * time.Second) = 9.
Proof. split; vm_compute; reflexivity. Qed.

(** The priority follows the rounded product, not the exact ratio: a
    saving of 119.99999999999999 W against 100 W has priority 10 after the
    subtraction, and one of 29.999999999999996 W has priority 3 with no
    subtraction, where the integer parts of the exact ratios, 11 and 2,
    would give 9 and 2. *)
Lemma calculatePriority_follows_rounding :
  migration64.calculatePriority amd64_int64 (B64.of_int 100) (2 * time.Minute)
    just_below_120 (90 * time.Second) = 10 /\
  migration64.calculatePriority amd64_int64 (B64.of_int 100) (2 * time.Minute)
    just_below_30 (30 * time.Second) = 3.
Proof. split; vm_compute; reflexivity. Qed.

End Planning.

(** * The active-plans registry *)

Section Registry.

Import migration.

(** ** Planning never replaces a plan *)

Lemma planContainer_keeps (unrepresentable : float64 -> Z) (servers : list Server)
    (sourceServer : Server) (p : Planner) (c : Container)
    (id : string) (plan : MigrationPlan) :
  activePlans p !! id = Some plan ->
  activePlans (planContainer unrepresentable servers sourceServer p c) !! id = Some plan.
Proof.
  intros H. unfold planContainer.
  destruct (activePlans p !! cID c) eqn:Hc; [assumption|].
  destruct (findBestMigrationPlan unrepresentable p c sourceServer servers);
    [|assumption].
  simpl. rewrite lookup_insert_ne; [assumption|]. congruence.
Qed.

Lemma planServer_keeps (unrepresentable : float64 -> Z) (enumerate : Enumeration)
    (servers : list Server) (p : Planner) (sourceServer : Server)
    (id : string) (plan : MigrationPlan) :
  activePlans p !! id = Some plan ->
  activePlans (planServer unrepresentable enumerate servers p sourceServer) !! id
    = Some plan.
Proof.
  intros H. unfold planServer.
  destruct (fgt _ _); [assumption|].
  destruct (enumerate (ID sourceServer)) as [containers|]; [|assumption].
  revert p H. induction containers as [|c containers IH]; intros p H; simpl;
    [assumption|].
  apply IH. now apply planContainer_keeps.
Qed.

(** A plan in the registry is still there, unchanged, after a planning
    pass: the pass creates no second plan for its container. *)
Lemma planMigrations_keeps (unrepresentable : float64 -> Z) (enumerate : Enumeration)
    (p : Planner) (id : string) (plan : MigrationPlan) :
  activePlans p !! id = Some plan ->
  activePlans (fst (planMigrations unrepresentable enumerate p)) !! id = Some plan.
Proof.
  intros H. unfold planMigrations.
  destruct (cloud.GetInstances (provider p)) as [servers|]; [|assumption].
  simpl. unfold planServers.
  generalize (sort_Slice
    (fun i j => fgt (getServerEcoScore p (ID i)) (getServerEcoScore p (ID j)))
    servers) at 1 as targets.
  intros targets.
  generalize (sort_Slice
    (fun i j => fgt (getServerEcoScore p (ID i)) (getServerEcoScore p (ID j)))
    servers) as order.
  intros order. revert p H.
  induction order as [|s order IH]; intros p H; simpl; [assumption|].
  apply IH. now apply planServer_keeps.
Qed.

(** Every plan is filed under the identifier of its container, so no
    container has two plans under different keys. *)
Lemma consider_ContainerID (unrepresentable : float64 -> Z) (p : Planner)
    (c : Container) (sourceServer targetServer : Server)
    (best : option MigrationPlan * float64) :
  (forall plan, fst best = Some plan -> ContainerID plan = cID c) ->
  forall plan,
    fst (consider unrepresentable p c sourceServer best targetServer) = Some plan ->
    ContainerID plan = cID c.
Proof.
  intros Hbest plan. unfold consider.
  destruct (String.eqb _ _); [apply Hbest|]. cbv zeta.
  destruct (flt _ _); [apply Hbest|].
  destruct (_ <? _); [apply Hbest|].
  destruct (fgt _ _); [|apply Hbest].
  simpl. intros [= <-]. reflexivity.
Qed.

Lemma findBestMigrationPlan_ContainerID (unrepresentable : float64 -> Z) (p : Planner)
    (c : Container) (sourceServer : Server) (targets : list Server)
    (plan : MigrationPlan) :
  findBestMigrationPlan unrepresentable p c sourceServer targets = Some plan ->
  ContainerID plan = cID c.
Proof.
  unfold findBestMigrationPlan.
  assert (H0 : forall plan, fst (@None MigrationPlan, zero) = Some plan ->
                            ContainerID plan = cID c) by discriminate.
  revert H0. generalize (@None MigrationPlan, zero) as best. revert plan.
  induction targets as [|t targets IH]; intros plan best Hbest; simpl.
  - apply Hbest.
  - apply IH. now apply consider_ContainerID.
Qed.

Lemma planContainer_keyed (unrepresentable : float64 -> Z) (servers : list Server)
    (sourceServer : Server) (p : Planner) (c : Container) :
  keyed_by_container (activePlans p) ->
  keyed_by_container
    (activePlans (planContainer unrepresentable servers sourceServer p c)).
Proof.
  intros H. unfold planContainer.
  destruct (activePlans p !! cID c) eqn:Hc; [assumption|].
  destruct (findBestMigrationPlan unrepresentable p c sourceServer servers)
    as [best|] eqn:Hbest; [|assumption].
  simpl. intros id plan. rewrite lookup_insert. case_decide as Hid.
  - intros [= <-]. subst id.
    now apply findBestMigrationPlan_ContainerID in Hbest.
  - apply H.
Qed.

Lemma planServers_keyed (unrepresentable : float64 -> Z) (enumerate : Enumeration)
    (targets order : list Server) (p : Planner) :
  keyed_by_container (activePlans p) ->
  keyed_by_container
    (activePlans (fold_left (planServer unrepresentable enumerate targets) order p)).
Proof.
  revert p. induction order as [|s order IH]; intros p H; simpl; [assumption|].
  apply IH. unfold planServer.
  destruct (fgt _ _); [assumption|].
  destruct (enumerate (ID s)) as [containers|]; [|assumption].
  clear IH. revert p H.
  induction containers as [|c containers IHc]; intros p H; simpl; [assumption|].
  apply IHc. now apply planContainer_keyed.
Qed.

Lemma planMigrations_keyed (unrepresentable : float64 -> Z) (enumerate : Enumeration)
    (p : Planner) :
  keyed_by_container (activePlans p) ->
  keyed_by_container (activePlans (fst (planMigrations unrepresentable enumerate p))).
Proof.
  intros H. unfold planMigrations.
  destruct (cloud.GetInstances (provider p)) as [servers|]; [|assumption].
  simpl. now apply planServers_keyed.
Qed.

(** ** The execution pass *)

Lemma exec_invariant_init (p : Planner) (plans : list MigrationPlan) :
  exec_invariant p plans (exec_init p plans).
Proof.
  unfold exec_invariant, exec_init. simpl.
  repeat split; try constructor; discriminate.
Qed.

Lemma fmap_fst_insert (ws : list (MigrationPlan * WorkerPC)) (i : nat)
    (plan : MigrationPlan) (pc pc' : WorkerPC) :
  ws !! i = Some (plan, pc) -> fst <$> <[i := (plan, pc')]> ws = fst <$> ws.
Proof.
  intros H. rewrite list_fmap_insert. apply list_insert_id.
  rewrite list_lookup_fmap, H. reflexivity.
Qed.

Lemma exec_invariant_step (p : Planner) (plans : list MigrationPlan) (s s' : Exec) :
  exec_invariant p plans s -> exec_next p s s' -> exec_invariant p plans s'.
Proof.
  intros (Hreg & Hmu & Hfin & Hplans & Hret) [t Hstep].
  destruct t as [|i]; simpl in Hstep.
  - (* the pass itself *)
    destruct (main s) as [[|plan rest]| |] eqn:Hmain; simpl in *.
    + apply (inj Some) in Hstep; subst s'. unfold exec_invariant. simpl.
      split; [assumption|]. split; [intros _; apply Hmu; discriminate|].
      split; [assumption|]. split; [assumption | discriminate].
    + destruct (in_flight (workers s) <? ConcurrentMigrations (config p));
        [|discriminate].
      apply (inj Some) in Hstep; subst s'. unfold exec_invariant. simpl.
      split; [assumption|]. split; [intros _; apply Hmu; discriminate|].
      split; [|split; [|discriminate]].
      * apply Forall_app. split; [assumption|]. constructor; [|constructor].
        discriminate.
      * rewrite fmap_app, <- app_assoc. exact Hplans.
    + destruct (forallb finished (workers s)) eqn:Hall; [|discriminate].
      apply (inj Some) in Hstep; subst s'. unfold exec_invariant. simpl.
      split; [assumption|]. split; [congruence|].
      split; [assumption|]. split; [assumption|].
      intros _. apply List.Forall_forall. intros [plan pc] Hw.
      rewrite forallb_forall in Hall. specialize (Hall _ Hw).
      unfold finished in Hall. simpl in *. now destruct pc.
    + discriminate.
  - (* worker [i] *)
    destruct (workers s !! i) as [[plan pc]|] eqn:Hw; [|discriminate].
    assert (Hlive : pc <> Finished -> main s <> Returned).
    { intros Hpc Hr. specialize (Hret Hr).
      rewrite Forall_lookup in Hret. specialize (Hret _ _ Hw). contradiction. }
    destruct pc.
    + assert (Hrun : main s <> Returned) by (now apply Hlive).
      destruct (cloud.MigrateContainer (provider p) (ContainerID plan)
                  (SourceServerID plan) (TargetServerID plan)) as [e|] eqn:Hm;
        apply (inj Some) in Hstep; subst s'; unfold exec_invariant, set_worker; simpl;
        rewrite (fmap_fst_insert _ _ _ _ _ Hw);
        (split; [assumption|]); (split; [assumption|]);
        (split; [|split; [assumption | contradiction]]).
      * apply Forall_insert; [assumption|]. intros _.
        unfold relocation_fails. simpl. congruence.
      * apply Forall_insert; [assumption|]. discriminate.
    + rewrite Hmu in Hstep by (now apply Hlive). discriminate.
    + discriminate.
Qed.

(** In every state of a pass the invariant holds. *)
Lemma exec_invariant_reachable (p : Planner) (plans : list MigrationPlan) (s : Exec) :
  reachable p plans s -> exec_invariant p plans s.
Proof.
  unfold reachable. revert s.
  apply (rtc_ind_r (exec_invariant p plans) (exec_init p plans)).
  - apply exec_invariant_init.
  - intros s s' _ Hstep IH. now apply (exec_invariant_step p plans s s').
Qed.

(** No state of a pass has a plan fewer than the registry it started
    with, and the pass returns only if every relocation failed. *)
Lemma executeMigrations_retires_nothing (p : Planner) (plans : list MigrationPlan)
    (s : Exec) :
  reachable p plans s ->
  registry s = activePlans p /\
  (main s = Returned -> Forall (relocation_fails p) plans).
Proof.
  intros H. apply exec_invariant_reachable in H as (Hreg & _ & Hfin & Hplans & Hret).
  split; [assumption|]. intros Hr. specialize (Hret Hr).
  rewrite Hr in Hplans. simpl in Hplans. rewrite app_nil_r in Hplans. subst plans.
  apply Forall_fmap. rewrite Forall_forall in *. intros w Hw. simpl.
  apply Hfin; [assumption|]. now apply Hret.
Qed.

Lemma run_reachable (p : Planner) (schedule : list Thread) (s s' : Exec) :
  run p schedule s = Some s' -> rtc (exec_next p) s s'.
Proof.
  revert s. induction schedule as [|t schedule IH]; intros s; simpl.
  - intros [= <-]. constructor.
  - destruct (exec_step p t s) as [s1|] eqn:Hs; [|discriminate].
    intros H. eapply rtc_l; [exists t; eassumption | now apply IH].
Qed.

(** C6 (the code at the failing input).  The registry holds one plan, for
    container [c1], and the provider carries the relocation out.  The pass
    starts the worker, the relocation succeeds, and the worker stops at
    [p.mu.Lock()] because the pass holds the mutex until it returns, while
    the pass waits for the worker: no thread can step.  In no state of the
    pass is the plan out of the registry, and the pass never returns. *)
Theorem executeMigrations_deadlock :
  activePlans busy_planner !! "c1" = Some plan_c1 /\
  snapshot busy_planner = [plan_c1] /\
  cloud.MigrateContainer (provider busy_planner) "c1" "idle" "green" = None /\
  run busy_planner [TMain; TWorker 0; TMain]
      (exec_init busy_planner (snapshot busy_planner))
    = Some {| registry := {[ "c1" := plan_c1 ]}; mu_locked := true;
              main := Waiting; workers := [(plan_c1, Locking)] |} /\
  deadlocked busy_planner
    {| registry := {[ "c1" := plan_c1 ]}; mu_locked := true;
       main := Waiting; workers := [(plan_c1, Locking)] |} /\
  (forall s, reachable busy_planner (snapshot busy_planner) s ->
     registry s !! "c1" = Some plan_c1 /\ main s <> Returned).
Proof.
  split; [reflexivity|]. split; [reflexivity|]. split; [reflexivity|].
  split; [reflexivity|]. split.
  - split; [discriminate|]. intros [|[|i]]; reflexivity.
  - intros s Hs. apply executeMigrations_retires_nothing in Hs as [Hreg Hret].
    split.
    + rewrite Hreg. reflexivity.
    + intros Hr. specialize (Hret Hr). inversion Hret as [|? ? Hfail _]; subst.
      now apply Hfail.
Qed.

(** When the relocation fails the pass returns and the plan is in the
    registry, unchanged. *)
Lemma executeMigrations_failure_keeps_plan :
  exists s,
    run thwarted_planner [TMain; TWorker 0; TMain; TMain]
        (exec_init thwarted_planner (snapshot thwarted_planner)) = Some s /\
    main s = Returned /\ mu_locked s = false /\
    registry s !! "c1" = Some plan_c1.
Proof. eexists. repeat split; reflexivity. Qed.

End Registry.

(** * More on the metric store *)

Section StoreMore.

Import metrics.

Lemma GetMetrics_series_of (c : Collector) (s : string) (ms : list MetricData) :
  GetMetrics c s = Ok ms -> series_of c s = ms.
Proof.
  unfold GetMetrics, series_of. destruct (metrics.metrics c !! s); congruence.
Qed.

Lemma GetMetrics_processBatch (c : Collector) (batch : MetricBatch) :
  GetMetrics (processBatch c batch) (bServerID batch)
  = Ok (series_of c (bServerID batch) ++ Metrics batch).
Proof.
  unfold GetMetrics, processBatch, series_of, set_metrics. simpl.
  rewrite lookup_insert_eq. simpl.
  now destruct (metrics.metrics c !! bServerID batch).
Qed.

(** X1.  Incorporating a batch appends its samples to the series of its
    server, after the samples already there (a server seen for the first
    time gets the batch as its series), and changes the answer of
    [GetMetrics] for no other server. *)
Theorem processBatch_appends (c : Collector) (batch : MetricBatch) :
  GetMetrics (processBatch c batch) (bServerID batch)
    = Ok (series_of c (bServerID batch) ++ Metrics batch) /\
  (forall s, s <> bServerID batch ->
     GetMetrics (processBatch c batch) s = GetMetrics c s) /\
  buffer (processBatch c batch) = buffer c.
Proof.
  split; [apply GetMetrics_processBatch|]. split; [|reflexivity].
  intros s Hs. unfold GetMetrics, processBatch, set_metrics. simpl.
  rewrite lookup_insert_ne by congruence. reflexivity.
Qed.

Lemma series_of_processBatch (c : Collector) (batch : MetricBatch) (s : string) :
  series_of (processBatch c batch) s
  = series_of c s ++ (if String.eqb (bServerID batch) s then Metrics batch else []).
Proof.
  destruct (String.eqb_spec (bServerID batch) s) as [<-|Hne].
  - apply GetMetrics_series_of. apply GetMetrics_processBatch.
  - rewrite app_nil_r. unfold series_of, processBatch, set_metrics. simpl.
    now rewrite lookup_insert_ne.
Qed.

Lemma processBuffer_drains (capacity : Z) (queue : list MetricBatch) (c : Collector) :
  buffer c = Buffered capacity queue ->
  buffer (processBuffer (length queue) c) = Buffered capacity [] /\
  forall s, series_of (processBuffer (length queue) c) s
            = series_of c s ++ queued_for s queue.
Proof.
  revert c. induction queue as [|b queue IH]; intros c Hb; simpl.
  - split; [assumption|]. intros s. unfold queued_for. simpl. now rewrite app_nil_r.
  - unfold processBuffer_step. rewrite Hb. simpl.
    destruct (IH (processBatch (set_buffer c (Buffered capacity queue)) b)) as [IH1 IH2].
    { reflexivity. }
    split; [exact IH1|]. intros s. rewrite IH2, series_of_processBatch.
    unfold queued_for. simpl.
    change (series_of (set_buffer c (Buffered capacity queue)) s) with (series_of c s).
    rewrite <- app_assoc. f_equal.
    now destruct (String.eqb (bServerID b) s).
Qed.

(** X2.  Ingestion followed by incorporation is first in, first out.  When
    the buffer has room, [CollectMetrics] succeeds, and once the buffer
    has been drained the series of every server is what it was, followed
    by the samples queued for it in the order they were queued, the sample
    just ingested last; the buffer is then empty.  Until the buffer is
    drained [GetMetrics] does not see the ingested sample. *)
Theorem ingest_then_drain_is_fifo (c : Collector) (now : Z) (serverID : string)
    (data : MetricData) (capacity : Z) (queue : list MetricBatch) :
  buffer c = Buffered capacity queue ->
  len queue < capacity ->
  snd (CollectMetrics c now serverID data) = None /\
  (forall s, GetMetrics (fst (CollectMetrics c now serverID data)) s = GetMetrics c s) /\
  buffer (processBuffer (S (length queue)) (fst (CollectMetrics c now serverID data)))
    = Buffered capacity [] /\
  GetMetrics (processBuffer (S (length queue)) (fst (CollectMetrics c now serverID data)))
    serverID
    = Ok (series_of c serverID ++ queued_for serverID queue ++ [data]) /\
  (forall s, s <> serverID ->
     series_of (processBuffer (S (length queue)) (fst (CollectMetrics c now serverID data))) s
     = series_of c s ++ queued_for s queue).
Proof.
  intros Hb Hroom.
  assert (E : CollectMetrics c now serverID data
              = (set_buffer c (Buffered capacity
                   (queue ++ [ {| bServerID := serverID; Metrics := [data];
                                  bTimestamp := now |} ])), None)).
  { unfold CollectMetrics. rewrite Hb. simpl.
    destruct (len queue <? capacity) eqn:El; [reflexivity|].
    apply Z.ltb_ge in El. lia. }
  rewrite E. simpl fst. simpl snd.
  set (batch := {| bServerID := serverID; Metrics := [data]; bTimestamp := now |}).
  set (c1 := set_buffer c (Buffered capacity (queue ++ [batch]))).
  assert (Hlen : S (length queue) = length (queue ++ [batch])).
  { rewrite length_app. simpl. lia. }
  destruct (processBuffer_drains capacity (queue ++ [batch]) c1 eq_refl) as [Hd1 Hd2].
  rewrite Hlen.
  assert (Hq : forall s, queued_for s (queue ++ [batch])
                         = queued_for s queue
                           ++ (if String.eqb serverID s then [data] else [])).
  { intros s. unfold queued_for. rewrite List.filter_app, map_app, concat_app. f_equal.
    simpl. destruct (String.eqb serverID s); reflexivity. }
  split; [reflexivity|]. split; [reflexivity|]. split; [exact Hd1|]. split.
  - pose proof (Hd2 serverID) as H. rewrite Hq, String.eqb_refl in H.
    change (series_of c1 serverID) with (series_of c serverID) in H.
    unfold GetMetrics. unfold series_of in H at 1.
    destruct (metrics.metrics (processBuffer (length (queue ++ [batch])) c1) !! serverID)
      as [sm|] eqn:Hsm.
    + now rewrite H.
    + exfalso. symmetry in H. apply app_eq_nil in H as [_ H].
      apply app_eq_nil in H as [_ H]. discriminate.
  - intros s Hs. rewrite Hd2, Hq.
    change (series_of c1 s) with (series_of c s).
    destruct (String.eqb_spec serverID s); [congruence|].
    now rewrite app_nil_r.
Qed.

(** X2 (witness): a sample for [s1] ingested behind two waiting batches. *)
Lemma ingest_then_drain_is_fifo_witness :
  snd (CollectMetrics queued_collector 5 "s1" (reading 40 4)) = None /\
  (forall s, GetMetrics (fst (CollectMetrics queued_collector 5 "s1" (reading 40 4))) s
             = GetMetrics queued_collector s) /\
  buffer (processBuffer 3 (fst (CollectMetrics queued_collector 5 "s1" (reading 40 4))))
    = Buffered 3 [] /\
  GetMetrics (processBuffer 3 (fst (CollectMetrics queued_collector 5 "s1" (reading 40 4))))
    "s1"
    = Ok (series_of queued_collector "s1"
          ++ queued_for "s1" [batch_of "s1" [reading 20 2]; batch_of "s2" [reading 30 3]]
          ++ [reading 40 4]) /\
  (forall s, s <> "s1" ->
     series_of (processBuffer 3 (fst (CollectMetrics queued_collector 5 "s1" (reading 40 4)))) s
     = series_of queued_collector s
       ++ queued_for s [batch_of "s1" [reading 20 2]; batch_of "s2" [reading 30 3]]).
Proof.
  apply (ingest_then_drain_is_fifo queued_collector 5 "s1" (reading 40 4) 3
           [batch_of "s1" [reading 20 2]; batch_of "s2" [reading 30 3]]).
  - reflexivity.
  - vm_compute. reflexivity.
Defined.

Lemma filter_fresh_later (t1 t2 : Z) (l : list MetricData) :
  t1 <= t2 ->
  List.filter (fresh t2) (List.filter (fresh t1) l) = List.filter (fresh t2) l.
Proof.
  intros Hle. induction l as [|m l IH]; simpl; [reflexivity|].
  destruct (fresh t1 m) eqn:E1; simpl.
  - destruct (fresh t2 m); [now rewrite IH | exact IH].
  - destruct (fresh t2 m) eqn:E2; [|exact IH].
    apply fresh_spec in E2. exfalso.
    assert (H : fresh t1 m = true) by (apply fresh_spec; lia). congruence.
Qed.

(** X3.  Sweeps compose: a sweep followed by a sweep at the same or a
    later clock reading leaves the collector the later sweep alone would
    leave; in particular a sweep repeated at the same reading changes
    nothing. *)
Theorem cleanupOldMetrics_later_sweep (c : Collector) (t1 t2 : Z) :
  t1 <= t2 ->
  cleanupOldMetrics (cleanupOldMetrics c t1) t2 = cleanupOldMetrics c t2.
Proof.
  intros Hle. unfold cleanupOldMetrics, set_metrics, time.Add. simpl. f_equal.
  rewrite <- map_fmap_compose. apply map_fmap_ext. intros s sm _. simpl.
  f_equal. apply filter_fresh_later. lia.
Qed.

(** X3 (witness): a sweep at 1000 s and one at 1001 s. *)
Lemma cleanupOldMetrics_later_sweep_witness :
  cleanupOldMetrics (cleanupOldMetrics boundary_collector (time.Unix 1000)) (time.Unix 1001)
  = cleanupOldMetrics boundary_collector (time.Unix 1001).
Proof.
  apply (cleanupOldMetrics_later_sweep boundary_collector (time.Unix 1000) (time.Unix 1001)).
  vm_compute. discriminate.
Defined.

End StoreMore.

(** * More on the scoring engine *)

Section AnalyzerMore.

Import metrics.

(** ** The order on [float64] *)

Ltac compare_cases :=
  repeat match goal with
         | H : context [(?a ?= ?b)%Q] |- _ => destruct (Qcompare_spec a b)
         | |- context [(?a ?= ?b)%Q] => destruct (Qcompare_spec a b)
         end.

Ltac float_order :=
  unfold fgt, flt, fle, is_nan, zero in *; simpl in *; compare_cases;
  try reflexivity; try discriminate; try (exfalso; lra).

(** A value that does not exceed the running maximum does not exceed a
    larger maximum either. *)
Lemma fgt_raise (x b b' : float64) :
  fgt x b = false -> fgt b' b = true -> fgt x b' = false.
Proof. destruct x, b, b'; float_order. Qed.

Lemma flt_lower (x b b' : float64) :
  flt x b = false -> flt b' b = true -> flt x b' = false.
Proof. destruct x, b, b'; float_order. Qed.

Lemma fgt_trans (x y z : float64) :
  fgt x y = true -> fgt y z = true -> fgt x z = true.
Proof. destruct x, y, z; float_order. Qed.

Lemma fgt_irrefl (x : float64) : fgt x x = false.
Proof. destruct x; float_order. Qed.

Lemma flt_irrefl (x : float64) : flt x x = false.
Proof. destruct x; float_order. Qed.

Lemma not_flt_fle (x y : float64) :
  is_nan x = false -> is_nan y = false -> flt x y = false -> fle y x = true.
Proof. destruct x, y; float_order. Qed.

Lemma fle_refl (x : float64) : is_nan x = false -> fle x x = true.
Proof. destruct x; float_order. Qed.

Lemma fgt_not_nan (x y : float64) : fgt x y = true -> is_nan x = false /\ is_nan y = false.
Proof. destruct x, y; float_order; split; reflexivity. Qed.

(** ** Minimum and maximum *)

Local Abbreviation minmax_step :=
  (fun '(min, max) m =>
     (if flt (PowerUsage m) min then PowerUsage m else min,
      if fgt (PowerUsage m) max then PowerUsage m else max)) (only parsing).

Lemma minmax_fold (ms seen : list MetricData) (lo hi : float64) :
  Forall (fun m => is_nan (PowerUsage m) = false) ms ->
  is_nan lo = false -> is_nan hi = false ->
  (forall m, In m seen -> flt (PowerUsage m) lo = false /\ fgt (PowerUsage m) hi = false) ->
  forall lo' hi',
    fold_left minmax_step ms (lo, hi) = (lo', hi') ->
    (lo' = lo \/ In lo' (map PowerUsage ms)) /\
    (hi' = hi \/ In hi' (map PowerUsage ms)) /\
    is_nan lo' = false /\ is_nan hi' = false /\
    (forall m, In m (seen ++ ms) ->
       flt (PowerUsage m) lo' = false /\ fgt (PowerUsage m) hi' = false).
Proof.
  revert seen lo hi.
  induction ms as [|m ms IH]; intros seen lo hi Hnan Hlo Hhi Hseen lo' hi' Hfold.
  - simpl in Hfold. injection Hfold as <- <-. rewrite app_nil_r. auto.
  - inversion Hnan as [|? ? Hm Hms]; subst. simpl in Hfold.
    set (lo1 := if flt (PowerUsage m) lo then PowerUsage m else lo) in *.
    set (hi1 := if fgt (PowerUsage m) hi then PowerUsage m else hi) in *.
    assert (Hlo1 : is_nan lo1 = false) by (unfold lo1; now destruct (flt _ _)).
    assert (Hhi1 : is_nan hi1 = false) by (unfold hi1; now destruct (fgt _ _)).
    assert (Hseen1 : forall m', In m' (seen ++ [m]) ->
              flt (PowerUsage m') lo1 = false /\ fgt (PowerUsage m') hi1 = false).
    { intros m' Hin. apply in_app_or in Hin as [Hin|[<-|[]]].
      - destruct (Hseen m' Hin) as [H1 H2]. unfold lo1, hi1. split.
        + destruct (flt (PowerUsage m) lo) eqn:E; [|assumption].
          eapply flt_lower; eassumption.
        + destruct (fgt (PowerUsage m) hi) eqn:E; [|assumption].
          eapply fgt_raise; eassumption.
      - unfold lo1, hi1. split.
        + destruct (flt (PowerUsage m) lo) eqn:E; [apply flt_irrefl | assumption].
        + destruct (fgt (PowerUsage m) hi) eqn:E; [apply fgt_irrefl | assumption]. }
    destruct (IH (seen ++ [m]) lo1 hi1 Hms Hlo1 Hhi1 Hseen1 lo' hi' Hfold)
      as (Ha & Hb & Hc & Hd & He).
    repeat split; try assumption.
    + destruct Ha as [->|Ha]; [|right; now right].
      unfold lo1. destruct (flt _ _); [right; now left | now left].
    + destruct Hb as [->|Hb]; [|right; now right].
      unfold hi1. destruct (fgt _ _); [right; now left | now left].
    + apply He. rewrite <- app_assoc. exact H.
    + apply He. rewrite <- app_assoc. exact H.
Qed.

Lemma minmax_of_series (ms : list MetricData) :
  ms <> [] ->
  Forall (fun m => is_nan (PowerUsage m) = false) ms ->
  exists lo hi,
    calculateMinMax ms = Some (lo, hi) /\
    In lo (map PowerUsage ms) /\ In hi (map PowerUsage ms) /\
    forall m, In m ms ->
      fle lo (PowerUsage m) = true /\ fle (PowerUsage m) hi = true.
Proof.
  intros Hne Hnan.
  destruct ms as [|first rest]; [congruence|].
  unfold calculateMinMax.
  destruct (fold_left minmax_step (first :: rest) (PowerUsage first, PowerUsage first))
    as [lo hi] eqn:Hfold.
  assert (Hfirst : is_nan (PowerUsage first) = false) by (now inversion Hnan).
  destruct (minmax_fold (first :: rest) [] (PowerUsage first) (PowerUsage first)
              Hnan Hfirst Hfirst (fun m (H : In m []) => match H with end) lo hi Hfold)
    as (Ha & Hb & Hc & Hd & He).
  exists lo, hi. split; [reflexivity|]. split; [|split].
  - destruct Ha as [->|Ha]; [now left | assumption].
  - destruct Hb as [->|Hb]; [now left | assumption].
  - intros m Hin. destruct (He m Hin) as [H1 H2].
    assert (Hm : is_nan (PowerUsage m) = false).
    { rewrite List.Forall_forall in Hnan. now apply Hnan. }
    split.
    + now apply not_flt_fle.
    + apply not_flt_fle; assumption.
Qed.

(** X4.  For a non-empty series without [NaN] readings, [calculateMinMax]
    returns two readings of the series, the first at most every reading
    and the second at least every reading; on an empty series it indexes
    out of range. *)
Theorem calculateMinMax_bounds (ms : list MetricData) :
  calculateMinMax [] = None /\
  (ms <> [] ->
   Forall (fun m => is_nan (PowerUsage m) = false) ms ->
   exists lo hi,
     calculateMinMax ms = Some (lo, hi) /\
     In lo (map PowerUsage ms) /\ In hi (map PowerUsage ms) /\
     forall m, In m ms ->
       fle lo (PowerUsage m) = true /\ fle (PowerUsage m) hi = true).
Proof. split; [reflexivity | apply minmax_of_series]. Qed.

(** ** The median *)

Lemma insert_float_length (x : float64) (l : list float64) :
  length (insert_float x l) = S (length l).
Proof.
  induction l as [|y l IH]; simpl; [reflexivity|].
  destruct (float_less x y); simpl; [reflexivity | now rewrite IH].
Qed.

Lemma sort_Float64s_length (l : list float64) :
  length (sort_Float64s l) = length l.
Proof.
  induction l as [|x l IH]; simpl; [reflexivity|].
  now rewrite insert_float_length, IH.
Qed.

Lemma insert_float_In (x y : float64) (l : list float64) :
  In y (insert_float x l) -> y = x \/ In y l.
Proof.
  induction l as [|z l IH]; simpl.
  - intros [<-|[]]. now left.
  - destruct (float_less x z); simpl.
    + intros [<-|[<-|H]]; auto.
    + intros [<-|H]; [auto|]. destruct (IH H); auto.
Qed.

Lemma sort_Float64s_In (y : float64) (l : list float64) :
  In y (sort_Float64s l) -> In y l.
Proof.
  induction l as [|x l IH]; simpl; [auto|].
  intros H. apply insert_float_In in H as [->|H]; auto.
Qed.

Lemma at_index_In {A} (s : list A) (i : Z) (x : A) :
  at_index s i = Some x -> In x s.
Proof.
  unfold at_index. destruct (i <? 0); [discriminate|].
  intros H. apply list_elem_of_In. eapply list_elem_of_lookup_2. exact H.
Qed.

Lemma at_index_Some {A} (s : list A) (i : Z) :
  0 <= i < len s -> exists x, at_index s i = Some x.
Proof.
  intros [H0 H1]. unfold at_index.
  destruct (i <? 0) eqn:E; [apply Z.ltb_lt in E; lia|].
  apply lookup_lt_is_Some_2. unfold len in H1. lia.
Qed.

(** The median is a reading of the series or the mean of two of them; it
    exists for every non-empty series. *)
Lemma calculateMedian_cases (ms : list MetricData) :
  ms <> [] ->
  exists a b,
    In a (map PowerUsage ms) /\ In b (map PowerUsage ms) /\
    (calculateMedian ms = Some a \/
     calculateMedian ms = Some (fdiv (fadd a b) (Fin 2))).
Proof.
  intros Hne. unfold calculateMedian.
  set (values := sort_Float64s (map PowerUsage ms)).
  assert (Hlen : len values = len ms).
  { unfold len, values. now rewrite sort_Float64s_length, length_map. }
  assert (Hpos : 0 < len ms).
  { unfold len. destruct ms; [congruence | simpl; lia]. }
  assert (Hin : forall x, In x values -> In x (map PowerUsage ms)).
  { intros x. apply sort_Float64s_In. }
  cbv zeta. rewrite Hlen.
  assert (Hmid : 0 <= Z.quot (len ms) 2 < len ms).
  { split; [apply Z.quot_pos; lia | apply Z.quot_lt; lia]. }
  destruct (at_index_Some values (Z.quot (len ms) 2)) as [b Hb]; [now rewrite Hlen|].
  destruct (Z.rem (len ms) 2 =? 0) eqn:Heven.
  - apply Z.eqb_eq in Heven.
    assert (H1 : 1 <= Z.quot (len ms) 2).
    { pose proof (Z.quot_rem' (len ms) 2) as Hqr. lia. }
    destruct (at_index_Some values (Z.quot (len ms) 2 - 1)) as [a Ha];
      [rewrite Hlen; lia|].
    exists a, b. rewrite Ha, Hb.
    split; [apply Hin; eapply at_index_In; eassumption|].
    split; [apply Hin; eapply at_index_In; eassumption|]. now right.
  - exists b, b. rewrite Hb.
    split; [apply Hin; eapply at_index_In; eassumption|].
    split; [apply Hin; eapply at_index_In; eassumption|]. now left.
Qed.

(** ** AnalyzeServerMetrics *)

Lemma nonempty_len {A} (l : list A) : l <> [] -> 0 < len l.
Proof. unfold len. destruct l; [congruence | simpl; lia]. Qed.

(** X5.  [AnalyzeServerMetrics] passes on the error of [GetMetrics] for a
    server without samples, answers "insufficient data points for
    analysis" when the series is shorter than [MinDataPoints], and
    otherwise returns an analysis whenever the series is not empty.  With
    [MinDataPoints] at or below zero an empty series gets past the test
    and the median indexes out of range: the call panics. *)
Theorem AnalyzeServerMetrics_outcomes (Sqrt : float64 -> float64) (a : Analyzer)
    (serverID : string) :
  (forall e, GetMetrics (a_collector a) serverID = Err e ->
     AnalyzeServerMetrics Sqrt a serverID = Returns (Err e)) /\
  (forall ms, GetMetrics (a_collector a) serverID = Ok ms ->
     len ms < MinDataPoints (a_config a) ->
     AnalyzeServerMetrics Sqrt a serverID
     = Returns (Err "insufficient data points for analysis")) /\
  (forall ms, GetMetrics (a_collector a) serverID = Ok ms ->
     MinDataPoints (a_config a) <= len ms -> ms <> [] ->
     exists r, AnalyzeServerMetrics Sqrt a serverID = Returns (Ok r) /\
               Mean r = calculateMean ms /\
               Trend r = analyzeTrend ms /\
               PeakUsageTime r = findPeakUsageTime ms /\
               EfficiencyScore r = calculateEfficiencyScore ms) /\
  (GetMetrics (a_collector a) serverID = Ok [] ->
   MinDataPoints (a_config a) <= 0 ->
   AnalyzeServerMetrics Sqrt a serverID = Panics).
Proof.
  unfold AnalyzeServerMetrics. repeat split.
  - intros e ->. reflexivity.
  - intros ms -> Hlt. apply Z.ltb_lt in Hlt. now rewrite Hlt.
  - intros ms -> Hge Hne. apply Z.ltb_ge in Hge. rewrite Hge.
    destruct (calculateMedian_cases ms Hne) as (x & y & _ & _ & [Hm|Hm]); rewrite Hm;
      (destruct ms as [|first rest]; [congruence|]);
      unfold calculateMinMax;
      match goal with
      | |- context [fold_left ?f ?l ?i] => destruct (fold_left f l i) as [lo hi]
      end; eexists; repeat split; reflexivity.
  - intros -> Hle.
    assert (E : (len (@nil MetricData) <? MinDataPoints (a_config a)) = false).
    { apply Z.ltb_ge. exact Hle. }
    rewrite E. reflexivity.
Qed.

(** X5 (witness): with [MinDataPoints] zero, a server whose samples have
    all been swept away makes the analysis panic, and an unknown server
    gets the error of [GetMetrics]. *)
Lemma AnalyzeServerMetrics_outcomes_witness :
  AnalyzeServerMetrics (fun x => x) lenient_analyzer "s1" = Panics /\
  AnalyzeServerMetrics (fun x => x) lenient_analyzer "s2"
  = Returns (Err "no metrics found for server: s2").
Proof.
  split.
  - apply (proj2 (proj2 (proj2 (AnalyzeServerMetrics_outcomes (fun x => x)
                                   lenient_analyzer "s1")))).
    + reflexivity.
    + vm_compute. discriminate.
  - apply (proj1 (AnalyzeServerMetrics_outcomes (fun x => x) lenient_analyzer "s2")).
    reflexivity.
Defined.

Lemma finite_not_nan (x : float64) : is_finite x = true -> is_nan x = false.
Proof. now destruct x. Qed.

Lemma within_of_bounds (lo hi : Q) (x : float64) :
  is_finite x = true -> fle (Fin lo) x = true -> fle x (Fin hi) = true ->
  within lo hi x.
Proof.
  destruct x as [q| | |]; try discriminate. intros _ H1 H2.
  exists q. split; [reflexivity|]. revert H1 H2. float_order; intros; split; lra.
Qed.

Lemma bounds_of_within (lo hi : Q) (x : float64) :
  within lo hi x -> fle (Fin lo) x = true /\ fle x (Fin hi) = true.
Proof. intros (q & -> & H1 & H2). split; float_order. Qed.

(** The median of an odd number of readings is one of them. *)
Lemma calculateMedian_odd (ms : list MetricData) :
  Z.rem (len ms) 2 = 1 ->
  exists b, In b (map PowerUsage ms) /\ calculateMedian ms = Some b.
Proof.
  intros Hodd. unfold calculateMedian.
  set (values := sort_Float64s (map PowerUsage ms)).
  assert (Hlen : len values = len ms).
  { unfold len, values. now rewrite sort_Float64s_length, length_map. }
  assert (Hpos : 0 < len ms).
  { unfold len in *. destruct ms; [discriminate | simpl; lia]. }
  cbv zeta. rewrite Hlen, Hodd. simpl.
  assert (Hmid : 0 <= Z.quot (len ms) 2 < len ms).
  { split; [apply Z.quot_pos; lia | apply Z.quot_lt; lia]. }
  destruct (at_index_Some values (Z.quot (len ms) 2)) as [b Hb]; [now rewrite Hlen|].
  exists b. split; [|exact Hb].
  apply (sort_Float64s_In b). eapply at_index_In. exact Hb.
Qed.

(** X6.  For a non-empty series without [NaN] readings that is long
    enough, the analysis returned has a minimum and a maximum that are
    readings of the series and enclose every reading; when the number of
    readings is odd the median is a reading too, so it lies between the
    minimum and the maximum. *)
Theorem AnalyzeServerMetrics_ordered (Sqrt : float64 -> float64) (a : Analyzer)
    (serverID : string) (ms : list MetricData) :
  GetMetrics (a_collector a) serverID = Ok ms ->
  ms <> [] ->
  MinDataPoints (a_config a) <= len ms ->
  Forall (fun m => is_nan (PowerUsage m) = false) ms ->
  exists r,
    AnalyzeServerMetrics Sqrt a serverID = Returns (Ok r) /\
    In (Min r) (map PowerUsage ms) /\ In (Max r) (map PowerUsage ms) /\
    fle (Min r) (Max r) = true /\
    (forall m, In m ms ->
       fle (Min r) (PowerUsage m) = true /\ fle (PowerUsage m) (Max r) = true) /\
    (Z.rem (len ms) 2 = 1 ->
     In (Median r) (map PowerUsage ms) /\
     fle (Min r) (Median r) = true /\ fle (Median r) (Max r) = true).
Proof.
  intros Hget Hne Hge Hnan.
  destruct (minmax_of_series ms Hne Hnan) as (lo & hi & Hmm & Hlo & Hhi & Hb).
  destruct (calculateMedian_cases ms Hne) as (x & y & _ & _ & Hcases).
  assert (Hmed : exists med, calculateMedian ms = Some med)
    by (destruct Hcases as [H|H]; eauto).
  destruct Hmed as (med & Hmed).
  unfold AnalyzeServerMetrics. rewrite Hget.
  apply Z.ltb_ge in Hge. rewrite Hge. cbv zeta. rewrite Hmed, Hmm.
  eexists. split; [reflexivity|]. cbn [Min Max Median].
  split; [exact Hlo|]. split; [exact Hhi|]. split; [|split; [exact Hb|]].
  - apply in_map_iff in Hhi as (m & <- & Hm). now apply Hb.
  - intros Hodd. destruct (calculateMedian_odd ms Hodd) as (b & Hin & Hb').
    rewrite Hmed in Hb'. apply (inj Some) in Hb'. subst b.
    split; [exact Hin|]. apply in_map_iff in Hin as (m & <- & Hm). now apply Hb.
Qed.

(** X6 (witness): the series 3, 1, 2 with [MinDataPoints] zero. *)
Lemma AnalyzeServerMetrics_ordered_witness :
  exists r,
    AnalyzeServerMetrics (fun x => x) lenient_analyzer "s3" = Returns (Ok r) /\
    In (Min r) (map PowerUsage [reading 3 1; reading 1 2; reading 2 3]) /\
    In (Max r) (map PowerUsage [reading 3 1; reading 1 2; reading 2 3]) /\
    fle (Min r) (Max r) = true /\
    In (Median r) (map PowerUsage [reading 3 1; reading 1 2; reading 2 3]) /\
    fle (Min r) (Median r) = true /\ fle (Median r) (Max r) = true.
Proof.
  destruct (AnalyzeServerMetrics_ordered (fun x => x) lenient_analyzer "s3"
              [reading 3 1; reading 1 2; reading 2 3])
    as (r & Hr & Hmin & Hmax & Hle & _ & Hodd).
  - reflexivity.
  - discriminate.
  - vm_compute. discriminate.
  - repeat constructor.
  - exists r. split; [exact Hr|]. split; [exact Hmin|]. split; [exact Hmax|].
    split; [exact Hle|]. apply Hodd. reflexivity.
Defined.

(** ** Trend *)

Lemma take_drop_nonempty {A} (l : list A) :
  2 <= len l ->
  take (Z.to_nat (Z.quot (len l) 2)) l <> [] /\
  drop (Z.to_nat (Z.quot (len l) 2)) l <> [].
Proof.
  intros H. unfold len in *.
  assert (H1 : 1 <= Z.quot (Z.of_nat (length l)) 2).
  { pose proof (Z.quot_rem' (Z.of_nat (length l)) 2).
    pose proof (Z.rem_bound_pos (Z.of_nat (length l)) 2). lia. }
  assert (H2 : Z.quot (Z.of_nat (length l)) 2 < Z.of_nat (length l)).
  { apply Z.quot_lt; lia. }
  split; intros E; apply (f_equal (@length A)) in E; simpl in E.
  - rewrite length_take in E. lia.
  - rewrite length_drop in E. lia.
Qed.

Lemma sum_over_nan_stays (l : list MetricData) :
  fold_left (fun sum m => fadd sum (PowerUsage m)) l NaN = NaN.
Proof. induction l as [|m l IH]; [reflexivity | exact IH]. Qed.

Lemma fadd_nan_r (x y : float64) : is_nan y = true -> fadd x y = NaN.
Proof. destruct y; try discriminate. now destruct x. Qed.

(** A [NaN] reading makes the mean [NaN]. *)
Lemma calculateMean_nan (ms : list MetricData) :
  Exists (fun m => is_nan (PowerUsage m) = true) ms -> calculateMean ms = NaN.
Proof.
  intros H. unfold calculateMean, sum_over.
  assert (E : forall acc, fold_left (fun sum m => fadd sum (PowerUsage m)) ms acc = NaN).
  { induction H as [m l Hm | m l _ IH]; intros acc; simpl.
    - rewrite (fadd_nan_r acc _ Hm). apply sum_over_nan_stays.
    - apply IH. }
  now rewrite E.
Qed.

(** X7.  A series of fewer than two samples is "stable", and so is every
    series with a [NaN] reading, whatever the other readings: the mean of
    the half that holds it is [NaN], and both comparisons with [NaN] are
    false. *)
Theorem analyzeTrend_nan_is_stable (ms : list MetricData) :
  (len ms < 2 -> analyzeTrend ms = "stable") /\
  (Exists (fun m => is_nan (PowerUsage m) = true) ms -> analyzeTrend ms = "stable").
Proof.
  unfold analyzeTrend. split.
  - intros H. apply Z.ltb_lt in H. now rewrite H.
  - intros H. destruct (len ms <? 2); [reflexivity|]. cbv zeta.
    rewrite <- (take_drop (Z.to_nat (Z.quot (len ms) 2)) ms) in H at 1.
    apply Exists_app in H as [H|H]; rewrite (calculateMean_nan _ H).
    + now destruct (calculateMean _).
    + now destruct (calculateMean _).
Qed.

(** X7 (witness): one sample, and a rising series with a [NaN] reading. *)
Lemma analyzeTrend_nan_is_stable_witness :
  analyzeTrend [reading 3 1] = "stable" /\
  analyzeTrend [reading 1 1; reading 2 2; nan_reading 3; reading 400 4] = "stable".
Proof.
  split.
  - apply (proj1 (analyzeTrend_nan_is_stable [reading 3 1])).
    vm_compute. reflexivity.
  - apply (proj2 (analyzeTrend_nan_is_stable
                    [reading 1 1; reading 2 2; nan_reading 3; reading 400 4])).
    apply Exists_cons_tl, Exists_cons_tl, Exists_cons_hd. reflexivity.
Defined.

(** ** Anomalies *)

Lemma fold_append_filter {A B} (test : A -> bool) (make : A -> B) (l : list A)
    (acc : list B) :
  fold_left (fun out x => if test x then out ++ [make x] else out) l acc
  = acc ++ map make (List.filter test l).
Proof.
  revert acc. induction l as [|x l IH]; intros acc; simpl.
  - now rewrite app_nil_r.
  - rewrite IH. destruct (test x); simpl; [now rewrite <- app_assoc | reflexivity].
Qed.

Lemma Qabs_zero (d : Q) : Qabs d == 0 <-> d == 0.
Proof.
  split.
  - apply (Qabs_case d (fun y => y == 0 -> d == 0)); intros; lra.
  - intros H. rewrite H. reflexivity.
Qed.

(** The z-score against a zero deviation: not a number for a reading at
    the mean, infinite for any other reading. *)
Lemma zScore_zero_deviation (x : float64) (mu z : Q) :
  z == 0 ->
  fdiv (fabs (fsub x (Fin mu))) (Fin z)
  = if negb (is_nan x) && negb (feq x (Fin mu)) then PInf else NaN.
Proof.
  intros Hz.
  destruct x as [q| | |];
    cbn [fsub fneg fadd fabs fdiv is_nan feq negb andb];
    rewrite ?(sgn_zero z Hz); try reflexivity.
  pose proof (Qabs_nonneg (q + - mu)) as Hn.
  pose proof (Qabs_zero (q + - mu)) as Hq.
  unfold sgn. destruct (Qeq_bool q mu) eqn:E; cbn [negb].
  - apply Qeq_bool_iff in E.
    assert (H0 : Qabs (q + - mu) == 0) by (apply Hq; lra).
    apply Qeq_alt in H0. now rewrite H0.
  - apply Qeq_bool_neq in E.
    destruct (Qcompare_spec (Qabs (q + - mu)) 0) as [H|H|H].
    + exfalso. apply E. apply Hq in H. lra.
    + exfalso. lra.
    + reflexivity.
Qed.

(** X8.  With a standard deviation of zero [detectAnomalies] divides by
    zero without fault.  A reading equal to the mean has a z-score that is
    not a number and is passed over; every other reading that is a number
    is reported, in the order of the series, with infinite severity,
    whatever the threshold below infinity.  A series whose readings all
    equal the mean yields no anomaly. *)
Theorem detectAnomalies_zero_deviation (a : Analyzer) (ms : list MetricData)
    (mu z : Q) :
  z == 0 ->
  flt (AnomalyThreshold (a_config a)) PInf = true ->
  detectAnomalies a ms (Fin mu) (Fin z)
  = map (fun m => {| an_Timestamp := time.Unix (Timestamp m);
                     an_Value := PowerUsage m;
                     an_Type := classifyAnomaly (PowerUsage m) (Fin mu);
                     an_Severity := PInf |})
        (List.filter (fun m => negb (is_nan (PowerUsage m))
                               && negb (feq (PowerUsage m) (Fin mu))) ms) /\
  (Forall (fun m => within mu mu (PowerUsage m)) ms ->
   detectAnomalies a ms (Fin mu) (Fin z) = []).
Proof.
  intros Hz Hth.
  assert (E : detectAnomalies a ms (Fin mu) (Fin z)
              = map (fun m => {| an_Timestamp := time.Unix (Timestamp m);
                                 an_Value := PowerUsage m;
                                 an_Type := classifyAnomaly (PowerUsage m) (Fin mu);
                                 an_Severity := PInf |})
                    (List.filter (fun m => negb (is_nan (PowerUsage m))
                                           && negb (feq (PowerUsage m) (Fin mu))) ms)).
  { unfold detectAnomalies. cbv zeta.
    induction ms as [|m ms IH] using rev_ind; [reflexivity|].
    rewrite fold_left_app, List.filter_app, map_app, <- IH. simpl.
    rewrite (zScore_zero_deviation (PowerUsage m) mu z Hz).
    destruct (negb (is_nan (PowerUsage m)) && negb (feq (PowerUsage m) (Fin mu))); simpl.
    - unfold fgt. rewrite Hth. reflexivity.
    - unfold fgt. replace (flt (AnomalyThreshold (a_config a)) NaN) with false
        by (now destruct (AnomalyThreshold (a_config a))).
      now rewrite app_nil_r. }
  split; [exact E|]. intros Hall. rewrite E. clear E.
  induction Hall as [|m ms (q & Hq & H1 & H2) Hrest IH]; [reflexivity|].
  cbn [List.filter]. rewrite Hq. cbn [is_nan feq negb andb].
  assert (Heq : Qeq_bool q mu = true) by (apply Qeq_bool_iff; lra).
  rewrite Heq. exact IH.
Qed.

(** X8 (witness): the readings 3, 3 and 4 against a mean of 3, and the
    constant series 3, 3, 3. *)
Lemma detectAnomalies_zero_deviation_witness :
  detectAnomalies lenient_analyzer [reading 3 1; reading 3 2; reading 4 3] (Fin 3) (Fin 0)
  = map (fun m => {| an_Timestamp := time.Unix (Timestamp m);
                     an_Value := PowerUsage m;
                     an_Type := classifyAnomaly (PowerUsage m) (Fin 3);
                     an_Severity := PInf |})
        (List.filter (fun m => negb (is_nan (PowerUsage m))
                               && negb (feq (PowerUsage m) (Fin 3)))
           [reading 3 1; reading 3 2; reading 4 3]) /\
  detectAnomalies lenient_analyzer [reading 3 1; reading 3 2; reading 3 3] (Fin 3) (Fin 0)
  = [].
Proof.
  split.
  - apply (proj1 (detectAnomalies_zero_deviation lenient_analyzer
                    [reading 3 1; reading 3 2; reading 4 3] 3 0
                    ltac:(reflexivity) ltac:(reflexivity))).
  - apply (proj2 (detectAnomalies_zero_deviation lenient_analyzer
                    [reading 3 1; reading 3 2; reading 3 3] 3 0
                    ltac:(reflexivity) ltac:(reflexivity))).
    repeat constructor; exists 3%Q; repeat split; vm_compute; discriminate.
Defined.

(** ** Peak usage *)

Local Abbreviation peak_step :=
  (fun '(maxUsage, peakTime) m =>
     if fgt (PowerUsage m) maxUsage
     then (PowerUsage m, time.Unix (Timestamp m))
     else (maxUsage, peakTime)) (only parsing).

Lemma peak_fold (ms seen : list MetricData) (maxUsage : float64) (peakTime : Z) :
  (forall m, In m seen -> fgt (PowerUsage m) maxUsage = false) ->
  fgt zero maxUsage = false ->
  forall maxUsage' peakTime',
    fold_left peak_step ms (maxUsage, peakTime) = (maxUsage', peakTime') ->
    (forall m, In m (seen ++ ms) -> fgt (PowerUsage m) maxUsage' = false) /\
    fgt zero maxUsage' = false /\
    ((maxUsage', peakTime') = (maxUsage, peakTime) \/
     exists m, In m ms /\ maxUsage' = PowerUsage m /\
               peakTime' = time.Unix (Timestamp m) /\
               fgt (PowerUsage m) maxUsage = true).
Proof.
  revert seen maxUsage peakTime.
  induction ms as [|m ms IH]; intros seen maxUsage peakTime Hseen H0 mx pk Hfold.
  - simpl in Hfold. injection Hfold as <- <-. rewrite app_nil_r. auto.
  - simpl in Hfold. destruct (fgt (PowerUsage m) maxUsage) eqn:Hm.
    + destruct (IH (seen ++ [m]) (PowerUsage m) (time.Unix (Timestamp m))) with (3 := Hfold)
        as (Ha & Hb & Hc).
      * intros m' Hin. apply in_app_or in Hin as [Hin|[<-|[]]].
        -- eapply fgt_raise; [now apply Hseen | exact Hm].
        -- apply fgt_irrefl.
      * eapply fgt_raise; eassumption.
      * split; [intros m' Hin; apply Ha; now rewrite <- app_assoc|].
        split; [assumption|]. right.
        destruct Hc as [Hc|(m1 & Hin & -> & -> & Hgt)].
        -- injection Hc as -> ->. exists m. repeat split; auto. now left.
        -- exists m1. repeat split; auto; [now right|].
           eapply fgt_trans; eassumption.
    + destruct (IH (seen ++ [m]) maxUsage peakTime) with (3 := Hfold)
        as (Ha & Hb & Hc).
      * intros m' Hin. apply in_app_or in Hin as [Hin|[<-|[]]]; auto.
      * assumption.
      * split; [intros m' Hin; apply Ha; now rewrite <- app_assoc|].
        split; [assumption|].
        destruct Hc as [Hc|(m1 & Hin & Hc)]; [now left|].
        right. exists m1. split; [now right | assumption].
Qed.

(** X9.  [findPeakUsageTime] returns the zero time for a series without a
    reading above zero, the empty series included; otherwise it returns
    the time of a sample whose reading is above zero and is exceeded by no
    reading of the series. *)
Theorem findPeakUsageTime_peak (ms : list MetricData) :
  (Forall (fun m => fgt (PowerUsage m) zero = false) ms ->
   findPeakUsageTime ms = time.zero) /\
  (Exists (fun m => fgt (PowerUsage m) zero = true) ms ->
   exists m, In m ms /\
             findPeakUsageTime ms = time.Unix (Timestamp m) /\
             fgt (PowerUsage m) zero = true /\
             forall m', In m' ms -> fgt (PowerUsage m') (PowerUsage m) = false).
Proof.
  unfold findPeakUsageTime.
  destruct (fold_left peak_step ms (zero, time.zero)) as [mx pk] eqn:Hfold.
  destruct (peak_fold ms [] zero time.zero
              (fun m (H : In m []) => match H with end) eq_refl mx pk Hfold)
    as (Ha & Hb & Hc).
  simpl in Ha. split.
  - intros Hall. destruct Hc as [Hc|(m & Hin & _ & _ & Hgt)].
    + now injection Hc.
    + rewrite List.Forall_forall in Hall. rewrite (Hall m Hin) in Hgt. discriminate.
  - intros Hex. destruct Hc as [Hc|(m & Hin & -> & -> & Hgt)].
    + injection Hc as -> ->. apply List.Exists_exists in Hex as (m & Hin & Hgt).
      rewrite (Ha m Hin) in Hgt. discriminate.
    + exists m. repeat split; auto.
Qed.

(** X9 (witness): a series with readings 1, 5, 5 and 4, and one with no
    reading above zero. *)
Lemma findPeakUsageTime_peak_witness :
  findPeakUsageTime [reading 0 1; reading (-1) 2] = time.zero /\
  exists m, In m [reading 1 1; reading 5 2; reading 5 3; reading 4 4] /\
            findPeakUsageTime [reading 1 1; reading 5 2; reading 5 3; reading 4 4]
            = time.Unix (Timestamp m) /\
            fgt (PowerUsage m) zero = true /\
            forall m', In m' [reading 1 1; reading 5 2; reading 5 3; reading 4 4] ->
                       fgt (PowerUsage m') (PowerUsage m) = false.
Proof.
  split.
  - apply (proj1 (findPeakUsageTime_peak [reading 0 1; reading (-1) 2])).
    repeat constructor.
  - apply (proj2 (findPeakUsageTime_peak
                    [reading 1 1; reading 5 2; reading 5 3; reading 4 4])).
    apply Exists_cons_hd. reflexivity.
Defined.

End AnalyzerMore.

(** * More on the autoscaler *)

Section AutoscalerMore.

Import scaling.

Lemma scaleUp_completed (enumerate : Enumeration) (a : Autoscaler) (now : Z)
    (server : Server) :
  failure (scaleUp enumerate a now server) = None ->
  after (scaleUp enumerate a now server) = set_lastScaleUp a now.
Proof.
  unfold scaleUp. destruct (findEnergyEfficientServer a); [|discriminate].
  destruct (enumerate (ID server)); [reflexivity | discriminate].
Qed.

Lemma scaleDown_completed (enumerate : Enumeration) (a : Autoscaler) (now : Z)
    (server : Server) :
  failure (scaleDown enumerate a now server) = None ->
  after (scaleDown enumerate a now server) = set_lastScaleDown a now.
Proof.
  rewrite scaleDown_never_short_circuits.
  destruct (findEnergyEfficientServer a); [|discriminate].
  destruct (enumerate (ID server)); [|discriminate].
  destruct (migrate_until_error _ _) as [calls [e|]]; [discriminate | reflexivity].
Qed.

(** X10.  The cooldowns are global.  Once a scale-up pass has completed at
    clock reading [now], [shouldScaleUp] answers no for every sample, of
    whatever server, at every later reading less than [ScaleUpCooldown]
    after [now]; likewise for a scale-down pass and [shouldScaleDown]. *)
Theorem cooldown_suppresses_every_server (enumerate : Enumeration) (a : Autoscaler)
    (now later : Z) (server : Server) (metric : MetricData) :
  (failure (scaleUp enumerate a now server) = None ->
   time.minDuration < ScaleUpCooldown (config a) ->
   later - now < ScaleUpCooldown (config a) ->
   shouldScaleUp (after (scaleUp enumerate a now server)) later metric = false) /\
  (failure (scaleDown enumerate a now server) = None ->
   time.minDuration < ScaleDownCooldown (config a) ->
   later - now < ScaleDownCooldown (config a) ->
   shouldScaleDown (after (scaleDown enumerate a now server)) later metric = false).
Proof.
  split; intros Hdone Hmin Hlt.
  - rewrite (scaleUp_completed _ _ _ _ Hdone). unfold shouldScaleUp. simpl.
    assert (E : (time.Since later now <? ScaleUpCooldown (config a)) = true).
    { apply Z.ltb_lt. unfold time.Since, time.Sub. lia. }
    now rewrite E.
  - rewrite (scaleDown_completed _ _ _ _ Hdone). unfold shouldScaleDown. simpl.
    assert (E : (time.Since later now <? ScaleDownCooldown (config a)) = true).
    { apply Z.ltb_lt. unfold time.Since, time.Sub. lia. }
    now rewrite E.
Qed.

(** X10 (witness): four minutes after [hot] was scaled up, and a minute
    after [idle] was scaled down. *)
Lemma cooldown_suppresses_every_server_witness :
  shouldScaleUp (after (scaleUp hot_containers hot_fleet scenario_now (server "hot")))
    (scenario_now + 4 * time.Minute) hot_sample = false /\
  shouldScaleDown (after (scaleDown idle_containers idle_fleet scenario_now (server "idle")))
    (scenario_now + 1 * time.Minute) idle_sample = false.
Proof.
  split.
  - apply (proj1 (cooldown_suppresses_every_server hot_containers hot_fleet scenario_now
                    (scenario_now + 4 * time.Minute) (server "hot") hot_sample)).
    + reflexivity.
    + vm_compute. reflexivity.
    + vm_compute. reflexivity.
  - apply (proj2 (cooldown_suppresses_every_server idle_containers idle_fleet scenario_now
                    (scenario_now + 1 * time.Minute) (server "idle") idle_sample)).
    + reflexivity.
    + vm_compute. reflexivity.
    + vm_compute. reflexivity.
Defined.

Lemma evaluate_loop_quiet (enumerate : Enumeration) (a : Autoscaler) (now : Z)
    (servers : list Server) :
  time.Since now (lastScaleUp a) < ScaleUpCooldown (config a) ->
  time.Since now (lastScaleDown a) < ScaleDownCooldown (config a) ->
  evaluate_loop enumerate a now servers = no_action a.
Proof.
  intros Hup Hdown. apply Z.ltb_lt in Hup, Hdown.
  induction servers as [|s servers IH]; simpl; [reflexivity|].
  assert (E : evaluate_server enumerate a now s = no_action a).
  { unfold evaluate_server. destruct (metrics.GetMetrics _ _) as [ms|]; [|reflexivity].
    destruct (last ms); [|reflexivity].
    unfold shouldScaleUp, shouldScaleDown. now rewrite Hup, Hdown. }
  rewrite E. simpl. rewrite IH. reflexivity.
Qed.

(** X11.  While both cooldowns run, an evaluation tick acts on no server:
    it issues no relocation and leaves the autoscaler as it was, whatever
    the samples say; its only possible error is that of the inventory
    call. *)
Theorem evaluate_quiet_during_cooldowns (enumerate : Enumeration) (a : Autoscaler)
    (now : Z) :
  time.Since now (lastScaleUp a) < ScaleUpCooldown (config a) ->
  time.Since now (lastScaleDown a) < ScaleDownCooldown (config a) ->
  after (evaluate enumerate a now) = a /\
  issued (evaluate enumerate a now) = [] /\
  failure (evaluate enumerate a now)
  = match cloud.GetInstances (provider a) with Err e => Some e | Ok _ => None end.
Proof.
  intros Hup Hdown. unfold evaluate.
  destruct (cloud.GetInstances (provider a)) as [servers|e]; [|auto].
  rewrite evaluate_loop_quiet by assumption. auto.
Qed.

(** X11 (witness): a tick one minute after both passes ran on the fleet
    with the overloaded server [hot]. *)
Lemma evaluate_quiet_during_cooldowns_witness :
  after (evaluate hot_containers
           (set_lastScaleDown (set_lastScaleUp hot_fleet scenario_now) scenario_now)
           (scenario_now + time.Minute))
  = set_lastScaleDown (set_lastScaleUp hot_fleet scenario_now) scenario_now /\
  issued (evaluate hot_containers
            (set_lastScaleDown (set_lastScaleUp hot_fleet scenario_now) scenario_now)
            (scenario_now + time.Minute)) = [] /\
  failure (evaluate hot_containers
             (set_lastScaleDown (set_lastScaleUp hot_fleet scenario_now) scenario_now)
             (scenario_now + time.Minute))
  = match cloud.GetInstances
            (provider (set_lastScaleDown (set_lastScaleUp hot_fleet scenario_now)
                         scenario_now)) with
    | Err e => Some e
    | Ok _ => None
    end.
Proof.
  apply (evaluate_quiet_during_cooldowns hot_containers
           (set_lastScaleDown (set_lastScaleUp hot_fleet scenario_now) scenario_now)
           (scenario_now + time.Minute)).
  - vm_compute. reflexivity.
  - vm_compute. reflexivity.
Defined.

Lemma migrate_until_error_first_failure (p : cloud.CloudProvider)
    (pre rest : list Relocation) (r : Relocation) (e : string) :
  Forall (fun q => migrate p q = None) pre ->
  migrate p r = Some e ->
  migrate_until_error p (pre ++ r :: rest) = (pre ++ [r], Some e).
Proof.
  intros Hpre Hr. induction Hpre as [|q pre Hq _ IH]; simpl.
  - now rewrite Hr.
  - now rewrite Hq, IH.
Qed.

(** X12.  The two passes treat a failed relocation differently.
    [scaleUp] asks for the relocation of every container of the source,
    in order, whatever the provider answers, returns no error and
    restarts its cooldown.  [scaleDown] stops at the first relocation
    that fails: the containers after it are not attempted, the error of
    that call is returned and the cooldown is not restarted. *)
Theorem relocation_failure_asymmetry (enumerate : Enumeration) (a : Autoscaler)
    (now : Z) (server target : Server) (containers : list Container) :
  findEnergyEfficientServer a = Ok target ->
  enumerate (ID server) = Ok containers ->
  scaleUp enumerate a now server
    = {| after := set_lastScaleUp a now;
         issued := map (relocate (ID server) (ID target)) containers;
         failure := None |} /\
  (forall pre c rest e,
     containers = pre ++ c :: rest ->
     Forall (fun c' => migrate (provider a) (relocate (ID server) (ID target) c') = None)
            pre ->
     migrate (provider a) (relocate (ID server) (ID target) c) = Some e ->
     scaleDown enumerate a now server
       = {| after := a;
            issued := map (relocate (ID server) (ID target)) (pre ++ [c]);
            failure := Some e |}).
Proof.
  intros Hfind Henum. split.
  - unfold scaleUp. now rewrite Hfind, Henum.
  - intros pre c rest e -> Hpre Hc.
    rewrite scaleDown_never_short_circuits, Hfind, Henum.
    rewrite map_app. simpl map.
    rewrite (migrate_until_error_first_failure (provider a) _ _ _ e).
    + now rewrite map_app.
    + apply List.Forall_forall. intros r Hr. apply in_map_iff in Hr as (c' & <- & Hc').
      rewrite List.Forall_forall in Hpre. now apply Hpre.
    + exact Hc.
Qed.

(** X12 (witness): two containers on [hot] and a provider that refuses
    every relocation. *)
Lemma relocation_failure_asymmetry_witness :
  scaleUp two_containers stubborn_fleet scenario_now (server "hot")
    = {| after := set_lastScaleUp stubborn_fleet scenario_now;
         issued := map (relocate (ID (server "hot")) (ID (server "hot")))
                       [container "c7" "hot" 200; container "c8" "hot" 100];
         failure := None |} /\
  scaleDown two_containers stubborn_fleet scenario_now (server "hot")
    = {| after := stubborn_fleet;
         issued := map (relocate (ID (server "hot")) (ID (server "hot")))
                       ([] ++ [container "c7" "hot" 200]);
         failure := Some "migration refused" |}.
Proof.
  destruct (relocation_failure_asymmetry two_containers stubborn_fleet scenario_now
              (server "hot") (server "hot")
              [container "c7" "hot" 200; container "c8" "hot" 100])
    as [Hup Hdown].
  - vm_compute. reflexivity.
  - reflexivity.
  - split; [exact Hup|].
    apply (Hdown [] (container "c7" "hot" 200) [container "c8" "hot" 100]
             "migration refused").
    + reflexivity.
    + constructor.
    + reflexivity.
Defined.

(** ** The target of a pass *)

Lemma better_fold (c : metrics.Collector) (servers seen : list Server)
    (best : Server) (bestScore : float64) :
  (forall s ms, In s seen -> metrics.GetMetrics c (ID s) = Ok ms ->
     fgt (metrics.CalculateEcoScore ms) bestScore = false) ->
  fgt zero bestScore = false ->
  forall best' bestScore',
    fold_left (better c) servers (best, bestScore) = (best', bestScore') ->
    (forall s ms, In s (seen ++ servers) -> metrics.GetMetrics c (ID s) = Ok ms ->
       fgt (metrics.CalculateEcoScore ms) bestScore' = false) /\
    fgt zero bestScore' = false /\
    ((best', bestScore') = (best, bestScore) \/
     exists ms, In best' servers /\ metrics.GetMetrics c (ID best') = Ok ms /\
                bestScore' = metrics.CalculateEcoScore ms /\
                fgt bestScore' bestScore = true).
Proof.
  revert seen best bestScore.
  induction servers as [|s servers IH]; intros seen best bestScore Hseen H0 b' bs' Hfold.
  - simpl in Hfold. injection Hfold as <- <-. rewrite app_nil_r. auto.
  - simpl in Hfold. unfold better at 2 in Hfold. simpl snd in Hfold.
    destruct (metrics.GetMetrics c (ID s)) as [ms|e] eqn:Hs.
    + cbv zeta in Hfold.
      destruct (fgt (metrics.CalculateEcoScore ms) bestScore) eqn:Hgt.
      * destruct (IH (seen ++ [s]) s (metrics.CalculateEcoScore ms)) with (3 := Hfold)
          as (Ha & Hb & Hc).
        -- intros s' ms' Hin Hs'. apply in_app_or in Hin as [Hin|[<-|[]]].
           ++ eapply fgt_raise; [eapply Hseen; eassumption | exact Hgt].
           ++ assert (ms' = ms) by congruence. subst. apply fgt_irrefl.
        -- eapply fgt_raise; eassumption.
        -- split; [intros s' ms' Hin; apply Ha; now rewrite <- app_assoc|].
           split; [assumption|]. right.
           destruct Hc as [Hc|(ms1 & Hin & Hm1 & -> & Hgt1)].
           ++ injection Hc as -> ->. exists ms. repeat split; auto. now left.
           ++ exists ms1. repeat split; auto; [now right|].
              eapply fgt_trans; eassumption.
      * destruct (IH (seen ++ [s]) best bestScore) with (3 := Hfold) as (Ha & Hb & Hc).
        -- intros s' ms' Hin Hs'. apply in_app_or in Hin as [Hin|[<-|[]]].
           ++ eapply Hseen; eassumption.
           ++ assert (ms' = ms) by congruence. now subst.
        -- assumption.
        -- split; [intros s' ms' Hin; apply Ha; now rewrite <- app_assoc|].
           split; [assumption|].
           destruct Hc as [Hc|(ms1 & Hin & Hc)]; [now left|].
           right. exists ms1. split; [now right | assumption].
    + destruct (IH (seen ++ [s]) best bestScore) with (3 := Hfold) as (Ha & Hb & Hc).
      * intros s' ms' Hin Hs'. apply in_app_or in Hin as [Hin|[<-|[]]].
        -- eapply Hseen; eassumption.
        -- congruence.
      * assumption.
      * split; [intros s' ms' Hin; apply Ha; now rewrite <- app_assoc|].
        split; [assumption|].
        destruct Hc as [Hc|(ms1 & Hin & Hc)]; [now left|].
        right. exists ms1. split; [now right | assumption].
Qed.

(** X13.  When the inventory can be listed, the target of a pass is the
    zero-value server if no listed server has an eco-score above zero;
    otherwise it is a listed server with samples whose eco-score is above
    zero and is exceeded by the eco-score of no listed server. *)
Theorem findEnergyEfficientServer_best (a : Autoscaler) (servers : list Server) :
  cloud.GetInstances (provider a) = Ok servers ->
  exists best,
    findEnergyEfficientServer a = Ok best /\
    ((best = Server_zero /\
      forall s ms, In s servers -> metrics.GetMetrics (collector a) (ID s) = Ok ms ->
        fgt (metrics.CalculateEcoScore ms) zero = false) \/
     (In best servers /\
      exists ms,
        metrics.GetMetrics (collector a) (ID best) = Ok ms /\
        fgt (metrics.CalculateEcoScore ms) zero = true /\
        forall s ms', In s servers -> metrics.GetMetrics (collector a) (ID s) = Ok ms' ->
          fgt (metrics.CalculateEcoScore ms') (metrics.CalculateEcoScore ms) = false)).
Proof.
  intros Hinst. unfold findEnergyEfficientServer. rewrite Hinst.
  destruct (fold_left (better (collector a)) servers (Server_zero, zero))
    as [best bestScore] eqn:Hfold.
  destruct (better_fold (collector a) servers [] Server_zero zero
              (fun s ms (H : In s []) => match H with end) eq_refl best bestScore Hfold)
    as (Ha & Hb & Hc).
  exists best. split; [reflexivity|]. simpl in Ha.
  destruct Hc as [Hc|(ms & Hin & Hm & -> & Hgt)].
  - injection Hc as -> ->. left. split; [reflexivity | exact Ha].
  - right. split; [assumption|]. exists ms. repeat split; assumption.
Qed.

(** X13 (witness): the fleet of [hot] and [cool]. *)
Lemma findEnergyEfficientServer_best_witness :
  exists best,
    findEnergyEfficientServer hot_fleet = Ok best /\
    ((best = Server_zero /\
      forall s ms, In s [server "hot"; server "cool"] ->
        metrics.GetMetrics (collector hot_fleet) (ID s) = Ok ms ->
        fgt (metrics.CalculateEcoScore ms) zero = false) \/
     (In best [server "hot"; server "cool"] /\
      exists ms,
        metrics.GetMetrics (collector hot_fleet) (ID best) = Ok ms /\
        fgt (metrics.CalculateEcoScore ms) zero = true /\
        forall s ms', In s [server "hot"; server "cool"] ->
          metrics.GetMetrics (collector hot_fleet) (ID s) = Ok ms' ->
          fgt (metrics.CalculateEcoScore ms') (metrics.CalculateEcoScore ms) = false)).
Proof.
  apply (findEnergyEfficientServer_best hot_fleet [server "hot"; server "cool"]).
  reflexivity.
Defined.

(** ** The autoscaler as the sources stand *)

Lemma evaluate_server_placeholder (a : Autoscaler) (now : Z) (server : Server)
    (servers : list Server) :
  cloud.GetInstances (provider a) = Ok servers ->
  issued (evaluate_server getServerContainers a now server) = [] /\
  failure (evaluate_server getServerContainers a now server) = None /\
  provider (after (evaluate_server getServerContainers a now server)) = provider a /\
  collector (after (evaluate_server getServerContainers a now server)) = collector a.
Proof.
  intros Hinst.
  assert (Hfind : exists t, findEnergyEfficientServer a = Ok t).
  { unfold findEnergyEfficientServer. rewrite Hinst. eauto. }
  destruct Hfind as [t Hfind].
  unfold evaluate_server.
  destruct (metrics.GetMetrics _ _) as [ms|]; [|auto].
  destruct (last ms); [|auto].
  destruct (shouldScaleUp a now m).
  - unfold scaleUp, getServerContainers. rewrite Hfind. auto.
  - destruct (shouldScaleDown a now m); [|auto].
    rewrite scaleDown_never_short_circuits. unfold getServerContainers.
    rewrite Hfind. auto.
Qed.

Lemma evaluate_loop_placeholder (now : Z) (servers todo : list Server) (a : Autoscaler) :
  cloud.GetInstances (provider a) = Ok servers ->
  issued (evaluate_loop getServerContainers a now todo) = [] /\
  failure (evaluate_loop getServerContainers a now todo) = None /\
  collector (after (evaluate_loop getServerContainers a now todo)) = collector a.
Proof.
  revert a. induction todo as [|s todo IH]; intros a Hinst; simpl; [auto|].
  destruct (evaluate_server_placeholder a now s servers Hinst) as (Hi & Hf & Hp & Hc).
  rewrite Hf, Hi. simpl.
  destruct (IH (after (evaluate_server getServerContainers a now s))) as (IH1 & IH2 & IH3).
  { now rewrite Hp. }
  rewrite IH1, IH2, IH3, Hc. auto.
Qed.

(** X14.  With [getServerContainers] as it is in the sources, which lists
    no container, an evaluation tick never asks the provider for a
    relocation, for any fleet, samples and cooldown state: all it can do
    is restart the cooldowns, and its only possible error is that of the
    inventory call. *)
Theorem evaluate_issues_nothing_as_shipped (a : Autoscaler) (now : Z) :
  issued (evaluate getServerContainers a now) = [] /\
  collector (after (evaluate getServerContainers a now)) = collector a /\
  failure (evaluate getServerContainers a now)
  = match cloud.GetInstances (provider a) with Err e => Some e | Ok _ => None end.
Proof.
  unfold evaluate.
  destruct (cloud.GetInstances (provider a)) as [servers|e] eqn:Hinst; [|auto].
  destruct (evaluate_loop_placeholder now servers servers a Hinst) as (H1 & H2 & H3).
  auto.
Qed.

End AutoscalerMore.

(** * More on the migration planner *)

Section PlannerMore.

Import migration.

Lemma calculatePriority_range (unrepresentable : float64 -> Z) (p : Planner) (powerSaving : float64) (downtime : Z) :
  1 <= calculatePriority unrepresentable p powerSaving downtime <= 10.
Proof. unfold calculatePriority. rewrite clamp_spec. lia. Qed.

Lemma estimateDowntime_cases (p : Planner) (c : Container) (s t : Server) :
  (Region s = Region t /\ estimateDowntime p c s t = 30 * time.Second) \/
  (Region s <> Region t /\ estimateDowntime p c s t = 90 * time.Second).
Proof.
  unfold estimateDowntime. destruct (String.eqb_spec (Region s) (Region t)); auto.
Qed.

Lemma consider_best_so_far (unrepresentable : float64 -> Z) (p : Planner) (c : Container) (source : Server)
    (seen : list Server) (best : option MigrationPlan * float64) (t : Server) :
  best_so_far unrepresentable p c source seen best ->
  best_so_far unrepresentable p c source (seen ++ [t]) (consider unrepresentable p c source best t).
Proof.
  intros (H0 & Hmax & Hbest).
  assert (Hkeep : (forall t', In t' [t] -> qualifies p c source t' ->
                     fgt (estimatePowerSaving p c source t') (snd best) = false) ->
                  best_so_far unrepresentable p c source (seen ++ [t]) best).
  { intros Ht. split; [assumption|]. split.
    - intros t' Hin Hq. apply in_app_or in Hin as [Hin|Hin]; auto.
    - destruct (fst best) as [plan|]; [|assumption].
      destruct Hbest as (t0 & Hin & Hrest). exists t0.
      split; [apply in_or_app; now left | assumption]. }
  unfold consider.
  destruct (String.eqb (ID t) (ID source)) eqn:Hid.
  { apply Hkeep. intros t' [<-|[]] (Hq & _). congruence. }
  cbv zeta.
  destruct (flt (estimatePowerSaving p c source t) (MinPowerSaving (config p))) eqn:Hmin.
  { apply Hkeep. intros t' [<-|[]] (_ & Hq & _). congruence. }
  destruct (MaxDowntime (config p) <? estimateDowntime p c source t) eqn:Hdown.
  { apply Hkeep. intros t' [<-|[]] (_ & _ & Hq). congruence. }
  destruct (fgt (estimatePowerSaving p c source t) (snd best)) eqn:Hgt.
  - split; [|split]; cbn [fst snd].
    + eapply fgt_raise; eassumption.
    + intros t' Hin Hq. apply in_app_or in Hin as [Hin|[<-|[]]].
      * eapply fgt_raise; [now apply Hmax | exact Hgt].
      * apply fgt_irrefl.
    + exists t. split; [apply in_or_app; right; now left|].
      split; [repeat split; assumption|]. split; [reflexivity|].
      split; [reflexivity|].
      destruct (fst best) as [plan|].
      * destruct Hbest as (_ & _ & _ & _ & _ & Hpos).
        eapply fgt_trans; eassumption.
      * now rewrite Hbest in Hgt.
  - apply Hkeep. intros t' [<-|[]] _. exact Hgt.
Qed.

Lemma findBestMigrationPlan_best_so_far (unrepresentable : float64 -> Z) (p : Planner) (c : Container)
    (source : Server) (targets : list Server) :
  best_so_far unrepresentable p c source targets
    (fold_left (consider unrepresentable p c source) targets (None, zero)).
Proof.
  assert (H : forall seen best,
            best_so_far unrepresentable p c source seen best ->
            best_so_far unrepresentable p c source (seen ++ targets)
              (fold_left (consider unrepresentable p c source) targets best)).
  { induction targets as [|t targets IH]; intros seen best Hb; simpl.
    - now rewrite app_nil_r.
    - replace (seen ++ t :: targets) with ((seen ++ [t]) ++ targets)
        by (now rewrite <- app_assoc).
      apply IH. now apply consider_best_so_far. }
  apply (H [] (None, zero)). repeat split. intros t [].
Qed.

(** X15.  A plan that [findBestMigrationPlan] returns is the plan for one
    of the targets it was given: a server other than the source, whose
    estimated saving is not below [MinPowerSaving] and is above zero,
    whose estimated downtime is not above [MaxDowntime], with a priority
    between 1 and 10.  No qualifying target saves more than the plan
    returned, and when no plan is returned no qualifying target saves
    anything above zero. *)
Theorem findBestMigrationPlan_sound_and_best (unrepresentable : float64 -> Z) (p : Planner) (c : Container)
    (source : Server) (targets : list Server) :
  (forall plan,
     findBestMigrationPlan unrepresentable p c source targets = Some plan ->
     exists t,
       In t targets /\ qualifies p c source t /\
       plan = plan_for unrepresentable p c source t /\
       ID t <> ID source /\
       1 <= Priority plan <= 10 /\
       fgt (PowerSaving plan) zero = true /\
       forall t', In t' targets -> qualifies p c source t' ->
         fgt (estimatePowerSaving p c source t') (PowerSaving plan) = false) /\
  (findBestMigrationPlan unrepresentable p c source targets = None ->
   forall t', In t' targets -> qualifies p c source t' ->
     fgt (estimatePowerSaving p c source t') zero = false).
Proof.
  pose proof (findBestMigrationPlan_best_so_far unrepresentable p c source targets) as (H0 & Hmax & Hbest).
  unfold findBestMigrationPlan.
  destruct (fold_left (consider unrepresentable p c source) targets (None, zero))
    as [best maxSaving]. cbn [fst snd] in *. split.
  - intros plan ->. destruct Hbest as (t & Hin & Hq & -> & -> & Hpos).
    exists t. split; [assumption|]. split; [assumption|]. split; [reflexivity|].
    split.
    { destruct Hq as (Hid & _). intros E. rewrite E, String.eqb_refl in Hid.
      discriminate. }
    split; [apply calculatePriority_range|]. split; [exact Hpos|]. exact Hmax.
  - intros ->. subst maxSaving. exact Hmax.
Qed.

(** X15 (witness): a container on [green] with [cool] as the other
    server, and a container on [cool], for which no plan is found. *)
Lemma findBestMigrationPlan_sound_and_best_witness :
  (exists t,
     In t [server "green"; far_server "cool"] /\
     qualifies two_region_planner (container "c1" "green" 200) (server "green") t /\
     plan_for amd64_int two_region_planner (container "c1" "green" 200)
       (server "green") (far_server "cool")
     = plan_for amd64_int two_region_planner (container "c1" "green" 200)
         (server "green") t /\
     ID t <> ID (server "green") /\
     1 <= Priority (plan_for amd64_int two_region_planner (container "c1" "green" 200)
                      (server "green") (far_server "cool")) <= 10 /\
     fgt (PowerSaving (plan_for amd64_int two_region_planner
                         (container "c1" "green" 200) (server "green")
                         (far_server "cool"))) zero = true /\
     forall t', In t' [server "green"; far_server "cool"] ->
       qualifies two_region_planner (container "c1" "green" 200) (server "green") t' ->
       fgt (estimatePowerSaving two_region_planner (container "c1" "green" 200)
              (server "green") t')
           (PowerSaving (plan_for amd64_int two_region_planner
                           (container "c1" "green" 200) (server "green")
                           (far_server "cool"))) = false) /\
  (forall t', In t' [server "green"; far_server "cool"] ->
     qualifies two_region_planner (container "c1" "cool" 200) (far_server "cool") t' ->
     fgt (estimatePowerSaving two_region_planner (container "c1" "cool" 200)
            (far_server "cool") t') zero = false).
Proof.
  split.
  - apply (proj1 (findBestMigrationPlan_sound_and_best amd64_int two_region_planner
                    (container "c1" "green" 200) (server "green")
                    [server "green"; far_server "cool"])).
    vm_compute. reflexivity.
  - apply (proj2 (findBestMigrationPlan_sound_and_best amd64_int two_region_planner
                    (container "c1" "cool" 200) (far_server "cool")
                    [server "green"; far_server "cool"])).
    vm_compute. reflexivity.
Defined.

(** ** Where plans point *)

(** A saving above zero on a positive power means a quotient of scores
    below one. *)
Lemma positive_saving_lower_score (w s : Q) (t : float64) :
  (0 < w)%Q -> (0 < s)%Q ->
  fgt (fsub (Fin w) (fmul (Fin w) (fdiv t (Fin s)))) zero = true ->
  flt t (Fin s) = true.
Proof.
  intros Hw Hs. pose proof (sgn_pos s Hs) as Es. pose proof (sgn_pos w Hw) as Ew.
  destruct t as [q| | |]; unfold fdiv; rewrite ?Es; unfold fmul; rewrite ?Ew;
    cbn [fsub fneg fadd fgt flt zero]; try discriminate; try reflexivity.
  destruct (Qcompare_spec 0 (w + - (w * (q / s)))) as [H|H|H]; try discriminate.
  intros _. destruct (Qcompare_spec q s) as [H1|H1|H1]; [exfalso|reflexivity|exfalso].
  - assert (E : w * (q / s) == w).
    { rewrite H1. field. lra. }
    lra.
  - assert (E : (1 < q / s)%Q).
    { apply Qlt_shift_div_l; lra. }
    assert (E2 : (w * 1 < w * (q / s))%Q) by (apply Qmult_lt_l; assumption).
    lra.
Qed.

(** X16.  Plans point down the eco-score scale.  For a container that
    draws power above zero on a source whose eco-score is above zero, the
    target of every plan [findBestMigrationPlan] returns has an eco-score
    strictly below the source's: a target at least as efficient as the
    source has an estimated saving of zero or less and is never chosen. *)
Theorem findBestMigrationPlan_targets_lower_score (unrepresentable : float64 -> Z) (p : Planner) (c : Container)
    (source : Server) (targets : list Server) (plan : MigrationPlan) (w s : Q) :
  cPowerUsage c = Fin w -> (0 < w)%Q ->
  getServerEcoScore p (ID source) = Fin s -> (0 < s)%Q ->
  findBestMigrationPlan unrepresentable p c source targets = Some plan ->
  exists t, In t targets /\ TargetServerID plan = ID t /\
            flt (getServerEcoScore p (ID t)) (getServerEcoScore p (ID source)) = true.
Proof.
  intros Hw Hwpos Hs Hspos Hplan.
  pose proof (findBestMigrationPlan_best_so_far unrepresentable p c source targets) as (_ & _ & Hbest).
  unfold findBestMigrationPlan in Hplan.
  destruct (fold_left (consider unrepresentable p c source) targets (None, zero))
    as [best maxSaving]. cbn [fst snd] in *. subst best.
  destruct Hbest as (t & Hin & _ & -> & -> & Hpos).
  exists t. split; [assumption|]. split; [reflexivity|].
  rewrite Hs. unfold estimatePowerSaving in Hpos. rewrite Hw, Hs in Hpos.
  now apply (positive_saving_lower_score w s).
Qed.

(** X16 (witness): the container on [green] (eco-score 100) is planned
    onto [cool] (eco-score 47). *)
Lemma findBestMigrationPlan_targets_lower_score_witness :
  exists t, In t [server "green"; far_server "cool"] /\
            TargetServerID (plan_for amd64_int two_region_planner
                              (container "c1" "green" 200) (server "green")
                              (far_server "cool")) = ID t /\
            flt (getServerEcoScore two_region_planner (ID t))
                (getServerEcoScore two_region_planner (ID (server "green"))) = true.
Proof.
  apply (findBestMigrationPlan_targets_lower_score amd64_int two_region_planner
           (container "c1" "green" 200) (server "green")
           [server "green"; far_server "cool"]
           (plan_for amd64_int two_region_planner (container "c1" "green" 200)
              (server "green") (far_server "cool"))
           200%Q (100000000000 # 1000000000)%Q).
  - reflexivity.
  - reflexivity.
  - vm_compute. reflexivity.
  - reflexivity.
  - vm_compute. reflexivity.
Defined.

(** ** Downtime and priority *)

(** X17.  The downtime estimate is 30 s for a target in the region of the
    source and 90 s otherwise.  So with [MaxDowntime] below 30 s no plan
    is ever found, and with [MaxDowntime] below 90 s every plan found
    stays within the region of the source. *)
Theorem estimateDowntime_limits_plans (unrepresentable : float64 -> Z) (p : Planner)
    (c : Container) (source : Server) (targets : list Server) :
  (forall t, estimateDowntime p c source t
             = if String.eqb (Region source) (Region t)
               then 30 * time.Second else 90 * time.Second) /\
  (MaxDowntime (config p) < 30 * time.Second ->
   findBestMigrationPlan unrepresentable p c source targets = None) /\
  (MaxDowntime (config p) < 90 * time.Second ->
   forall plan,
     findBestMigrationPlan unrepresentable p c source targets = Some plan ->
     DowntimeEstimate plan = 30 * time.Second /\
     exists t, In t targets /\ TargetServerID plan = ID t /\ Region t = Region source).
Proof.
  pose proof (findBestMigrationPlan_best_so_far unrepresentable p c source targets)
    as (_ & _ & Hbest).
  unfold findBestMigrationPlan.
  destruct (fold_left (consider unrepresentable p c source) targets (None, zero))
    as [best maxSaving]. cbn [fst snd] in *.
  split; [|split].
  - intros t. unfold estimateDowntime. now destruct (String.eqb _ _).
  - intros Hmax. destruct best as [plan|]; [|reflexivity]. exfalso.
    destruct Hbest as (t & _ & (_ & _ & Hd) & _). apply Z.ltb_ge in Hd.
    destruct (estimateDowntime_cases p c source t) as [[_ E]|[_ E]];
      rewrite E in Hd; unfold time.Second in *; lia.
  - intros Hmax plan ->. destruct Hbest as (t & Hin & (_ & _ & Hd) & -> & _).
    apply Z.ltb_ge in Hd. cbn [plan_for DowntimeEstimate TargetServerID].
    destruct (estimateDowntime_cases p c source t) as [[Hr E]|[_ E]].
    + split; [exact E|]. exists t. auto.
    + rewrite E in Hd. unfold time.Second in *. lia.
Qed.

(** X17 (witness): with a maximum of 10 s nothing qualifies; with a
    maximum of 60 s the container on [green] is planned onto [cool] in
    the same region. *)
Lemma estimateDowntime_limits_plans_witness :
  findBestMigrationPlan amd64_int (hasty_planner 10) (container "c1" "green" 200)
    (server "green") [server "green"; far_server "cool"] = None /\
  DowntimeEstimate (plan_for amd64_int (hasty_planner 60) (container "c1" "green" 200)
                      (server "green") (server "cool")) = 30 * time.Second /\
  exists t, In t [server "green"; server "cool"] /\
            TargetServerID (plan_for amd64_int (hasty_planner 60)
                              (container "c1" "green" 200) (server "green")
                              (server "cool")) = ID t /\
            Region t = Region (server "green").
Proof.
  split.
  - apply (proj1 (proj2 (estimateDowntime_limits_plans amd64_int (hasty_planner 10)
                           (container "c1" "green" 200) (server "green")
                           [server "green"; far_server "cool"]))).
    vm_compute. reflexivity.
  - apply (proj2 (proj2 (estimateDowntime_limits_plans amd64_int (hasty_planner 60)
                           (container "c1" "green" 200) (server "green")
                           [server "green"; server "cool"]))).
    + vm_compute. reflexivity.
    + vm_compute. reflexivity.
Defined.

Lemma trunc_lower_bound (q : Q) (n : Z) : (inject_Z n <= q)%Q -> n <= trunc q.
Proof.
  destruct q as [num den]. unfold Qle, trunc. simpl. intros H.
  apply Z.quot_le_lower_bound; lia.
Qed.

(** X18.  Because a plan's saving is at least [MinPowerSaving], its
    priority is never below 8: it is 10 when the downtime is at most half
    of [MaxDowntime] and 8, 9 or 10 otherwise.  (For a finite saving, a
    [MinPowerSaving] above zero and a scaled ratio that fits an [int].) *)
Theorem plan_priority_at_least_8 (unrepresentable : float64 -> Z) (p : Planner)
    (c : Container) (source : Server) (targets : list Server) (plan : MigrationPlan)
    (s m : Q) :
  findBestMigrationPlan unrepresentable p c source targets = Some plan ->
  MinPowerSaving (config p) = Fin m -> (0 < m)%Q ->
  PowerSaving plan = Fin s ->
  trunc (s / m * 10) <= max_int ->
  8 <= Priority plan <= 10 /\
  (DowntimeEstimate plan <= Z.quot (MaxDowntime (config p)) 2 -> Priority plan = 10).
Proof.
  intros Hplan Hm Hmpos Hs Hfit.
  pose proof (findBestMigrationPlan_best_so_far unrepresentable p c source targets)
    as (_ & _ & Hbest).
  unfold findBestMigrationPlan in Hplan.
  destruct (fold_left (consider unrepresentable p c source) targets (None, zero))
    as [best maxSaving]. cbn [fst snd] in *. subst best.
  destruct Hbest as (t & _ & (_ & Hmin & _) & -> & _).
  cbn [plan_for PowerSaving Priority DowntimeEstimate] in *.
  rewrite Hs, Hm in Hmin.
  assert (Hge : (m <= s)%Q).
  { revert Hmin. unfold flt. destruct (Qcompare_spec s m); intros; try discriminate; lra. }
  assert (H10 : 10 <= trunc (s / m * 10)).
  { apply trunc_lower_bound. change (inject_Z 10) with (1 * 10)%Q.
    apply Qmult_le_compat_r; [|lra]. apply Qle_shift_div_l; lra. }
  unfold calculatePriority. rewrite clamp_spec, Hs, Hm.
  assert (Hnz : ~ m == 0) by lra.
  rewrite (fdiv_finite s m Hnz). cbn [fmul]. unfold to_int.
  assert (E : (min_int <=? trunc (s / m * 10)) && (trunc (s / m * 10) <=? max_int) = true).
  { apply andb_true_intro. split; apply Z.leb_le; [unfold min_int; lia | assumption]. }
  rewrite E.
  destruct (Z.quot (MaxDowntime (config p)) 2 <? estimateDowntime p c source t) eqn:Hd.
  - rewrite wrap64_small by (unfold min_int, max_int in *; lia).
    split; [lia|]. apply Z.ltb_lt in Hd. lia.
  - split; [lia|]. intros _. lia.
Qed.

(** X18 (witness): the plan for the container on [green]. *)
Lemma plan_priority_at_least_8_witness :
  8 <= Priority (plan_for amd64_int two_region_planner (container "c1" "green" 200)
                   (server "green") (far_server "cool")) <= 10 /\
  (DowntimeEstimate (plan_for amd64_int two_region_planner (container "c1" "green" 200)
                       (server "green") (far_server "cool"))
     <= Z.quot (MaxDowntime (config two_region_planner)) 2 ->
   Priority (plan_for amd64_int two_region_planner (container "c1" "green" 200)
               (server "green") (far_server "cool")) = 10).
Proof.
  apply (plan_priority_at_least_8 amd64_int two_region_planner
           (container "c1" "green" 200) (server "green")
           [server "green"; far_server "cool"]
           (plan_for amd64_int two_region_planner (container "c1" "green" 200)
              (server "green") (far_server "cool"))
           (21200000000000000000000 # 200000000000000000000)%Q 100%Q).
  - vm_compute. reflexivity.
  - reflexivity.
  - reflexivity.
  - vm_compute. reflexivity.
  - vm_compute. discriminate.
Defined.

(** ** Planning passes *)

Lemma findBestMigrationPlan_well_formed (unrepresentable : float64 -> Z) (p : Planner)
    (c : Container) (source : Server) (targets : list Server) (plan : MigrationPlan) :
  findBestMigrationPlan unrepresentable p c source targets = Some plan ->
  well_formed_plan (cID c) plan.
Proof.
  intros Hplan.
  pose proof (findBestMigrationPlan_best_so_far unrepresentable p c source targets)
    as (_ & _ & Hbest).
  unfold findBestMigrationPlan in Hplan.
  destruct (fold_left (consider unrepresentable p c source) targets (None, zero))
    as [best maxSaving]. cbn [fst snd] in *. subst best.
  destruct Hbest as (t & _ & (Hid & _ & _) & -> & -> & Hpos).
  unfold well_formed_plan, plan_for. cbn.
  split; [reflexivity|]. split.
  { intros E. rewrite E, String.eqb_refl in Hid. discriminate. }
  split; [apply calculatePriority_range|]. split; [exact Hpos|].
  destruct (estimateDowntime_cases p c source t) as [[_ E]|[_ E]]; rewrite E;
    unfold time.Second; lia.
Qed.

Lemma grown_from_refl (p : Planner) : grown_from p p.
Proof. unfold grown_from. auto. Qed.

Lemma planContainer_grows (unrepresentable : float64 -> Z) (servers : list Server)
    (source : Server) (p0 p : Planner) (c : Container) :
  grown_from p0 p ->
  grown_from p0 (planContainer unrepresentable servers source p c).
Proof.
  intros (Hkeep & Hnew & Hcfg & Hcol & Hpro). unfold planContainer.
  destruct (activePlans p !! cID c) eqn:Hc; [repeat split; assumption|].
  destruct (findBestMigrationPlan unrepresentable p c source servers) as [best|] eqn:Hb;
    [|repeat split; assumption].
  apply findBestMigrationPlan_well_formed in Hb.
  unfold grown_from, set_activePlans. cbn.
  split; [|split; [|auto]].
  - intros id plan H. rewrite lookup_insert_ne; [now apply Hkeep|].
    intros <-. apply Hkeep in H. congruence.
  - intros id plan. rewrite lookup_insert. case_decide as Hid.
    + intros [= <-]. subst id. now right.
    + apply Hnew.
Qed.

Lemma planServers_grows (unrepresentable : float64 -> Z) (enumerate : Enumeration)
    (targets order : list Server) (p0 p : Planner) :
  grown_from p0 p ->
  grown_from p0 (fold_left (planServer unrepresentable enumerate targets) order p).
Proof.
  revert p. induction order as [|s order IH]; intros p H; simpl; [assumption|].
  apply IH. unfold planServer.
  destruct (fgt _ _); [assumption|].
  destruct (enumerate (ID s)) as [containers|]; [|assumption].
  clear IH. revert p H.
  induction containers as [|c containers IHc]; intros p H; simpl; [assumption|].
  apply IHc. now apply planContainer_grows.
Qed.

(** X19.  A planning pass only adds to the registry.  It returns the
    error of the inventory call with the planner untouched; otherwise
    every plan on file before the pass is on file after it, unchanged,
    and every plan filed by the pass is filed under its container's
    identifier, with a target other than its source, a priority between 1
    and 10, a saving above zero and a downtime estimate of 30 to 90 s. *)
Theorem planMigrations_only_adds (unrepresentable : float64 -> Z)
    (enumerate : Enumeration) (p : Planner) :
  (forall e, cloud.GetInstances (provider p) = Err e ->
     planMigrations unrepresentable enumerate p = (p, Some e)) /\
  (forall id plan, activePlans p !! id = Some plan ->
     activePlans (fst (planMigrations unrepresentable enumerate p)) !! id = Some plan) /\
  (forall id plan,
     activePlans (fst (planMigrations unrepresentable enumerate p)) !! id = Some plan ->
     activePlans p !! id = Some plan \/ well_formed_plan id plan) /\
  config (fst (planMigrations unrepresentable enumerate p)) = config p /\
  collector (fst (planMigrations unrepresentable enumerate p)) = collector p.
Proof.
  assert (H : grown_from p (fst (planMigrations unrepresentable enumerate p))).
  { unfold planMigrations.
    destruct (cloud.GetInstances (provider p)); [|apply grown_from_refl].
    cbn [fst]. apply planServers_grows, grown_from_refl. }
  destruct H as (H1 & H2 & H3 & H4 & _).
  split; [|auto]. intros e He. unfold planMigrations. now rewrite He.
Qed.

(** X19 (witness): a pass that files a plan for the container on [cool],
    and a pass whose inventory call fails. *)
Lemma planMigrations_only_adds_witness :
  (activePlans declining_planner !! "c1" = None /\
   well_formed_plan "c1"
     (plan_for amd64_int declining_planner (container "c1" "cool" 200)
        (server "cool") (server "worn"))) /\
  planMigrations amd64_int cool_containers
    (NewPlanner main_PlannerConfig (collector_of ∅) unreachable_provider)
  = (NewPlanner main_PlannerConfig (collector_of ∅) unreachable_provider,
     Some "inventory unavailable").
Proof.
  split.
  - split; [reflexivity|].
    destruct (proj1 (proj2 (proj2 (planMigrations_only_adds amd64_int cool_containers
                                     declining_planner)))
                "c1"
                (plan_for amd64_int declining_planner (container "c1" "cool" 200)
                   (server "cool") (server "worn")))
      as [H|H].
    + vm_compute. reflexivity.
    + vm_compute in H. discriminate.
    + exact H.
  - apply (proj1 (planMigrations_only_adds amd64_int cool_containers
                    (NewPlanner main_PlannerConfig (collector_of ∅)
                       unreachable_provider))).
    reflexivity.
Defined.

(** ** The planner as the sources stand *)

(** X20.  With [getServerContainers] as it is in the sources, which lists
    no container, a planning pass files nothing: it returns the planner it
    was given, for any fleet and samples.  A planner fresh from
    [NewPlanner] therefore keeps an empty registry, on which
    [executeMigrations] starts no worker and returns. *)
Theorem planner_files_nothing_as_shipped (unrepresentable : float64 -> Z) (p : Planner) :
  fst (planMigrations unrepresentable getServerContainers p) = p /\
  (activePlans p = ∅ ->
   snapshot p = [] /\
   run p [TMain; TMain] (exec_init p (snapshot p))
   = Some {| registry := ∅; mu_locked := false; main := Returned; workers := [] |}).
Proof.
  split.
  - unfold planMigrations.
    destruct (cloud.GetInstances (provider p)) as [servers|]; [|reflexivity].
    cbn [fst]. unfold planServers.
    generalize (sort_Slice
      (fun i j => fgt (getServerEcoScore p (ID i)) (getServerEcoScore p (ID j)))
      servers) at 2 as order.
    generalize (sort_Slice
      (fun i j => fgt (getServerEcoScore p (ID i)) (getServerEcoScore p (ID j)))
      servers) as targets.
    intros targets order. induction order as [|s order IH]; simpl; [reflexivity|].
    assert (E : planServer unrepresentable getServerContainers targets p s = p).
    { unfold planServer, getServerContainers. now destruct (fgt _ _). }
    rewrite E. exact IH.
  - intros Hempty.
    assert (Hs : snapshot p = []).
    { unfold snapshot. rewrite Hempty, map_to_list_empty. reflexivity. }
    split; [exact Hs|]. rewrite Hs. unfold exec_init. rewrite Hempty. reflexivity.
Qed.

(** X20 (witness): the planner of [main.go]'s configuration, fresh. *)
Lemma planner_files_nothing_as_shipped_witness :
  snapshot green_planner = [] /\
  run green_planner [TMain; TMain] (exec_init green_planner (snapshot green_planner))
  = Some {| registry := ∅; mu_locked := false; main := Returned; workers := [] |}.
Proof.
  apply (proj2 (planner_files_nothing_as_shipped amd64_int green_planner)).
  reflexivity.
Defined.

End PlannerMore.

(** * executeMigrations: what every schedule keeps *)

Section ExecutionMore.

Import migration.

Lemma in_flight_nonneg (ws : list (MigrationPlan * WorkerPC)) : 0 <= in_flight ws.
Proof. unfold in_flight, len. lia. Qed.

Lemma in_flight_app (ws : list (MigrationPlan * WorkerPC)) (w : MigrationPlan * WorkerPC) :
  in_flight (ws ++ [w]) = in_flight ws + (if finished w then 0 else 1).
Proof.
  unfold in_flight, len. rewrite List.filter_app, length_app. simpl.
  destruct (finished w); simpl; lia.
Qed.

Lemma in_flight_insert (ws : list (MigrationPlan * WorkerPC)) (i : nat)
    (w w' : MigrationPlan * WorkerPC) :
  ws !! i = Some w -> finished w = false ->
  in_flight (<[i := w']> ws) <= in_flight ws.
Proof.
  revert i. induction ws as [|x ws IH]; intros [|i] Hw Hlive; try discriminate.
  - apply (inj Some) in Hw. subst x. unfold in_flight, len. simpl.
    rewrite Hlive. simpl. destruct (finished w'); simpl; lia.
  - specialize (IH i Hw Hlive). unfold in_flight, len in *. simpl.
    destruct (finished x); simpl; lia.
Qed.

Lemma in_flight_idle (ws : list (MigrationPlan * WorkerPC)) :
  forallb finished ws = true -> in_flight ws = 0.
Proof.
  induction ws as [|x ws IH]; [reflexivity|]. simpl.
  intros [Hx Hws]%andb_prop. specialize (IH Hws).
  unfold in_flight, len in *. simpl. rewrite Hx. simpl. exact IH.
Qed.

Lemma concurrency_cap_step (p : Planner) (s s' : Exec) :
  in_flight (workers s) <= Z.max 0 (ConcurrentMigrations (config p)) ->
  exec_next p s s' ->
  in_flight (workers s') <= Z.max 0 (ConcurrentMigrations (config p)).
Proof.
  intros Hcap [t Hstep]. destruct t as [|i]; simpl in Hstep.
  - destruct (main s) as [[|plan rest]| |].
    + apply (inj Some) in Hstep. now subst s'.
    + destruct (in_flight (workers s) <? ConcurrentMigrations (config p)) eqn:Hfree;
        [|discriminate].
      apply (inj Some) in Hstep. subst s'. simpl. rewrite in_flight_app. simpl.
      apply Z.ltb_lt in Hfree. lia.
    + destruct (forallb finished (workers s)); [|discriminate].
      apply (inj Some) in Hstep. now subst s'.
    + discriminate.
  - destruct (workers s !! i) as [[plan pc]|] eqn:Hw; [|discriminate].
    destruct pc.
    + destruct (cloud.MigrateContainer _ _ _ _);
        apply (inj Some) in Hstep; subst s'; simpl;
        (etransitivity; [eapply in_flight_insert; [exact Hw | reflexivity] | exact Hcap]).
    + destruct (mu_locked s); [discriminate|].
      apply (inj Some) in Hstep. subst s'. simpl.
      etransitivity; [eapply in_flight_insert; [exact Hw | reflexivity] | exact Hcap].
    + discriminate.
Qed.

Lemma serial_schedule_runs (p : Planner) :
  1 <= ConcurrentMigrations (config p) ->
  forall (todo : list MigrationPlan) (ws : list (MigrationPlan * WorkerPC))
         (plans : gmap string MigrationPlan) (held : bool),
    Forall (relocation_fails p) todo ->
    forallb finished ws = true ->
    run p (serial_schedule (length ws) todo)
      {| registry := plans; mu_locked := held; main := Spawning todo; workers := ws |}
    = Some {| registry := plans; mu_locked := false; main := Returned;
              workers := ws ++ map (fun plan => (plan, Finished)) todo |}.
Proof.
  intros Hslots todo. induction todo as [|plan rest IH]; intros ws plans held Hfail Hidle.
  - simpl. rewrite Hidle, app_nil_r. reflexivity.
  - inversion Hfail as [|? ? Hplan Hrest]; subst.
    cbn [serial_schedule run exec_step main workers].
    rewrite (in_flight_idle ws Hidle).
    replace (0 <? ConcurrentMigrations (config p)) with true
      by (symmetry; apply Z.ltb_lt; lia).
    cbn [run exec_step workers].
    rewrite lookup_app_r by lia. rewrite Nat.sub_diag. cbn [lookup list_lookup].
    unfold relocation_fails in Hplan.
    destruct (cloud.MigrateContainer (provider p) (ContainerID plan)
                (SourceServerID plan) (TargetServerID plan)) as [e|]; [|contradiction].
    unfold set_worker. cbn [registry mu_locked main workers].
    rewrite insert_app_r_alt by lia. rewrite Nat.sub_diag. cbn [insert list_insert].
    replace (S (length ws)) with (length (ws ++ [(plan, Finished)]))
      by (rewrite length_app; simpl; lia).
    rewrite IH; [|assumption|].
    + rewrite <- app_assoc. reflexivity.
    + rewrite forallb_app, Hidle. reflexivity.
Qed.

(** X21.  A pass of [executeMigrations] retires no plan.  In every state
    it can reach, under any interleaving of its goroutines, the registry
    is the one it started with and the planner's mutex is held unless the
    pass has returned; and it can have returned only if every relocation
    it attempted failed. *)
Theorem executeMigrations_never_retires (p : Planner) (plans : list MigrationPlan)
    (s : Exec) :
  reachable p plans s ->
  registry s = activePlans p /\
  (main s <> Returned -> mu_locked s = true) /\
  (main s = Returned -> Forall (relocation_fails p) plans).
Proof.
  intros H. split; [|split].
  - now apply executeMigrations_retires_nothing in H.
  - now apply exec_invariant_reachable in H as (_ & Hmu & _).
  - now apply executeMigrations_retires_nothing in H.
Qed.

(** X21 (witness): the state after the worker of [busy_planner] has
    carried its relocation out. *)
Lemma executeMigrations_never_retires_witness :
  registry {| registry := {[ "c1" := plan_c1 ]}; mu_locked := true;
              main := Spawning []; workers := [(plan_c1, Locking)] |}
  = activePlans busy_planner.
Proof.
  apply (executeMigrations_never_retires busy_planner (snapshot busy_planner)).
  apply (run_reachable busy_planner [TMain; TWorker 0]). reflexivity.
Defined.

(** X22.  When every relocation fails and the configuration allows at
    least one migration at a time, the pass can run to its end: started
    one after the other, the workers all finish, the pass returns with
    the mutex released, and the registry still holds every plan. *)
Theorem executeMigrations_returns_when_all_fail (p : Planner)
    (plans : list MigrationPlan) :
  1 <= ConcurrentMigrations (config p) ->
  Forall (relocation_fails p) plans ->
  run p (serial_schedule 0 plans) (exec_init p plans)
  = Some {| registry := activePlans p; mu_locked := false; main := Returned;
            workers := map (fun plan => (plan, Finished)) plans |}.
Proof.
  intros Hslots Hfail.
  apply (serial_schedule_runs p Hslots plans [] (activePlans p) true Hfail).
  reflexivity.
Qed.

(** X22 (witness): the registry of [thwarted_planner], whose provider
    refuses every relocation. *)
Lemma executeMigrations_returns_when_all_fail_witness :
  run thwarted_planner (serial_schedule 0 (snapshot thwarted_planner))
      (exec_init thwarted_planner (snapshot thwarted_planner))
  = Some {| registry := activePlans thwarted_planner; mu_locked := false;
            main := Returned;
            workers := map (fun plan => (plan, Finished)) (snapshot thwarted_planner) |}.
Proof.
  apply (executeMigrations_returns_when_all_fail thwarted_planner
           (snapshot thwarted_planner)).
  - vm_compute. discriminate.
  - apply List.Forall_forall. intros plan _. vm_compute. discriminate.
Defined.

(** X23.  The semaphore bounds the relocations under way: in every state
    a pass can reach, the workers started and not yet finished number at
    most [ConcurrentMigrations] (none when that is zero). *)
Theorem executeMigrations_concurrency_cap (p : Planner) (plans : list MigrationPlan)
    (s : Exec) :
  reachable p plans s ->
  0 <= in_flight (workers s) <= Z.max 0 (ConcurrentMigrations (config p)).
Proof.
  intros H. split; [apply in_flight_nonneg|].
  revert s H. unfold reachable.
  apply (rtc_ind_r (fun s => in_flight (workers s)
                             <= Z.max 0 (ConcurrentMigrations (config p)))
           (exec_init p plans)).
  - simpl. unfold in_flight, len. simpl. lia.
  - intros s s' _ Hstep IH. now apply (concurrency_cap_step p s s').
Qed.

(** X23 (witness): [busy_planner] once its one worker is started. *)
Lemma executeMigrations_concurrency_cap_witness :
  0 <= in_flight [(plan_c1, Migrating)] <= Z.max 0 3.
Proof.
  apply (executeMigrations_concurrency_cap busy_planner (snapshot busy_planner)
           {| registry := {[ "c1" := plan_c1 ]}; mu_locked := true;
              main := Spawning []; workers := [(plan_c1, Migrating)] |}).
  apply (run_reachable busy_planner [TMain]). reflexivity.
Defined.

(** X24.  With [ConcurrentMigrations] set to zero the semaphore has no
    slot: a pass with a plan to carry out stops at its first send, holding
    the planner's mutex, with no worker started; no thread can step, and
    the initial state is the only one it reaches. *)
Theorem executeMigrations_zero_slots_blocks (p : Planner) (plans : list MigrationPlan) :
  ConcurrentMigrations (config p) = 0 ->
  plans <> [] ->
  deadlocked p (exec_init p plans) /\
  mu_locked (exec_init p plans) = true /\
  (forall s, reachable p plans s -> s = exec_init p plans).
Proof.
  intros Hzero Hplans.
  assert (Hstuck : forall t, exec_step p t (exec_init p plans) = None).
  { intros [|i]; simpl.
    - destruct plans as [|plan rest]; [contradiction|].
      rewrite Hzero. reflexivity.
    - reflexivity. }
  split; [|split].
  - split; [discriminate | exact Hstuck].
  - reflexivity.
  - unfold reachable.
    apply (rtc_ind_r (fun s => s = exec_init p plans) (exec_init p plans)).
    + reflexivity.
    + intros s s' _ [t Hstep] ->. rewrite Hstuck in Hstep. discriminate.
Qed.

(** X24 (witness): the registry of [busy_planner] under a configuration
    with no slot. *)
Lemma executeMigrations_zero_slots_blocks_witness :
  deadlocked slotless_planner (exec_init slotless_planner [plan_c1]) /\
  mu_locked (exec_init slotless_planner [plan_c1]) = true /\
  (forall s, reachable slotless_planner [plan_c1] s ->
     s = exec_init slotless_planner [plan_c1]).
Proof.
  apply (executeMigrations_zero_slots_blocks slotless_planner [plan_c1]).
  - reflexivity.
  - discriminate.
Defined.

End ExecutionMore.

(** * The tag manager *)

Section TagsMore.

Import ecotags.

Open Scope Q_scope.

Lemma initializeTags_entries (order : list (string * EcoTag)) :
  Permutation order (map_to_list initializeTags) ->
  NoDup (map fst order) /\
  (forall entry, In entry order ->
     In entry
       [("eco-efficient", {| Name := "eco-efficient"; Score := Fin 100;
                             Weight := Fin 1; Threshold := Fin 80 |});
        ("energy-intensive", {| Name := "energy-intensive"; Score := Fin 20;
                                Weight := Fin 1; Threshold := Fin 500 |});
        ("carbon-neutral", {| Name := "carbon-neutral"; Score := Fin 100;
                              Weight := Fin (15 # 10); Threshold := Fin (1 # 10) |});
        ("optimizable", {| Name := "optimizable"; Score := Fin 50;
                           Weight := Fin (8 # 10); Threshold := Fin 60 |});
        ("peak-hours", {| Name := "peak-hours"; Score := Fin 30;
                          Weight := Fin (7 # 10); Threshold := Fin (8 # 10) |})]) /\
  (forall name tag, initializeTags !! name = Some tag -> In (name, tag) order).
Proof.
  intros Hperm. split; [|split].
  - apply NoDup_ListNoDup.
    apply (Permutation_NoDup (l := map fst (map_to_list initializeTags))).
    + apply Permutation_map. now symmetry.
    + apply NoDup_ListNoDup. apply (NoDup_fst_map_to_list initializeTags).
  - intros entry Hin. apply (Permutation_in _ Hperm) in Hin.
    vm_compute in Hin. vm_compute. tauto.
  - intros name tag Hlook. apply (Permutation_in (l := map_to_list initializeTags)).
    + now symmetry.
    + apply (proj1 (list_elem_of_In (map_to_list initializeTags) (name, tag))).
      apply (proj2 (elem_of_map_to_list initializeTags name tag)). exact Hlook.
Qed.

Lemma initializeTags_sound (order : list (string * EcoTag)) :
  Permutation order (map_to_list initializeTags) -> Forall sound_tag order.
Proof.
  intros Hperm. apply List.Forall_forall. intros entry Hin.
  apply (initializeTags_entries order Hperm) in Hin.
  unfold sound_tag.
  destruct Hin as [<-|[<-|[<-|[<-|[<-|[]]]]]]; simpl;
    eexists; eexists; (split; [reflexivity|]); (split; [reflexivity|]);
    repeat split; reflexivity || discriminate.
Qed.

(** The loop over the tags in closed form: the tags awarded, in the order
    of the visit, and totals that keep the score between 20 and 100 times
    the weight. *)
Lemma award_fold (Hour : Z -> Z) (metrics : list MetricData)
    (avgPower avgCarbon : float64) (order : list (string * EcoTag)) :
  Forall sound_tag order ->
  forall (tags0 : list string) (s0 w0 : Q),
  exists s w : Q,
    fold_left (award Hour metrics avgPower avgCarbon) order (tags0, Fin s0, Fin w0)
    = (tags0 ++ map fst
         (List.filter (fun e => deserves Hour metrics avgPower avgCarbon (fst e) (snd e))
            order),
       Fin s, Fin w) /\
    20 * (w - w0) <= s - s0 /\ s - s0 <= 100 * (w - w0) /\ w0 <= w /\
    (List.filter (fun e => deserves Hour metrics avgPower avgCarbon (fst e) (snd e)) order
     = [] -> w == w0) /\
    (List.filter (fun e => deserves Hour metrics avgPower avgCarbon (fst e) (snd e)) order
     <> [] -> w0 < w).
Proof.
  induction 1 as [|[name tag] order Hsound _ IH]; intros tags0 s0 w0.
  - exists s0, w0. simpl. rewrite app_nil_r.
    split; [reflexivity|]. repeat split; try lra. intros H. now elim H.
  - destruct Hsound as (score & weight & Hscore & Hweight & Hlo & Hhi & Hpos).
    simpl in Hscore, Hweight. cbn [fold_left award List.filter fst snd].
    destruct (deserves Hour metrics avgPower avgCarbon name tag).
    + rewrite Hscore, Hweight. cbn [fmul fadd].
      destruct (IH (tags0 ++ [name])%list (s0 + score * weight) (w0 + weight))
        as (s & w & Hfold & H1 & H2 & H3 & _ & _).
      exists s, w. rewrite Hfold, <- app_assoc. split; [reflexivity|].
      assert (Hk1 : 20 * weight <= score * weight)
        by (apply Qmult_le_compat_r; lra).
      assert (Hk2 : score * weight <= 100 * weight)
        by (apply Qmult_le_compat_r; lra).
      repeat split; try lra; discriminate.
    + destruct (IH tags0 s0 w0) as (s & w & Hfold & H). exists s, w. now split.
Qed.

(** The counting loop of [isPeakHoursActive] in closed form. *)
Lemma count_peak_fold (Hour : Z -> Z) (metrics : list MetricData) (peak total : Z) :
  fold_left (count_peak Hour) metrics (peak, total)
  = ((peak + len (drawing_power (in_peak_hours Hour metrics)))%Z,
     (total + len (in_peak_hours Hour metrics))%Z).
Proof.
  revert peak total. induction metrics as [|m metrics IH]; intros peak total.
  - simpl. unfold len. simpl. now rewrite !Z.add_0_r.
  - cbn [fold_left count_peak]. unfold in_peak_hours, drawing_power in *.
    cbn [List.filter]. destruct (peakHours (Hour (Timestamp m))).
    + cbn [List.filter]. destruct (fgt (PowerUsage m) (Fin 0));
        rewrite IH; unfold len; cbn [length]; f_equal; lia.
    + apply IH.
Qed.

Lemma analyzeContainer_inv (Hour : Z -> Z) (order : list (string * EcoTag)) (now : Z)
    (tm : TagManager) (container : Container) (profile : ServiceEcoProfile) :
  Forall sound_tag order ->
  analyzeContainer Hour order now tm container = Some profile ->
  exists (metrics : list MetricData) (s w : Q),
    metrics.GetMetrics (collector tm) (cServerID container) = Ok metrics /\
    (MinDataPoints (config tm) <= len metrics)%Z /\
    pTags profile
    = map fst (List.filter
                 (fun e => deserves Hour metrics (metrics.calculateMean metrics)
                             (fdiv (metrics.sum_over CarbonFootprint metrics)
                                   (of_int (len metrics)))
                             (fst e) (snd e)) order) /\
    pEcoScore profile = (if Qeq_bool w 0 then Fin 50 else fdiv (Fin s) (Fin w)) /\
    20 * w <= s /\ s <= 100 * w /\ 0 <= w /\
    (pTags profile = [] -> w == 0) /\ (pTags profile <> [] -> 0 < w).
Proof.
  intros Hsound. unfold analyzeContainer.
  destruct (metrics.GetMetrics (collector tm) (cServerID container)) as [metrics|];
    [|discriminate].
  destruct (len metrics <? MinDataPoints (config tm))%Z eqn:Hlen; [discriminate|].
  apply Z.ltb_ge in Hlen.
  destruct (award_fold Hour metrics (metrics.calculateMean metrics)
              (fdiv (metrics.sum_over CarbonFootprint metrics) (of_int (len metrics)))
              order Hsound [] 0 0)
    as (s & w & Hfold & H1 & H2 & H3 & H4 & H5).
  unfold metrics.calculateMean in *. unfold zero. rewrite Hfold.
  intros [= <-]. exists metrics, s, w. cbn.
  split; [reflexivity|]. split; [assumption|]. split; [reflexivity|].
  split; [reflexivity|]. repeat split; try lra.
  - intros Hnone. apply H4. now apply map_eq_nil in Hnone.
  - intros Hsome. apply H5. intros E. apply Hsome. now rewrite E.
Qed.

Lemma not_both_thresholds (score : float64) :
  fle (Fin 80) score = true -> flt score (Fin 60) = true -> False.
Proof.
  destruct score as [q| | |]; simpl; try discriminate.
  destruct (80 ?= q) eqn:H1; try discriminate;
    destruct (q ?= 60) eqn:H2; try discriminate; intros _ _;
    rewrite <- ?Qeq_alt, <- ?Qlt_alt in *; lra.
Qed.

Lemma In_filter_fst (A : Type) (f : string * A -> bool) (l : list (string * A))
    (name : string) :
  In name (map fst (List.filter f l)) <-> exists a, In (name, a) l /\ f (name, a) = true.
Proof.
  rewrite in_map_iff. split.
  - intros ([n a] & <- & [Hin Hf]%filter_In). now exists a.
  - intros (a & Hin & Hf). exists (name, a). split; [reflexivity|].
    apply filter_In. now split.
Qed.

(** X25.  The tags of a profile.  With the predefined tags, whatever the
    order in which the map is ranged over, a profile lists no tag twice;
    [eco-efficient] is listed exactly when the server's eco-score is at
    least 80 and [optimizable] exactly when it is below 60, so no profile
    carries both. *)
Theorem analyzeContainer_tags (Hour : Z -> Z) (order : list (string * EcoTag))
    (now : Z) (tm : TagManager) (container : Container)
    (metrics : list MetricData) (profile : ServiceEcoProfile) :
  tags tm = initializeTags ->
  Permutation order (map_to_list (tags tm)) ->
  metrics.GetMetrics (collector tm) (cServerID container) = Ok metrics ->
  analyzeContainer Hour order now tm container = Some profile ->
  NoDup (pTags profile) /\
  (In "eco-efficient"%string (pTags profile)
   <-> fle (Fin 80) (metrics.CalculateEcoScore metrics) = true) /\
  (In "optimizable"%string (pTags profile)
   <-> flt (metrics.CalculateEcoScore metrics) (Fin 60) = true) /\
  ~ (In "eco-efficient"%string (pTags profile) /\
     In "optimizable"%string (pTags profile)).
Proof.
  intros Htags Hperm Hget Hprofile. rewrite Htags in Hperm.
  destruct (initializeTags_entries order Hperm) as (Hnodup & Hentries & Hall).
  destruct (analyzeContainer_inv Hour order now tm container profile
              (initializeTags_sound order Hperm) Hprofile)
    as (metrics' & s & w & Hget' & _ & Htagged & _).
  rewrite Hget in Hget'. injection Hget' as <-.
  assert (Heco : In "eco-efficient"%string (pTags profile)
                 <-> fle (Fin 80) (metrics.CalculateEcoScore metrics) = true).
  { rewrite Htagged, In_filter_fst. split.
    - intros (tag & Hin & Hd). apply Hentries in Hin.
      destruct Hin as [E|[E|[E|[E|[E|[]]]]]]; try discriminate E.
      injection E as <-. exact Hd.
    - intros Hd. eexists. split; [apply Hall; reflexivity | exact Hd]. }
  assert (Hopt : In "optimizable"%string (pTags profile)
                 <-> flt (metrics.CalculateEcoScore metrics) (Fin 60) = true).
  { rewrite Htagged, In_filter_fst. split.
    - intros (tag & Hin & Hd). apply Hentries in Hin.
      destruct Hin as [E|[E|[E|[E|[E|[]]]]]]; try discriminate E.
      injection E as <-. exact Hd.
    - intros Hd. eexists. split; [apply Hall; reflexivity | exact Hd]. }
  split; [|split; [exact Heco|split; [exact Hopt|]]].
  - rewrite Htagged. apply NoDup_ListNoDup. apply NoDup_ListNoDup in Hnodup.
    clear -Hnodup. induction order as [|e order IH]; simpl.
    + constructor.
    + inversion Hnodup as [|? ? Hnew Hrest]; subst.
      destruct (deserves _ _ _ _ _ _); [|now apply IH].
      simpl. constructor; [|now apply IH].
      intros Hin. apply Hnew. apply in_map_iff in Hin as (x & <- & Hx).
      apply in_map. now apply filter_In in Hx.
  - intros [H1 H2]. apply Heco in H1. apply Hopt in H2.
    exact (not_both_thresholds _ H1 H2).
Qed.

(** X25 (witness): the container on [green], whose eco-score is 100. *)
Lemma analyzeContainer_tags_witness :
  exists profile,
    analyzeContainer utc_hour (map_to_list initializeTags) scenario_now eager_manager
      (container "c1" "green" 200) = Some profile /\
    NoDup (pTags profile) /\
    (In "eco-efficient"%string (pTags profile)
     <-> fle (Fin 80) (metrics.CalculateEcoScore [green_sample]) = true) /\
    (In "optimizable"%string (pTags profile)
     <-> flt (metrics.CalculateEcoScore [green_sample]) (Fin 60) = true) /\
    ~ (In "eco-efficient"%string (pTags profile) /\
       In "optimizable"%string (pTags profile)).
Proof.
  eexists. split; [vm_compute; reflexivity|].
  apply (analyzeContainer_tags utc_hour (map_to_list initializeTags) scenario_now
           eager_manager (container "c1" "green" 200) [green_sample]).
  - reflexivity.
  - reflexivity.
  - reflexivity.
  - vm_compute. reflexivity.
Defined.

(** X26.  The eco-score of a profile is the weighted mean of the scores
    of its tags: 50 when it has no tag, and otherwise a finite value
    between 20 and 100, whatever the order in which the tags were
    visited. *)
Theorem analyzeContainer_score_range (Hour : Z -> Z) (order : list (string * EcoTag))
    (now : Z) (tm : TagManager) (container : Container) (profile : ServiceEcoProfile) :
  tags tm = initializeTags ->
  Permutation order (map_to_list (tags tm)) ->
  analyzeContainer Hour order now tm container = Some profile ->
  (pTags profile = [] -> pEcoScore profile = Fin 50) /\
  (pTags profile <> [] -> within 20 100 (pEcoScore profile)).
Proof.
  intros Htags Hperm Hprofile. rewrite Htags in Hperm.
  destruct (analyzeContainer_inv Hour order now tm container profile
              (initializeTags_sound order Hperm) Hprofile)
    as (metrics & s & w & _ & _ & _ & Hscore & Hlo & Hhi & Hw & Hnone & Hsome).
  split.
  - intros Hempty. specialize (Hnone Hempty). rewrite Hscore.
    apply Qeq_bool_iff in Hnone. now rewrite Hnone.
  - intros Hany. specialize (Hsome Hany). rewrite Hscore.
    destruct (Qeq_bool w 0) eqn:Hz.
    { apply Qeq_bool_iff in Hz. lra. }
    rewrite fdiv_finite by lra.
    exists (s / w). split; [reflexivity|]. split.
    + apply Qle_shift_div_l; lra.
    + apply Qle_shift_div_r; lra.
Qed.

(** X26 (witness): the container on [cool], tagged [optimizable] and
    [energy-intensive]. *)
Lemma analyzeContainer_score_range_witness :
  exists profile,
    analyzeContainer utc_hour (map_to_list initializeTags) scenario_now eager_manager
      (container "c1" "cool" 200) = Some profile /\
    pTags profile <> [] /\ within 20 100 (pEcoScore profile).
Proof.
  eexists. split; [vm_compute; reflexivity|].
  split; [discriminate|].
  apply (analyzeContainer_score_range utc_hour (map_to_list initializeTags) scenario_now
           eager_manager (container "c1" "cool" 200)).
  - reflexivity.
  - reflexivity.
  - vm_compute. reflexivity.
  - discriminate.
Defined.

(** X27.  [isPeakHoursActive] looks only at the samples taken between
    9:00 and 17:59: it holds exactly when there is such a sample and at
    least four in five of them draw power.  A series with no sample in
    those hours is never active in peak hours. *)
Theorem isPeakHoursActive_four_in_five (Hour : Z -> Z) (metrics : list MetricData) :
  isPeakHoursActive Hour metrics = true
  <-> (in_peak_hours Hour metrics <> [] /\
       (4 * len (in_peak_hours Hour metrics)
        <= 5 * len (drawing_power (in_peak_hours Hour metrics)))%Z).
Proof.
  unfold isPeakHoursActive. rewrite count_peak_fold. rewrite !Z.add_0_l.
  set (seen := in_peak_hours Hour metrics).
  destruct (len seen =? 0)%Z eqn:Hzero.
  - apply Z.eqb_eq in Hzero. split; [discriminate|].
    intros [Hsome _]. destruct seen; [now elim Hsome|].
    unfold len in Hzero. simpl in Hzero. lia.
  - apply Z.eqb_neq in Hzero.
    assert (Hpos : (0 < len seen)%Z) by (unfold len in *; lia).
    assert (HposQ : 0 < inject_Z (len seen)).
    { change 0 with (inject_Z 0). now rewrite <- Zlt_Qlt. }
    unfold of_int. rewrite fdiv_finite by lra.
    unfold fle.
    assert (Hiff : (8 # 10) <= inject_Z (len (drawing_power seen)) / inject_Z (len seen)
                   <-> (4 * len seen <= 5 * len (drawing_power seen))%Z).
    { split.
      - intros H.
        assert (E : inject_Z (len (drawing_power seen)) / inject_Z (len seen)
                    * inject_Z (len seen) == inject_Z (len (drawing_power seen)))
          by (field; lra).
        pose proof (Qmult_le_compat_r _ _ (inject_Z (len seen)) H
                      (Qlt_le_weak _ _ HposQ)) as H'.
        rewrite E in H'.
        rewrite Zle_Qle, !inject_Z_mult.
        change (inject_Z 4) with 4. change (inject_Z 5) with 5. lra.
      - intros H. apply Qle_shift_div_l; [exact HposQ|].
        rewrite Zle_Qle, !inject_Z_mult in H.
        change (inject_Z 4) with 4 in H. change (inject_Z 5) with 5 in H. lra. }
    rewrite <- Hiff, Qle_alt.
    destruct ((8 # 10) ?= inject_Z (len (drawing_power seen)) / inject_Z (len seen)).
    + split; [intros _ | reflexivity]. split; [|discriminate].
      intros E. rewrite E in Hzero. now apply Hzero.
    + split; [intros _ | reflexivity]. split; [|discriminate].
      intros E. rewrite E in Hzero. now apply Hzero.
    + split; [discriminate|]. intros [_ H]. now elim H.
Qed.

End TagsMore.

(** * Servers without samples *)

Section Unmonitored.

Open Scope Q_scope.

Lemma not_flt_Fin (a b : Q) : b <= a -> fgt (Fin b) (Fin a) = false.
Proof.
  intros H.
  change (fgt (Fin b) (Fin a)) with (match a ?= b with Lt => true | _ => false end).
  destruct (a ?= b) eqn:E; [reflexivity| |reflexivity].
  apply Qlt_alt in E. lra.
Qed.

Lemma getServerEcoScore_unmonitored (p : migration.Planner) (serverID : string) :
  metrics.GetMetrics (migration.collector p) serverID = Ok [] \/
  (exists e, metrics.GetMetrics (migration.collector p) serverID = Err e) ->
  migration.getServerEcoScore p serverID = Fin 0.
Proof.
  unfold migration.getServerEcoScore. intros [->|[e ->]]; reflexivity.
Qed.

(** X28.  A server the collector has no sample for, whether unknown to it
    or known with an empty series, has eco-score 0 for the planner, and as
    a migration target it is credited with saving the whole power draw of
    the container; no target with an eco-score above zero is credited
    with more.  (The source's eco-score is taken finite and above zero,
    the container's draw finite and above zero.) *)
Theorem unmonitored_target_saves_full_power (p : migration.Planner) (c : Container)
    (source target : Server) (draw score : Q) :
  cPowerUsage c = Fin draw -> 0 < draw ->
  migration.getServerEcoScore p (ID source) = Fin score -> 0 < score ->
  (metrics.GetMetrics (migration.collector p) (ID target) = Ok [] \/
   exists e, metrics.GetMetrics (migration.collector p) (ID target) = Err e) ->
  migration.getServerEcoScore p (ID target) = Fin 0 /\
  feq (migration.estimatePowerSaving p c source target) (cPowerUsage c) = true /\
  (forall (other : Server) (q : Q),
     migration.getServerEcoScore p (ID other) = Fin q -> 0 < q ->
     fgt (migration.estimatePowerSaving p c source other) (cPowerUsage c) = false).
Proof.
  intros Hdraw Hpos Hsource Hscore Hnone.
  pose proof (getServerEcoScore_unmonitored p (ID target) Hnone) as Htarget.
  split; [exact Htarget|]. unfold migration.estimatePowerSaving.
  rewrite Hdraw, Hsource. split.
  - rewrite Htarget, fdiv_finite by lra. cbn [fmul fsub fneg fadd feq].
    apply Qeq_bool_iff. field. lra.
  - intros other q -> Hq. rewrite fdiv_finite by lra. cbn [fmul fsub fneg fadd].
    assert (Hratio : 0 < q / score) by (apply Qlt_shift_div_l; lra).
    assert (Hloss : 0 < draw * (q / score)) by (now apply Qmult_lt_0_compat).
    apply not_flt_Fin. lra.
Qed.

(** X28 (witness): container [c1] on [cool], with the unknown server
    [dark] and the server [worn] as targets. *)
Lemma unmonitored_target_saves_full_power_witness :
  migration.getServerEcoScore declining_planner "dark" = Fin 0 /\
  feq (migration.estimatePowerSaving declining_planner (container "c1" "cool" 200)
         (server "cool") (server "dark")) (Fin 200) = true /\
  fgt (migration.estimatePowerSaving declining_planner (container "c1" "cool" 200)
         (server "cool") (server "worn")) (Fin 200) = false.
Proof.
  destruct (unmonitored_target_saves_full_power declining_planner
              (container "c1" "cool" 200) (server "cool") (server "dark") 200
              (94000000000 # 2000000000))
    as (H1 & H2 & H3).
  - reflexivity.
  - reflexivity.
  - vm_compute. reflexivity.
  - reflexivity.
  - right. eexists. vm_compute. reflexivity.
  - split; [exact H1|]. split; [exact H2|].
    apply (H3 (server "worn") 12.000000).
    + vm_compute. reflexivity.
    + reflexivity.
Defined.

(** X29.  A sweep never forgets a server.  A server all of whose samples
    are at or before the cutoff stays known to the collector with an
    empty series: [GetMetrics] answers without error, the autoscaler
    takes no action on the server, the planner gives it eco-score 0, and
    the analyzer, asked for at least one data point, reports insufficient
    data. *)
Theorem expired_server_stays_known (c : metrics.Collector) (now : Z) (serverID : string)
    (sm : metrics.ServerMetrics) :
  metrics.metrics c !! serverID = Some sm ->
  Forall (fun m => (time.Unix (Timestamp m)
                    <= now - metrics.RetentionPeriod (metrics.config c))%Z)
         (metrics.Data sm) ->
  metrics.GetMetrics (metrics.cleanupOldMetrics c now) serverID = Ok [] /\
  (forall (enumerate : Enumeration) (a : scaling.Autoscaler) (tick : Z) (server : Server),
     scaling.collector a = metrics.cleanupOldMetrics c now -> ID server = serverID ->
     scaling.evaluate_server enumerate a tick server = scaling.no_action a) /\
  (forall p : migration.Planner,
     migration.collector p = metrics.cleanupOldMetrics c now ->
     migration.getServerEcoScore p serverID = Fin 0) /\
  (forall (Sqrt : float64 -> float64) (a : metrics.Analyzer),
     metrics.a_collector a = metrics.cleanupOldMetrics c now ->
     (1 <= metrics.MinDataPoints (metrics.a_config a))%Z ->
     metrics.AnalyzeServerMetrics Sqrt a serverID
     = metrics.Returns (Err "insufficient data points for analysis")).
Proof.
  intros Hsm Hold.
  assert (Hget : metrics.GetMetrics (metrics.cleanupOldMetrics c now) serverID = Ok []).
  { unfold metrics.GetMetrics, metrics.cleanupOldMetrics, metrics.set_metrics, time.Add.
    simpl. rewrite lookup_fmap, Hsm. simpl. f_equal.
    induction Hold as [|m l Hm _ IH]; [reflexivity|]. simpl.
    destruct (metrics.fresh _ m) eqn:Hfresh; [|exact IH].
    apply fresh_spec in Hfresh. lia. }
  split; [exact Hget|]. split; [|split].
  - intros enumerate a tick server Hc <-. unfold scaling.evaluate_server.
    rewrite Hc, Hget. reflexivity.
  - intros p Hc. unfold migration.getServerEcoScore. rewrite Hc, Hget. reflexivity.
  - intros Sqrt a Hc Hmin. unfold metrics.AnalyzeServerMetrics. rewrite Hc, Hget.
    replace (len [] <? metrics.MinDataPoints (metrics.a_config a))%Z with true;
      [reflexivity|].
    symmetry. apply Z.ltb_lt. unfold len. simpl. lia.
Qed.

(** X29 (witness): the sample of server [old], taken at 900 s, swept at
    1000 s under a retention period of 100 s. *)
Lemma expired_server_stays_known_witness :
  metrics.GetMetrics (metrics.cleanupOldMetrics stale_collector (time.Unix 1000)) "old"
  = Ok [].
Proof.
  apply (expired_server_stays_known stale_collector (time.Unix 1000) "old"
           (series [sample_at_900])).
  - reflexivity.
  - constructor; [|constructor]. vm_compute. discriminate.
Defined.

End Unmonitored.
